(** * claude-optic: session readers, privacy redaction and aggregations

    A shallow embedding of the TypeScript sources
    (privacy/redact.ts, privacy/config.ts, readers/history-reader.ts,
    readers/session-reader.ts, readers/project-reader.ts,
    parsers/session-detail.ts, parsers/content-blocks.ts,
    parsers/tool-categories.ts, aggregations/time.ts,
    aggregations/project.ts, aggregations/tools.ts, pricing.ts,
    utils/paths.ts, utils/dates.ts, utils/jsonl.ts, and the sessions
    interface of index.ts)
    together with the properties the specification states about them.

    Conventions of the embedding.
    - A JavaScript string is a [string]: the sequence of its code units,
      every one of them below 256 (character [n] is code unit [n]).
    - A JavaScript number that holds an integer (epoch milliseconds, token
      counts) is a [Z]. Prices and costs are IEEE 754 doubles ([Num.t]),
      every operation on them rounding as the platform does. The hours of
      [estimateHours], one division of an exact integer, are given as the
      exact rational ([Q]) of which the number returned is the nearest
      double.
    - An optional property is an [option]; [Map] and [Set], whose iteration
      order is insertion order, are lists kept in that order; a plain object
      used as a dictionary is the [gmap] of its own properties, read through
      [getProperty], which also finds what [Object.prototype] bequeaths,
      wherever the key is not fixed by the code.
    - What the platform provides and the repository does not implement
      (the regular-expression engine, [JSON.parse], the local calendar of
      [Date], [os.homedir]) is gathered in the record [Runtime]. *)

From Stdlib Require Import ZArith QArith Ascii String List Sorted Permutation Lia.
From Stdlib Require SpecFloat.
From stdpp Require Import base tactics option list strings gmap pretty sorting.

Local Open Scope Z_scope.

(** ** String primitives of the platform *)

Module Str.

(** [String.prototype.startsWith]. *)
Definition startsWith (p s : string) : bool := String.prefix p s.

(** [String.prototype.includes]. *)
Fixpoint includes (p s : string) : bool :=
  String.prefix p s ||
  match s with
  | EmptyString => false
  | String _ s' => includes p s'
  end.

(** Does the character occur in the string? *)
Fixpoint hasChar (c : ascii) (s : string) : bool :=
  match s with
  | EmptyString => false
  | String d s' => Ascii.eqb c d || hasChar c s'
  end.

(** [s.replace(/c/g, d)] for a one-character pattern [c] and a
    one-character replacement [d]. *)
Fixpoint replaceChar (c d : ascii) (s : string) : string :=
  match s with
  | EmptyString => EmptyString
  | String x s' => String (if Ascii.eqb x c then d else x) (replaceChar c d s')
  end.

(** [String.prototype.split] with a one-character separator: the pieces
    between the separators, never an empty list. *)
Fixpoint split (sep : ascii) (s : string) : list string :=
  match s with
  | EmptyString => [EmptyString]
  | String c s' =>
      if Ascii.eqb c sep then EmptyString :: split sep s'
      else match split sep s' with
           | [] => [String c EmptyString]
           | piece :: rest => String c piece :: rest
           end
  end.

(** [Array.prototype.join]. *)
Definition join (sep : string) (l : list string) : string := String.concat sep l.

(** [String.prototype.slice(0, n)]. *)
Fixpoint take (n : nat) (s : string) : string :=
  match n, s with
  | S k, String c s' => String c (take k s')
  | _, _ => EmptyString
  end.

Fixpoint drop (n : nat) (s : string) : string :=
  match n, s with
  | S k, String _ s' => drop k s'
  | _, _ => s
  end.

Fixpoint takeWhile (p : ascii -> bool) (s : string) : string :=
  match s with
  | EmptyString => EmptyString
  | String c s' => if p c then String c (takeWhile p s') else EmptyString
  end.

(** The white space of [String.prototype.trim] and of the class [\s],
    among the code units below 256: tab, line feed, vertical tab, form
    feed, carriage return, space and no-break space. *)
Definition isWhite (c : ascii) : bool :=
  match nat_of_ascii c with
  | 9%nat | 10%nat | 11%nat | 12%nat | 13%nat | 32%nat | 160%nat => true
  | _ => false
  end.

(** [!s.trim()]: the string is empty once trimmed. *)
Fixpoint isBlank (s : string) : bool :=
  match s with
  | EmptyString => true
  | String c s' => isWhite c && isBlank s'
  end.

(** [String.prototype.toLowerCase] on one code unit below 256: the letters A
    to Z, and the capital letters of Latin-1 (192 to 222, the multiplication
    sign 215 apart). *)
Definition lowerChar (c : ascii) : ascii :=
  let n := nat_of_ascii c in
  if (65 <=? n)%nat && (n <=? 90)%nat then ascii_of_nat (n + 32)
  else if (192 <=? n)%nat && (n <=? 222)%nat && negb (n =? 215)%nat
       then ascii_of_nat (n + 32)
       else c.

Fixpoint toLowerCase (s : string) : string :=
  match s with
  | EmptyString => EmptyString
  | String c s' => String (lowerChar c) (toLowerCase s')
  end.

(** [s.replaceAll(pat, rep)] for a string pattern: the occurrences are
    replaced from left to right and do not overlap. [skip] counts the
    characters of the occurrence just replaced that are still to pass. *)
Fixpoint replaceAllFrom (pat rep s : string) (skip : nat) : string :=
  match s with
  | EmptyString => EmptyString
  | String c s' =>
      match skip with
      | S k => replaceAllFrom pat rep s' k
      | O =>
          if String.prefix pat s
          then rep +:+ replaceAllFrom pat rep s' (String.length pat - 1)
          else String c (replaceAllFrom pat rep s' 0)
      end
  end.

Fixpoint intersperse (rep s : string) : string :=
  match s with
  | EmptyString => EmptyString
  | String c s' => String c (rep +:+ intersperse rep s')
  end.

Definition replaceAll (pat rep s : string) : string :=
  match pat with
  | EmptyString => rep +:+ intersperse rep s   (* the empty pattern matches between all code units *)
  | _ => replaceAllFrom pat rep s 0
  end.

(** [a < b] on strings: the order of the code units. *)
Fixpoint ltb (a b : string) : bool :=
  match a, b with
  | _, EmptyString => false
  | EmptyString, String _ _ => true
  | String x a', String y b' =>
      if (nat_of_ascii x <? nat_of_ascii y)%nat then true
      else if (nat_of_ascii y <? nat_of_ascii x)%nat then false
      else ltb a' b'
  end.

(** [String.prototype.padStart(2, "0")]. *)
Definition padStart2 (s : string) : string :=
  match String.length s with
  | O => "00"
  | 1%nat => "0" +:+ s
  | _ => s
  end.

End Str.

(** [arr.slice(-2)]. *)
Definition lastTwo {A} (l : list A) : list A := drop (length l - 2) l.

(** ** utils/paths.ts *)

(** [projectPath.replace(/\//g, "-")]. *)
Definition encodeProjectPath (projectPath : string) : string :=
  Str.replaceChar "/" "-" projectPath.

(** [encoded.replace(/-/g, "/")]. *)
Definition decodeProjectPath (encoded : string) : string :=
  Str.replaceChar "-" "/" encoded.

(** [projectPath.split("/").pop() || projectPath]. *)
Definition projectName (projectPath : string) : string :=
  match last (Str.split "/" projectPath) with
  | Some EmptyString | None => projectPath
  | Some name => name
  end.

(** ** types/privacy.ts, types/transcript.ts, types/session.ts *)

(** A [RegExp] object: the source text and the flags it was built from. *)
Record RegExp := mkRegExp { source : string; flags : string }.

Record PrivacyConfig := mkPrivacyConfig {
  redactPrompts : bool;
  redactAbsolutePaths : bool;
  redactHomeDir : bool;
  stripThinking : bool;
  stripToolResults : bool;
  redactPatterns : list RegExp;
  excludeProjects : list string;
}.

Module PrivacyProfile.
Inductive t := local | shareable | strict.
End PrivacyProfile.

Module BlockType.
Inductive t := text | thinking | tool_use | tool_result.
Definition eqb (a b : t) : bool :=
  match a, b with
  | text, text | thinking, thinking | tool_use, tool_use
  | tool_result, tool_result => true
  | _, _ => false
  end.
End BlockType.

Module ContentBlock.
(** [input] is a [Record<string, ...>] whose values the parsers read as
    strings; [content], the payload of a tool result, is kept as text. *)
Record t := mk {
  type : BlockType.t;
  text : option string;
  thinking : option string;
  name : option string;
  id : option string;
  tool_use_id : option string;
  input : option (gmap string string);
  content : option string;
}.
End ContentBlock.

Module Role.
Inductive t := user | assistant.
End Role.

Inductive Content :=
| CString (s : string)
| CBlocks (blocks : list ContentBlock.t).

Module Usage.
Record t := mk {
  input_tokens : option Z;
  output_tokens : option Z;
  cache_creation_input_tokens : option Z;
  cache_read_input_tokens : option Z;
}.
End Usage.

Module Message.
Record t := mk {
  role : option Role.t;
  content : option Content;
  model : option string;
  usage : option Usage.t;
}.
End Message.

Module TranscriptEntry.
(** [toolUseResult] is of type [unknown]: only its presence is read, the
    payload is kept as text. *)
Record t := mk {
  type : option string;
  message : option Message.t;
  timestamp : option string;
  gitBranch : option string;
  planContent : option string;
  cwd : option string;
  sessionId : option string;
  isSidechain : option bool;
  parentUuid : option string;
  uuid : option string;
  toolUseResult : option string;
}.
End TranscriptEntry.

Module HistoryEntry.
Record t := mk {
  display : string;
  timestamp : Z;
  project : string;
  sessionId : string;
}.
End HistoryEntry.

Record TimeRange := mkTimeRange { start : Z; end_ : Z }.

Module SessionInfo.
Record t := mk {
  sessionId : string;
  project : string;
  projectName : string;
  prompts : list string;
  promptTimestamps : list Z;
  timeRange : TimeRange;
}.
End SessionInfo.

Module SessionMeta.
(** [SessionMeta extends SessionInfo]: [info] holds the inherited fields. *)
Record t := mk {
  info : SessionInfo.t;
  gitBranch : option string;
  model : option string;
  totalInputTokens : Z;
  totalOutputTokens : Z;
  cacheCreationInputTokens : Z;
  cacheReadInputTokens : Z;
  messageCount : Z;
}.
End SessionMeta.

Module ToolCategory.
(** The seven categories, and [member key]: the member of [Object.prototype]
    named [key], which [categorizeToolName] returns in place of a category
    for a tool of that name. *)
Inductive t :=
| file_read | file_write | shell | search | web | task | other
| member (key : string).
End ToolCategory.

Module ToolCallSummary.
Record t := mk {
  name : string;
  displayName : string;
  category : ToolCategory.t;
  target : option string;
}.
End ToolCallSummary.

Module SessionDetail.
(** [SessionDetail extends SessionMeta]: [meta] holds the inherited fields. *)
Record t := mk {
  meta : SessionMeta.t;
  assistantSummaries : list string;
  toolCalls : list ToolCallSummary.t;
  filesReferenced : list string;
  planReferenced : bool;
  thinkingBlockCount : Z;
  hasSidechains : bool;
}.
End SessionDetail.

(** ** Plain objects used as tables

    A plain object is modelled by its own properties, a [gmap]; a property
    read also finds the members inherited from [Object.prototype]. *)

(** The names of the members of [Object.prototype]. *)
Definition OBJECT_PROTOTYPE_KEYS : list string :=
  [ "constructor"; "hasOwnProperty"; "isPrototypeOf"; "propertyIsEnumerable";
    "toLocaleString"; "toString"; "valueOf"; "__proto__";
    "__defineGetter__"; "__defineSetter__"; "__lookupGetter__";
    "__lookupSetter__" ].

(** The value of [table[key]] on a plain object. *)
Inductive Property (V : Type) :=
| own (v : V)               (* an own property *)
| inherited (key : string)  (* the member of Object.prototype of that name *)
| undefined.
Arguments own {V}.
Arguments inherited {V}.
Arguments undefined {V}.

(** [table[key]]: own properties first, then the prototype. *)
Definition getProperty {V} (table : gmap string V) (key : string) : Property V :=
  match table !! key with
  | Some v => own v
  | None =>
      if bool_decide (key ∈ OBJECT_PROTOTYPE_KEYS) then inherited key else undefined
  end.

(** ** Numbers

    A number is an IEEE 754 double: a [spec_float] of precision 53 and
    exponent bound 1024. The operations round to nearest, ties to even. *)

Module Num.

Definition t : Set := SpecFloat.spec_float.


Definition add (x y : t) : t := SpecFloat.SFadd 53 1024 x y.
Definition div (x y : t) : t := SpecFloat.SFdiv 53 1024 x y.

(** The number of an integer: the integer itself when a double holds it, as
    it does every integer up to 2^53 in magnitude, the nearest double
    otherwise. *)
Definition ofZ (n : Z) : t := SpecFloat.binary_normalize 53 1024 n 0 false.

(** The number a decimal literal denotes, the literal being [n / scale] with
    [scale] a power of ten: the double nearest to that fraction. *)
Definition decimal (n scale : Z) : t := div (ofZ n) (ofZ scale).


End Num.

(** ** The platform *)

Record Runtime := mkRuntime {
  (** [os.homedir()]. *)
  homedir : string;
  (** [text.replace(re, replacement)] for a [RegExp] and a replacement string. *)
  regexReplace : RegExp → string → string → string;
  (** [getFullYear()], [getMonth()] and [getDate()] of [new Date(timestamp)]. *)
  dateFields : Z → Z * Z * Z;
  (** [JSON.parse(line) as HistoryEntry]; [None] when it throws. *)
  parseHistoryLine : string → option HistoryEntry.t;
  (** [JSON.parse(line) as TranscriptEntry]; [None] when it throws. *)
  parseTranscriptLine : string → option TranscriptEntry.t;
}.

(** Truthiness of an optional string: present and not empty. *)
Definition truthy (o : option string) : bool :=
  match o with
  | Some (String _ _) => true
  | _ => false
  end.

(** ** utils/dates.ts *)

Definition toLocalDate (rt : Runtime) (timestamp : Z) : string :=
  let '(year, month, day) := dateFields rt timestamp in
  pretty year +:+ "-" +:+ Str.padStart2 (pretty (month + 1))
              +:+ "-" +:+ Str.padStart2 (pretty day).

(** ** privacy/config.ts *)

Definition dquote : string := String "034" EmptyString.

Definition CREDENTIAL_PATTERNS : list RegExp :=
  [ mkRegExp ("(?:key|token|secret|password|api_key|apikey|auth)[" +:+ dquote
                +:+ "\s:=]+[A-Za-z0-9+/=_\-]{20,}") "gi";
    mkRegExp "Bearer\s+[A-Za-z0-9+/=_\-\.]{20,}" "g";
    mkRegExp "(?:AKIA|ABIA|ACCA|ASIA)[A-Z0-9]{16}" "g";
    mkRegExp "gh[pousr]_[A-Za-z0-9_]{36,}" "g";
    mkRegExp ("(?:secret|token|key)[" +:+ dquote +:+ "\s:=]+[0-9a-f]{32,}") "gi" ].

Definition EMAIL_PATTERN : RegExp :=
  mkRegExp "[a-zA-Z0-9._%+\-]+@[a-zA-Z0-9.\-]+\.[a-zA-Z]{2,}" "g".

Definition IP_PATTERN : RegExp :=
  mkRegExp "\b\d{1,3}\.\d{1,3}\.\d{1,3}\.\d{1,3}\b" "g".

Definition LOCAL_PROFILE : PrivacyConfig := {|
  redactPrompts := false;
  redactAbsolutePaths := false;
  redactHomeDir := false;
  stripThinking := true;
  stripToolResults := true;
  redactPatterns := [];
  excludeProjects := [];
|}.

Definition SHAREABLE_PROFILE : PrivacyConfig := {|
  redactPrompts := redactPrompts LOCAL_PROFILE;
  redactAbsolutePaths := true;
  redactHomeDir := true;
  stripThinking := stripThinking LOCAL_PROFILE;
  stripToolResults := stripToolResults LOCAL_PROFILE;
  redactPatterns := redactPatterns LOCAL_PROFILE;
  excludeProjects := excludeProjects LOCAL_PROFILE;
|}.

Definition STRICT_PROFILE : PrivacyConfig := {|
  redactPrompts := true;
  redactAbsolutePaths := redactAbsolutePaths SHAREABLE_PROFILE;
  redactHomeDir := redactHomeDir SHAREABLE_PROFILE;
  stripThinking := stripThinking SHAREABLE_PROFILE;
  stripToolResults := stripToolResults SHAREABLE_PROFILE;
  redactPatterns := CREDENTIAL_PATTERNS ++ [EMAIL_PATTERN; IP_PATTERN];
  excludeProjects := excludeProjects SHAREABLE_PROFILE;
|}.

Definition PRIVACY_PROFILES (profile : PrivacyProfile.t) : PrivacyConfig :=
  match profile with
  | PrivacyProfile.local => LOCAL_PROFILE
  | PrivacyProfile.shareable => SHAREABLE_PROFILE
  | PrivacyProfile.strict => STRICT_PROFILE
  end.

(** [Partial<PrivacyConfig>]. *)
Record PrivacyOverrides := mkPrivacyOverrides {
  o_redactPrompts : option bool;
  o_redactAbsolutePaths : option bool;
  o_redactHomeDir : option bool;
  o_stripThinking : option bool;
  o_stripToolResults : option bool;
  o_redactPatterns : option (list RegExp);
  o_excludeProjects : option (list string);
}.

Definition resolvePrivacyConfig (profile : option PrivacyProfile.t)
    (overrides : option PrivacyOverrides) : PrivacyConfig :=
  let base := PRIVACY_PROFILES (default PrivacyProfile.local profile) in
  match overrides with
  | None => base
  | Some o => {|
      redactPrompts := default (redactPrompts base) (o_redactPrompts o);
      redactAbsolutePaths := default (redactAbsolutePaths base) (o_redactAbsolutePaths o);
      redactHomeDir := default (redactHomeDir base) (o_redactHomeDir o);
      stripThinking := default (stripThinking base) (o_stripThinking o);
      stripToolResults := default (stripToolResults base) (o_stripToolResults o);
      redactPatterns := redactPatterns base ++ default [] (o_redactPatterns o);
      excludeProjects := excludeProjects base ++ default [] (o_excludeProjects o);
    |}
  end.

(** ** privacy/redact.ts *)

(** A character of the class that ends the path pattern: anything but white
    space, a double or single quote, a comma, a semicolon, a closing
    parenthesis, a closing brace and a closing bracket. *)
Definition pathChar (c : ascii) : bool :=
  negb (Str.isWhite c) &&
  match nat_of_ascii c with
  | 34%nat | 39%nat | 44%nat | 59%nat | 41%nat | 125%nat | 93%nat => false
  | _ => true
  end.

(** The match, at the very start of [s], of the pattern of absolute paths
    (a slash, [Users] or [home], a slash, then one or more path characters):
    the prefix and the longest run of path characters, which must not be
    empty. *)
Definition matchAbsolutePath (s : string) : option string :=
  let try (pre : string) :=
    if String.prefix pre s then
      match Str.takeWhile pathChar (Str.drop (String.length pre) s) with
      | EmptyString => None
      | run => Some (pre +:+ run)
      end
    else None in
  match try "/Users/" with
  | Some m => Some m
  | None => try "/home/"
  end.

(** The replacement callback: the last two of the pieces between slashes
    when there are more than two pieces, the match itself otherwise. *)
Definition compactMatch (m : string) : string :=
  let parts := Str.split "/" m in
  if (2 <? length parts)%nat then Str.join "/" (lastTwo parts) else m.

(** The global replacement of the absolute paths of [result] through the
    callback: a scan from left to right; [skip] counts the characters of the
    last match that are still to pass. *)
Fixpoint compactPathsFrom (s : string) (skip : nat) : string :=
  match s with
  | EmptyString => EmptyString
  | String c s' =>
      match skip with
      | S k => compactPathsFrom s' k
      | O =>
          match matchAbsolutePath s with
          | Some m => compactMatch m +:+ compactPathsFrom s' (String.length m - 1)
          | None => String c (compactPathsFrom s' 0)
          end
      end
  end.

Definition compactAbsolutePaths (s : string) : string := compactPathsFrom s 0.

Definition REDACTED : string := "[REDACTED]".
Definition redacted : string := "[redacted]".

(** Apply all configured redaction patterns to a string. *)
Definition redactString (rt : Runtime) (text : string) (config : PrivacyConfig) : string :=
  let result := text in
  let result :=
    if redactHomeDir config then Str.replaceAll (homedir rt) "~" result else result in
  let result :=
    if redactAbsolutePaths config then compactAbsolutePaths result else result in
  fold_left
    (λ result pattern,
       let re := mkRegExp (source pattern) (flags pattern) in
       regexReplace rt re result REDACTED)
    (redactPatterns config) result.

(** The block [filterContentBlocks] pushes for a block it keeps:
    [{ ...block, text: redactString(block.text, config) }] when the block has
    a text and patterns are configured, the block itself otherwise. *)
Definition redactBlock (rt : Runtime) (config : PrivacyConfig)
    (block : ContentBlock.t) : ContentBlock.t :=
  match ContentBlock.text block with
  | Some (String _ _ as t) =>
      if (0 <? length (redactPatterns config))%nat
      then ContentBlock.mk (ContentBlock.type block)
             (Some (redactString rt t config))
             (ContentBlock.thinking block) (ContentBlock.name block)
             (ContentBlock.id block) (ContentBlock.tool_use_id block)
             (ContentBlock.input block) (ContentBlock.content block)
      else block
  | _ => block
  end.

(** Filter content blocks according to privacy config. *)
Fixpoint filterContentBlocks (rt : Runtime) (blocks : list ContentBlock.t)
    (config : PrivacyConfig) : list ContentBlock.t :=
  match blocks with
  | [] => []
  | block :: rest =>
      if stripThinking config
         && BlockType.eqb (ContentBlock.type block) BlockType.thinking
      then filterContentBlocks rt rest config
      else if stripToolResults config
              && BlockType.eqb (ContentBlock.type block) BlockType.tool_result
      then filterContentBlocks rt rest config
      else redactBlock rt config block :: filterContentBlocks rt rest config
  end.

(** [{ ...entry, message: { ...entry.message, content } }]. *)
Definition withContent (entry : TranscriptEntry.t) (m : Message.t) (c : Content)
  : TranscriptEntry.t :=
  TranscriptEntry.mk (TranscriptEntry.type entry)
    (Some (Message.mk (Message.role m) (Some c) (Message.model m) (Message.usage m)))
    (TranscriptEntry.timestamp entry) (TranscriptEntry.gitBranch entry)
    (TranscriptEntry.planContent entry) (TranscriptEntry.cwd entry)
    (TranscriptEntry.sessionId entry) (TranscriptEntry.isSidechain entry)
    (TranscriptEntry.parentUuid entry) (TranscriptEntry.uuid entry)
    (TranscriptEntry.toolUseResult entry).

(** Filter a transcript entry according to privacy config; [None] is the
    source's [null]: skip the entry entirely. *)
Definition filterTranscriptEntry (rt : Runtime) (entry : TranscriptEntry.t)
    (config : PrivacyConfig) : option TranscriptEntry.t :=
  if stripToolResults config && bool_decide (is_Some (TranscriptEntry.toolUseResult entry))
  then None
  else
    match TranscriptEntry.message entry with
    | None => Some entry
    | Some m =>
        match redactPrompts config, Message.role m, Message.content m with
        | true, Some Role.user, Some (CString _) =>
            Some (withContent entry m (CString redacted))
        | _, Some Role.assistant, Some (CBlocks blocks) =>
            Some (withContent entry m (CBlocks (filterContentBlocks rt blocks config)))
        | _, _, _ => Some entry
        end
    end.

(** Check if a project should be excluded. *)
Definition isProjectExcluded (projectPath : string) (config : PrivacyConfig) : bool :=
  if (length (excludeProjects config) =? 0)%nat then false
  else
    let lower := Str.toLowerCase projectPath in
    existsb (λ p, Str.includes (Str.toLowerCase p) lower) (excludeProjects config).

(** ** Insertion-ordered [Map] and [Set], and [Array.prototype.sort] *)

(** [map.get(k)]. *)
Fixpoint mapGet {V} (k : string) (m : list (string * V)) : option V :=
  match m with
  | [] => None
  | (k', v) :: rest => if decide (k = k') then Some v else mapGet k rest
  end.

(** The value under [k] changed in place by [f]. *)
Fixpoint mapAlter {V} (f : V → V) (k : string) (m : list (string * V))
  : list (string * V) :=
  match m with
  | [] => []
  | (k', v) :: rest =>
      if decide (k = k') then (k', f v) :: rest else (k', v) :: mapAlter f k rest
  end.

(** [map.set(k, v)]: a present key keeps its place, a new one goes last. *)
Definition mapSet {V} (k : string) (v : V) (m : list (string * V))
  : list (string * V) :=
  match mapGet k m with
  | Some _ => mapAlter (λ _, v) k m
  | None => m ++ [(k, v)]
  end.

(** [set.add(x)]. *)
Definition setAdd (x : string) (s : list string) : list string :=
  if decide (x ∈ s) then s else s ++ [x].

(** [arr.sort((a, b) => key(a) - key(b))]: ascending in the key, and stable
    (elements with equal keys keep their order). *)
Fixpoint insertBy {A} (key : A → Z) (x : A) (sorted : list A) : list A :=
  match sorted with
  | [] => [x]
  | y :: rest =>
      if key x <=? key y then x :: y :: rest else y :: insertBy key x rest
  end.

Fixpoint sortBy {A} (key : A → Z) (l : list A) : list A :=
  match l with
  | [] => []
  | x :: rest => insertBy key x (sortBy key rest)
  end.

(** [Math.min(...l)] and [Math.max(...l)] of a list that is not empty (the
    readers call them on the timestamps of a group, which holds at least
    one; the value given for the empty list is never read). *)
Definition mathMin (l : list Z) : Z :=
  match l with
  | [] => 0
  | x :: rest => fold_left Z.min rest x
  end.

Definition mathMax (l : list Z) : Z :=
  match l with
  | [] => 0
  | x :: rest => fold_left Z.max rest x
  end.

(** ** readers/history-reader.ts *)

(** [text.split("\n")]. *)
Definition splitLines (text : string) : list string := Str.split "010" text.

(** The body of the first loop of [readHistory] on one line: the entry it
    pushes, if any. *)
Definition acceptLine (rt : Runtime) (from to : string) (privacy : PrivacyConfig)
    (line : string) : option HistoryEntry.t :=
  if Str.isBlank line then None
  else
    match parseHistoryLine rt line with
    | None => None                                   (* skip malformed *)
    | Some entry =>
        let entryDate := toLocalDate rt (HistoryEntry.timestamp entry) in
        if Str.ltb entryDate from || Str.ltb to entryDate then None
        else if isProjectExcluded (HistoryEntry.project entry) privacy then None
        else Some entry
    end.

(** The value of a [sessionMap] entry. *)
Record SessionGroup := mkSessionGroup {
  g_project : string;
  g_prompts : list string;
  g_timestamps : list Z;
}.

(** The prompt text [readHistory] stores for a row. *)
Definition historyDisplay (rt : Runtime) (privacy : PrivacyConfig)
    (entry : HistoryEntry.t) : string :=
  if redactPrompts privacy then redacted
  else if (0 <? length (redactPatterns privacy))%nat
       then redactString rt (HistoryEntry.display entry) privacy
       else HistoryEntry.display entry.

(** The body of the grouping loop. *)
Definition groupStep (rt : Runtime) (privacy : PrivacyConfig)
    (sessionMap : list (string * SessionGroup)) (entry : HistoryEntry.t)
  : list (string * SessionGroup) :=
  let existing := mapGet (HistoryEntry.sessionId entry) sessionMap in
  let display := historyDisplay rt privacy entry in
  match existing with
  | Some _ =>
      mapAlter
        (λ g, mkSessionGroup (g_project g) (g_prompts g ++ [display])
                (g_timestamps g ++ [HistoryEntry.timestamp entry]))
        (HistoryEntry.sessionId entry) sessionMap
  | None =>
      sessionMap ++
        [(HistoryEntry.sessionId entry,
          mkSessionGroup (HistoryEntry.project entry) [display]
            [HistoryEntry.timestamp entry])]
  end.

Definition toSessionInfo (kv : string * SessionGroup) : SessionInfo.t :=
  let '(sessionId, data) := kv in
  SessionInfo.mk sessionId (g_project data) (projectName (g_project data))
    (g_prompts data) (g_timestamps data)
    (mkTimeRange (mathMin (g_timestamps data)) (mathMax (g_timestamps data))).

Definition sessionStart (s : SessionInfo.t) : Z := start (SessionInfo.timeRange s).

(** Read history.jsonl and group entries into SessionInfo objects. [file] is
    the text of the history file, [None] when the file does not exist. *)
Definition readHistory (rt : Runtime) (file : option string) (from to : string)
    (privacy : PrivacyConfig) : list SessionInfo.t :=
  match file with
  | None => []
  | Some text =>
      let entries := omap (acceptLine rt from to privacy) (splitLines text) in
      let sessionMap := fold_left (groupStep rt privacy) entries [] in
      let sessions := toSessionInfo <$> sessionMap in
      sortBy sessionStart sessions
  end.

(** ** A host for worked examples

    Its local time is UTC, its home directory is [/home/alice], its regular
    expressions are literal texts (a source without metacharacters, with or
    without the flag [g]), and the lines its [JSON.parse] accepts are listed
    in a table with the value each one denotes. *)

Module Demo.

(** The civil date of a day number counted from 1970-01-01. *)
Definition civil (days : Z) : Z * Z * Z :=
  let z := days + 719468 in
  let era := z / 146097 in
  let doe := z - era * 146097 in
  let yoe := (doe - doe / 1460 + doe / 36524 - doe / 146096) / 365 in
  let doy := doe - (365 * yoe + yoe / 4 - yoe / 100) in
  let mp := (5 * doy + 2) / 153 in
  let d := doy - (153 * mp + 2) / 5 + 1 in
  let m := if mp <? 10 then mp + 3 else mp - 9 in
  let y := yoe + era * 400 + (if m <=? 2 then 1 else 0) in
  (y, m - 1, d).

Definition utcFields (timestamp : Z) : Z * Z * Z := civil (timestamp / 86400000).

Fixpoint replaceFirst (pat rep s : string) : string :=
  if String.prefix pat s then rep +:+ Str.drop (String.length pat) s
  else match s with
       | EmptyString => EmptyString
       | String c s' => String c (replaceFirst pat rep s')
       end.

Definition literalReplace (re : RegExp) (text replacement : string) : string :=
  if Str.hasChar "g" (flags re) then Str.replaceAll (source re) replacement text
  else replaceFirst (source re) replacement text.

Definition runtime (history : list (string * HistoryEntry.t))
    (transcript : list (string * TranscriptEntry.t)) : Runtime := {|
  homedir := "/home/alice";
  regexReplace := literalReplace;
  dateFields := utcFields;
  parseHistoryLine := λ line, mapGet line history;
  parseTranscriptLine := λ line, mapGet line transcript;
|}.

End Demo.

(** ** readers/session-reader.ts *)

(** The object [peekSession] starts from:
    the session with zero counts and neither branch nor model. *)
Definition initialMeta (session : SessionInfo.t) : SessionMeta.t :=
  SessionMeta.mk session None None 0 0 0 0 0.

(** [entry.gitBranch && entry.gitBranch !== "HEAD"]. *)
Definition namedBranch (b : option string) : bool :=
  truthy b && negb (bool_decide (b = Some "HEAD")).

Definition isUserOrAssistant (r : option Role.t) : bool :=
  match r with
  | Some Role.user | Some Role.assistant => true
  | None => false
  end.

(** The body of the loop of [peekSession] on one parsed entry. *)
Definition peekStep (meta : SessionMeta.t) (entry : TranscriptEntry.t) : SessionMeta.t :=
  let message := TranscriptEntry.message entry in
  (* Extract git branch from first occurrence *)
  let gitBranch :=
    if negb (truthy (SessionMeta.gitBranch meta))
       && namedBranch (TranscriptEntry.gitBranch entry)
    then TranscriptEntry.gitBranch entry else SessionMeta.gitBranch meta in
  (* Extract model from first assistant message *)
  let model :=
    if negb (truthy (SessionMeta.model meta)) && truthy (message ≫= Message.model)
    then message ≫= Message.model else SessionMeta.model meta in
  (* Accumulate token usage *)
  let usage := message ≫= Message.usage in
  let add (total : Z) (field : Usage.t → option Z) : Z :=
    match usage with
    | Some u => total + default 0 (field u)
    | None => total
    end in
  (* Count messages (user + assistant only) *)
  let messageCount :=
    if isUserOrAssistant (message ≫= Message.role)
    then SessionMeta.messageCount meta + 1 else SessionMeta.messageCount meta in
  SessionMeta.mk (SessionMeta.info meta) gitBranch model
    (add (SessionMeta.totalInputTokens meta) Usage.input_tokens)
    (add (SessionMeta.totalOutputTokens meta) Usage.output_tokens)
    (add (SessionMeta.cacheCreationInputTokens meta) Usage.cache_creation_input_tokens)
    (add (SessionMeta.cacheReadInputTokens meta) Usage.cache_read_input_tokens)
    messageCount.

Definition peekLine (rt : Runtime) (meta : SessionMeta.t) (line : string) : SessionMeta.t :=
  if Str.isBlank line then meta
  else
    match parseTranscriptLine rt line with
    | None => meta                                   (* skip malformed *)
    | Some entry => peekStep meta entry
    end.

(** Peek session metadata from a session JSONL file. [file] is the text of
    [join(projectsDir, encodeProjectPath(session.project), sessionId.jsonl)],
    [None] when that file does not exist. The function takes the privacy
    configuration and does not read it. *)
Definition peekSession (rt : Runtime) (session : SessionInfo.t)
    (file : option string) (privacy : PrivacyConfig) : SessionMeta.t :=
  let meta := initialMeta session in
  match file with
  | None => meta
  | Some text => fold_left (peekLine rt) (splitLines text) meta
  end.

(** Stream transcript entries with privacy filtering: the entries yielded. *)
Definition streamTranscript (rt : Runtime) (file : option string)
    (privacy : PrivacyConfig) : list TranscriptEntry.t :=
  match file with
  | None => []
  | Some text =>
      omap (λ line,
              if Str.isBlank line then None
              else parseTranscriptLine rt line ≫= λ entry,
                   filterTranscriptEntry rt entry privacy)
           (splitLines text)
  end.

(** ** parsers/tool-categories.ts *)

Definition TOOL_CATEGORY_MAP : gmap string ToolCategory.t :=
  list_to_map
    [ ("Read", ToolCategory.file_read); ("Glob", ToolCategory.file_read);
      ("Grep", ToolCategory.file_read);
      ("ListMcpResourcesTool", ToolCategory.file_read);
      ("ReadMcpResourceTool", ToolCategory.file_read);
      ("Write", ToolCategory.file_write); ("Edit", ToolCategory.file_write);
      ("NotebookEdit", ToolCategory.file_write);
      ("Bash", ToolCategory.shell);
      ("WebSearch", ToolCategory.search); ("WebFetch", ToolCategory.web);
      ("Task", ToolCategory.task); ("TaskCreate", ToolCategory.task);
      ("TaskUpdate", ToolCategory.task); ("TaskGet", ToolCategory.task);
      ("TaskList", ToolCategory.task); ("TaskStop", ToolCategory.task);
      ("TaskOutput", ToolCategory.task); ("EnterPlanMode", ToolCategory.task);
      ("ExitPlanMode", ToolCategory.task); ("AskUserQuestion", ToolCategory.task);
      ("Skill", ToolCategory.task) ].

Definition categorizeToolName (name : string) : ToolCategory.t :=
  (* Check direct mapping: [name in TOOL_CATEGORY_MAP] holds for the members
     of Object.prototype too *)
  match getProperty TOOL_CATEGORY_MAP name with
  | own category => category
  | inherited key => ToolCategory.member key
  | undefined =>
      if Str.startsWith "mcp__" name then
        if Str.includes "search" name then ToolCategory.search
        else if Str.includes "fetch" name || Str.includes "read" name
        then ToolCategory.file_read
        else if Str.includes "write" name || Str.includes "create" name
                || Str.includes "edit" name
        then ToolCategory.file_write
        else ToolCategory.other
      else ToolCategory.other
  end.

(** [s.split(sep)] for a separator of one or more characters: the pieces
    between its occurrences, taken from left to right without overlap.
    [skip] counts the characters of the last separator still to pass. *)
Fixpoint splitOnFrom (sep s : string) (skip : nat) : list string :=
  match s with
  | EmptyString => [EmptyString]
  | String c s' =>
      match skip with
      | S k => splitOnFrom sep s' k
      | O =>
          if String.prefix sep s
          then EmptyString :: splitOnFrom sep s' (String.length sep - 1)
          else match splitOnFrom sep s' 0 with
               | [] => [String c EmptyString]
               | piece :: rest => String c piece :: rest
               end
      end
  end.

(** A property of [input], read as a string when it is truthy. *)
Definition inputField (input : option (gmap string string)) (key : string)
  : option string :=
  match input ≫= (λ m, m !! key) with
  | Some (String _ _ as v) => Some v
  | _ => None
  end.

(** [name.startsWith("mcp__") ? name.split("__").pop() || name : name]. *)
Definition shortToolName (name : string) : string :=
  if Str.startsWith "mcp__" name then
    match last (splitOnFrom "__" name 0) with
    | Some (String _ _ as piece) => piece
    | _ => name
    end
  else name.

(** Create a human-readable display name for a tool call. *)
Definition toolDisplayName (name : string) (input : option (gmap string string))
  : string :=
  let shortName := shortToolName name in
  match inputField input "file_path" with
  | Some file_path =>
      let parts := Str.split "/" file_path in
      let short := Str.join "/" (lastTwo parts) in
      shortName +:+ "(" +:+ short +:+ ")"
  | None =>
      match inputField input "command" with
      | Some command =>
          let cmd := default EmptyString (head (Str.split " " command)) in
          shortName +:+ "(" +:+ cmd +:+ ")"
      | None =>
          match inputField input "pattern" with
          | Some pattern => shortName +:+ "(" +:+ pattern +:+ ")"
          | None => shortName
          end
      end
  end.

(** ** parsers/content-blocks.ts *)

(** Extract text content from message content (string or ContentBlock[]). *)
Definition extractText (content : option Content) : string :=
  match content with
  | None | Some (CString EmptyString) => EmptyString
  | Some (CString s) => s
  | Some (CBlocks blocks) =>
      Str.join (String "010" EmptyString)
        (omap (λ b, if BlockType.eqb (ContentBlock.type b) BlockType.text
                    then match ContentBlock.text b with
                         | Some (String _ _ as t) => Some t
                         | _ => None
                         end
                    else None)
              blocks)
  end.

Definition extractToolTarget (block : ContentBlock.t) : option string :=
  let input := ContentBlock.input block in
  match input with
  | None => None
  | Some _ =>
      match inputField input "file_path" with
      | Some file_path => Some file_path
      | None =>
      match inputField input "notebook_path" with
      | Some notebook_path => Some notebook_path
      | None =>
      match inputField input "command" with
      | Some command => Some (default EmptyString (head (Str.split " " command)))
      | None =>
      match inputField input "pattern" with
      | Some pattern => Some pattern
      | None =>
      match inputField input "query" with
      | Some query => Some (Str.take 80 query)
      | None => None
      end end end end end
  end.

(** The blocks [extractToolCalls] keeps: of type [tool_use] with a name. *)
Definition toolUseName (b : ContentBlock.t) : option string :=
  if BlockType.eqb (ContentBlock.type b) BlockType.tool_use then
    match ContentBlock.name b with
    | Some (String _ _ as n) => Some n
    | _ => None
    end
  else None.

Definition toolCallOf (b : ContentBlock.t) : option ToolCallSummary.t :=
  match toolUseName b with
  | Some name =>
      Some (ToolCallSummary.mk name
              (toolDisplayName name (ContentBlock.input b))
              (categorizeToolName name)
              (extractToolTarget b))
  | None => None
  end.

(** Extract tool call summaries from content blocks. *)
Definition extractToolCalls (content : option Content) : list ToolCallSummary.t :=
  match content with
  | Some (CBlocks blocks) => omap toolCallOf blocks
  | _ => []
  end.

(** Extract file paths referenced in tool use blocks. *)
Definition extractFilePaths (content : option Content) : list string :=
  match content with
  | Some (CBlocks blocks) =>
      flat_map
        (λ block,
           if BlockType.eqb (ContentBlock.type block) BlockType.tool_use
              && bool_decide (is_Some (ContentBlock.input block))
           then
             let input := ContentBlock.input block in
             option_list (inputField input "file_path")
               ++ option_list (inputField input "notebook_path")
           else [])
        blocks
  | _ => []
  end.

(** Count thinking blocks in content. *)
Definition countThinkingBlocks (content : option Content) : Z :=
  match content with
  | Some (CBlocks blocks) =>
      Z.of_nat (length (List.filter
        (λ b, BlockType.eqb (ContentBlock.type b) BlockType.thinking) blocks))
  | _ => 0
  end.

(** ** parsers/session-detail.ts *)

Module DetailState.
(** What the loop of [parseSessionDetail] updates: the counters and lists
    of [detail], and the locals [toolCallSet], [fileSet], [gitBranch] and
    [model]. *)
Record t := mk {
  totalInputTokens : Z;
  totalOutputTokens : Z;
  cacheCreationInputTokens : Z;
  cacheReadInputTokens : Z;
  messageCount : Z;
  assistantSummaries : list string;
  planReferenced : bool;
  thinkingBlockCount : Z;
  hasSidechains : bool;
  toolCallSet : list (string * ToolCallSummary.t);
  fileSet : list string;
  gitBranch : option string;
  model : option string;
}.
End DetailState.

Definition initialDetailState : DetailState.t :=
  DetailState.mk 0 0 0 0 0 [] false 0 false [] [] None None.

(** [role === "assistant" && content]: an empty string is falsy, an array
    is not. *)
Definition assistantWithContent (m : Message.t) : bool :=
  match Message.role m, Message.content m with
  | Some Role.assistant, Some (CString EmptyString) => false
  | Some Role.assistant, Some _ => true
  | _, _ => false
  end.

(** [text.slice(0, 200) + (text.length > 200 ? "..." : "")]. *)
Definition summarize (text : string) : string :=
  Str.take 200 text +:+ (if (200 <? String.length text)%nat then "..." else "").

(** The body of the loop of [parseSessionDetail] on an entry that passed
    the privacy filter. *)
Definition detailStep (st : DetailState.t) (filtered : TranscriptEntry.t)
  : DetailState.t :=
  (* Track sidechains *)
  let hasSidechains :=
    if default false (TranscriptEntry.isSidechain filtered) then true
    else DetailState.hasSidechains st in
  (* Extract git branch *)
  let gitBranch :=
    if negb (truthy (DetailState.gitBranch st))
       && namedBranch (TranscriptEntry.gitBranch filtered)
    then TranscriptEntry.gitBranch filtered else DetailState.gitBranch st in
  (* Track plan references *)
  let planReferenced :=
    if truthy (TranscriptEntry.planContent filtered) then true
    else DetailState.planReferenced st in
  match TranscriptEntry.message filtered with
  | None =>
      DetailState.mk (DetailState.totalInputTokens st)
        (DetailState.totalOutputTokens st)
        (DetailState.cacheCreationInputTokens st)
        (DetailState.cacheReadInputTokens st)
        (DetailState.messageCount st) (DetailState.assistantSummaries st)
        planReferenced (DetailState.thinkingBlockCount st) hasSidechains
        (DetailState.toolCallSet st) (DetailState.fileSet st) gitBranch
        (DetailState.model st)
  | Some m =>
      let content := Message.content m in
      (* Extract model *)
      let model :=
        if truthy (Message.model m) && negb (truthy (DetailState.model st))
        then Message.model m else DetailState.model st in
      (* Accumulate tokens *)
      let add (total : Z) (field : Usage.t → option Z) : Z :=
        match Message.usage m with
        | Some u => total + default 0 (field u)
        | None => total
        end in
      (* Count messages *)
      let messageCount :=
        if isUserOrAssistant (Message.role m)
        then DetailState.messageCount st + 1 else DetailState.messageCount st in
      (* Process assistant messages *)
      let assistant := assistantWithContent m in
      let text := extractText content in
      let assistantSummaries :=
        if assistant && (20 <? String.length text)%nat
        then DetailState.assistantSummaries st ++ [summarize text]
        else DetailState.assistantSummaries st in
      let toolCallSet :=
        if assistant
        then fold_left (λ set tc, mapSet (ToolCallSummary.displayName tc) tc set)
               (extractToolCalls content) (DetailState.toolCallSet st)
        else DetailState.toolCallSet st in
      let fileSet :=
        if assistant
        then fold_left (λ set fp, setAdd fp set) (extractFilePaths content)
               (DetailState.fileSet st)
        else DetailState.fileSet st in
      let thinkingBlockCount :=
        if assistant
        then DetailState.thinkingBlockCount st + countThinkingBlocks content
        else DetailState.thinkingBlockCount st in
      DetailState.mk
        (add (DetailState.totalInputTokens st) Usage.input_tokens)
        (add (DetailState.totalOutputTokens st) Usage.output_tokens)
        (add (DetailState.cacheCreationInputTokens st) Usage.cache_creation_input_tokens)
        (add (DetailState.cacheReadInputTokens st) Usage.cache_read_input_tokens)
        messageCount assistantSummaries planReferenced thinkingBlockCount
        hasSidechains toolCallSet fileSet gitBranch model
  end.

Definition detailLine (rt : Runtime) (privacy : PrivacyConfig)
    (st : DetailState.t) (line : string) : DetailState.t :=
  if Str.isBlank line then st
  else
    match parseTranscriptLine rt line with
    | None => st                                     (* malformed: continue *)
    | Some entry =>
        (* Apply privacy filtering *)
        match filterTranscriptEntry rt entry privacy with
        | None => st
        | Some filtered => detailStep st filtered
        end
    end.

(** [detail] once the loop is over. *)
Definition finishDetail (session : SessionInfo.t) (st : DetailState.t)
  : SessionDetail.t :=
  SessionDetail.mk
    (SessionMeta.mk session (DetailState.gitBranch st) (DetailState.model st)
       (DetailState.totalInputTokens st) (DetailState.totalOutputTokens st)
       (DetailState.cacheCreationInputTokens st)
       (DetailState.cacheReadInputTokens st) (DetailState.messageCount st))
    (take 10 (DetailState.assistantSummaries st))
    (snd <$> DetailState.toolCallSet st)
    (DetailState.fileSet st)
    (DetailState.planReferenced st)
    (DetailState.thinkingBlockCount st)
    (DetailState.hasSidechains st).

(** The object [parseSessionDetail] starts from: the session with zero
    counts, empty lists, flags off and neither branch nor model. *)
Definition initialDetail (session : SessionInfo.t) : SessionDetail.t :=
  SessionDetail.mk (SessionMeta.mk session None None 0 0 0 0 0)
    [] [] [] false 0 false.

(** Parse a full session JSONL file into a SessionDetail. [file] is the
    text of the transcript file, [None] when it does not exist. *)
Definition parseSessionDetail (rt : Runtime) (session : SessionInfo.t)
    (file : option string) (privacy : PrivacyConfig) : SessionDetail.t :=
  match file with
  | None => initialDetail session
  | Some text =>
      finishDetail session
        (fold_left (detailLine rt privacy) (splitLines text) initialDetailState)
  end.

(** Parse multiple sessions, splitting into detailed (3+ prompts) and
    short. [files] gives the transcript text of each session. *)
Definition parseSessions (rt : Runtime) (sessions : list SessionInfo.t)
    (files : SessionInfo.t → option string) (privacy : PrivacyConfig)
  : list SessionDetail.t * list SessionInfo.t :=
  fold_left
    (λ '(detailed, short) session,
       if (3 <=? length (SessionInfo.prompts session))%nat
       then (detailed ++ [parseSessionDetail rt session (files session) privacy], short)
       else (detailed, short ++ [session]))
    sessions ([], []).

(** ** aggregations/time.ts *)

(** Gap cap in ms. *)
Definition GAP_CAP_MS : Z := 15 * 60 * 1000.

(** The timestamps [estimateHours] works on for one session. *)
Definition sessionTimestamps (session : SessionInfo.t) : list Z :=
  if (0 <? length (SessionInfo.promptTimestamps session))%nat
  then sortBy (λ t, t) (SessionInfo.promptTimestamps session)
  else List.filter (λ t, 0 <? t)
         [start (SessionInfo.timeRange session); end_ (SessionInfo.timeRange session)].

(** [for (let i = 1; i < timestamps.length; i++)
       totalMs += Math.min(timestamps[i] - timestamps[i - 1], GAP_CAP_MS)]. *)
Definition gapLoop (timestamps : list Z) (totalMs : Z) : Z :=
  fold_left
    (λ totalMs i,
       let gap := nth i timestamps 0 - nth (i - 1) timestamps 0 in
       totalMs + Z.min gap GAP_CAP_MS)
    (seq 1 (length timestamps - 1)) totalMs.

(** The body of the loop over the sessions. *)
Definition hoursStep (totalMs : Z) (session : SessionInfo.t) : Z :=
  let timestamps := sessionTimestamps session in
  if (length timestamps <=? 1)%nat
  then totalMs + 5 * 60 * 1000          (* Single prompt: count as 5 minutes of work *)
  else gapLoop timestamps totalMs.

(** Estimate hours of active work from session timestamp data. *)
Definition estimateHours (sessions : list SessionInfo.t) : Q :=
  if (length sessions =? 0)%nat then 0%Q
  else
    let totalMs := fold_left hoursStep sessions 0 in
    (inject_Z totalMs / inject_Z (1000 * 60 * 60))%Q.

(** ** pricing.ts *)

(** Per-million-token pricing in USD. *)
Record ModelPricing := mkPricing {
  p_input : Num.t;
  p_output : Num.t;
  p_cacheWrite : Num.t;
  p_cacheRead : Num.t;
}.

(** 15, 75, 18.75 and 1.5. *)
Definition opusRates : ModelPricing :=
  mkPricing (Num.ofZ 15) (Num.ofZ 75) (Num.decimal 1875 100) (Num.decimal 15 10).

(** 3, 15, 3.75 and 0.3. *)
Definition sonnetRates : ModelPricing :=
  mkPricing (Num.ofZ 3) (Num.ofZ 15) (Num.decimal 375 100) (Num.decimal 3 10).

(** 0.8, 4, 1 and 0.08. *)
Definition haikuRates : ModelPricing :=
  mkPricing (Num.decimal 8 10) (Num.ofZ 4) (Num.ofZ 1) (Num.decimal 8 100).

(** The own properties of the table. *)
Definition MODEL_PRICING : gmap string ModelPricing :=
  list_to_map
    [ ("claude-opus-4-5-20250514", opusRates);
      ("claude-opus-4-6", opusRates);
      ("claude-sonnet-4-5-20250929", sonnetRates);
      ("claude-sonnet-4-5-20250514", sonnetRates);
      ("claude-sonnet-4-0-20250514", sonnetRates);
      ("claude-haiku-4-5-20251001", haikuRates);
      ("claude-haiku-3-5-20241022", haikuRates);
      ("claude-3-5-sonnet-20241022", sonnetRates);
      ("claude-3-5-sonnet-20240620", sonnetRates);
      ("claude-3-5-haiku-20241022", haikuRates);
      ("claude-3-opus-20240229", opusRates) ].

Definition FALLBACK_PRICING : ModelPricing :=
  mkPricing (Num.ofZ 3) (Num.ofZ 15) (Num.decimal 375 100) (Num.decimal 3 10).

(** The module's mutable [activePricing] is threaded as an argument: it is
    [MODEL_PRICING] until [setPricing] replaces it. The spread copies the own
    properties, those of [overrides] last. *)
Definition setPricing (overrides : gmap string ModelPricing)
  : gmap string ModelPricing :=
  overrides ∪ MODEL_PRICING.

(** What [getModelPricing] returns: rates, or the member of
    [Object.prototype] the model id names. *)
Inductive Pricing :=
| rates (p : ModelPricing)
| member (key : string).

(** Look up pricing for a model, falling back to Sonnet rates. A member of
    [Object.prototype] is not nullish, so [??] lets it through. *)
Definition getModelPricing (activePricing : gmap string ModelPricing)
    (model : option string) : Pricing :=
  match model with
  | None | Some EmptyString => rates FALLBACK_PRICING           (* [!model] *)
  | Some m =>
      match getProperty activePricing m with
      | own p => rates p
      | inherited key => member key
      | undefined => rates FALLBACK_PRICING
      end
  end.



(** ** Notions the properties are stated with *)



(** The sum, over the consecutive pairs of a list of timestamps, of the gap
    capped at 15 minutes. *)
Fixpoint cappedGaps (timestamps : list Z) : Z :=
  match timestamps with
  | a :: (b :: _) as rest => Z.min (b - a) GAP_CAP_MS + cappedGaps rest
  | _ => 0
  end.

(** What one session adds to the total, in milliseconds. *)
Definition contribution (session : SessionInfo.t) : Z :=
  match SessionInfo.promptTimestamps session with
  | [] =>
      (* no prompt timestamp: the bounds of the time range stand in *)
      let range := SessionInfo.timeRange session in
      if (0 <? start range) && (0 <? end_ range)
      then Z.min (end_ range - start range) GAP_CAP_MS
      else 5 * 60 * 1000
  | [_] => 5 * 60 * 1000
  | timestamps => cappedGaps (sortBy (λ t, t) timestamps)
  end.

(** The body of the loop over the gaps. *)
Definition gapStep (timestamps : list Z) (totalMs : Z) (i : nat) : Z :=
  totalMs + Z.min (nth i timestamps 0 - nth (i - 1) timestamps 0) GAP_CAP_MS.

(** The records of the log: what the lines that are not blank parse to. *)
Definition logRecords (rt : Runtime) (file : option string) : list HistoryEntry.t :=
  match file with
  | None => []
  | Some text =>
      omap (λ line, if Str.isBlank line then None else parseHistoryLine rt line)
           (splitLines text)
  end.

(** The local date of the record lies in the window [from, to]. *)
Definition inWindow (rt : Runtime) (from to : string) (r : HistoryEntry.t) : bool :=
  let date := toLocalDate rt (HistoryEntry.timestamp r) in
  negb (Str.ltb date from) && negb (Str.ltb to date).

(** The record is one [readHistory] accepts. *)
Definition accepted (rt : Runtime) (from to : string) (privacy : PrivacyConfig)
    (r : HistoryEntry.t) : Prop :=
  inWindow rt from to r = true
  ∧ isProjectExcluded (HistoryEntry.project r) privacy = false.

Global Instance accepted_dec rt from to privacy r :
  Decision (accepted rt from to privacy r).
Proof. unfold accepted. apply _. Defined.

(** The accepted records of one session, in the order of the log. *)
Definition sessionRows (rt : Runtime) (file : option string) (from to : string)
    (privacy : PrivacyConfig) (sid : string) : list HistoryEntry.t :=
  filter (λ r, HistoryEntry.sessionId r = sid)
    (filter (accepted rt from to privacy) (logRecords rt file)).

(** *** Calendar dates and windows, stated apart from the code *)

(** A calendar date: year, month counted from 1, day of the month. *)
Definition CalendarDate : Type := Z * Z * Z.

(** The first date comes before the second in the calendar. *)
Definition calendarBefore (a b : CalendarDate) : Prop :=
  let '(y1, m1, d1) := a in
  let '(y2, m2, d2) := b in
  y1 < y2 ∨ (y1 = y2 ∧ (m1 < m2 ∨ (m1 = m2 ∧ d1 < d2))).

Global Instance calendarBefore_dec a b : Decision (calendarBefore a b).
Proof. destruct a as [[y1 m1] d1], b as [[y2 m2] d2]. cbn. apply _. Defined.

(** A date of a year written with four digits. *)
Definition fourDigitYear (date : CalendarDate) : Prop :=
  let '(year, month, day) := date in
  1000 ≤ year ≤ 9999 ∧ 1 ≤ month ≤ 12 ∧ 1 ≤ day ≤ 31.

(** The character of a decimal digit. *)
Definition digitChar (k : Z) : ascii := ascii_of_nat (48 + Z.to_nat k).

Definition digits4 (n : Z) : string :=
  String (digitChar (n / 1000)) (String (digitChar (n / 100 mod 10))
    (String (digitChar (n / 10 mod 10)) (String (digitChar (n mod 10)) EmptyString))).

Definition digits2 (n : Z) : string :=
  String (digitChar (n / 10)) (String (digitChar (n mod 10)) EmptyString).

(** The date written YYYY-MM-DD. *)
Definition isoDate (date : CalendarDate) : string :=
  let '(year, month, day) := date in
  digits4 year +:+ "-" +:+ digits2 month +:+ "-" +:+ digits2 day.

(** The local calendar date of a timestamp, from the fields of its [Date]. *)
Definition calendarDate (rt : Runtime) (timestamp : Z) : CalendarDate :=
  let '(year, month0, day) := dateFields rt timestamp in
  (year, month0 + 1, day).

(** The date lies in the window, both ends included. *)
Definition inCalendarWindow (fromDate toDate date : CalendarDate) : Prop :=
  ¬ calendarBefore date fromDate ∧ ¬ calendarBefore toDate date.

(** The record is dated inside the window and its project is not excluded. *)
Definition wanted (rt : Runtime) (fromDate toDate : CalendarDate)
    (privacy : PrivacyConfig) (r : HistoryEntry.t) : Prop :=
  inCalendarWindow fromDate toDate (calendarDate rt (HistoryEntry.timestamp r))
  ∧ isProjectExcluded (HistoryEntry.project r) privacy = false.

Global Instance wanted_dec rt fromDate toDate privacy r :
  Decision (wanted rt fromDate toDate privacy r).
Proof. unfold wanted, inCalendarWindow. apply _. Defined.

(** The wanted records of one session, in the order of the log. *)
Definition wantedRows (rt : Runtime) (file : option string)
    (fromDate toDate : CalendarDate) (privacy : PrivacyConfig) (sid : string)
  : list HistoryEntry.t :=
  filter (λ r, HistoryEntry.sessionId r = sid)
    (filter (wanted rt fromDate toDate privacy) (logRecords rt file)).

(** The group a non-empty run of rows of one session builds. *)
Definition groupOf (rt : Runtime) (privacy : PrivacyConfig)
    (rows : list HistoryEntry.t) : option SessionGroup :=
  match rows with
  | [] => None
  | r :: _ =>
      Some (mkSessionGroup (HistoryEntry.project r)
              (historyDisplay rt privacy <$> rows)
              (HistoryEntry.timestamp <$> rows))
  end.

(** Lines joined by line feeds: the text of a JSONL file. *)
Definition joinLines (lines : list string) : string :=
  Str.join (String "010" EmptyString) lines.

(** The step of the loop that fills [toolCallSet]. *)
Definition recordToolCall (set : list (string * ToolCallSummary.t))
    (tc : ToolCallSummary.t) : list (string * ToolCallSummary.t) :=
  mapSet (ToolCallSummary.displayName tc) tc set.

(** What a [toolCallSet] is after the tool calls [seen] went through it:
    its keys are distinct, they are the display names seen, and the value
    under a key is a tool call seen that has this display name. *)
Definition dedupOf (set : list (string * ToolCallSummary.t))
    (seen : list ToolCallSummary.t) : Prop :=
  NoDup set.*1
  ∧ (∀ k, k ∈ set.*1 ↔ k ∈ ToolCallSummary.displayName <$> seen)
  ∧ (∀ k tc, (k, tc) ∈ set → ToolCallSummary.displayName tc = k ∧ tc ∈ seen).

(** The tool calls [parseSessionDetail] extracts from one filtered entry. *)
Definition entryToolCalls (filtered : TranscriptEntry.t) : list ToolCallSummary.t :=
  match TranscriptEntry.message filtered with
  | Some m =>
      if assistantWithContent m then extractToolCalls (Message.content m) else []
  | None => []
  end.

(** The tool calls of a session: those of the entries that pass the privacy
    filter, in the order of the transcript. *)
Definition sessionToolCalls (rt : Runtime) (file : option string)
    (privacy : PrivacyConfig) : list ToolCallSummary.t :=
  flat_map entryToolCalls (streamTranscript rt file privacy).

(** Two blocks that differ at most in their text. *)
Definition sameButText (b b0 : ContentBlock.t) : Prop :=
  ContentBlock.type b = ContentBlock.type b0
  ∧ ContentBlock.thinking b = ContentBlock.thinking b0
  ∧ ContentBlock.name b = ContentBlock.name b0
  ∧ ContentBlock.id b = ContentBlock.id b0
  ∧ ContentBlock.tool_use_id b = ContentBlock.tool_use_id b0
  ∧ ContentBlock.input b = ContentBlock.input b0
  ∧ ContentBlock.content b = ContentBlock.content b0.

(** ** Inputs of the worked examples *)


(** A view without prompts, as [sessions.detail] builds one. *)
Definition anySession : SessionInfo.t :=
  SessionInfo.mk "s" "/work/app" "app" [] [] (mkTimeRange 0 0).

(** A view without prompt timestamps whose time range spans a minute. *)
Definition idleSession : SessionInfo.t :=
  SessionInfo.mk "s" "/work/app" "app" [] [] (mkTimeRange 1000 61000).

(** A row of 2026-02-09 whose text is the redaction marker. *)
Definition markerRow : HistoryEntry.t :=
  HistoryEntry.mk "[redacted]" 1770595200000 "/work/app" "s1".

(** A user message whose content is a list of blocks. *)
Definition userBlocksEntry : TranscriptEntry.t :=
  TranscriptEntry.mk (Some "user")
    (Some (Message.mk (Some Role.user)
             (Some (CBlocks [ContentBlock.mk BlockType.text (Some "my password is hunter2")
                               None None None None None None]))
             None None))
    None None None None None None None None None.

(** A row of 2026-02-09 whose text names a path under the home directory. *)
Definition pathRow : HistoryEntry.t :=
  HistoryEntry.mk "open /home/alice/proj/src/main.ts" 1770595200000 "/work/app" "s1".

(** A record that carries the result of a tool call. *)
Definition toolResultEntry : TranscriptEntry.t :=
  TranscriptEntry.mk (Some "user")
    (Some (Message.mk (Some Role.user)
             (Some (CBlocks [ContentBlock.mk BlockType.tool_result None None None
                               None (Some "toolu_01") None
                               (Some "contents of secrets.env")]))
             (Some "claude-opus-4-6")
             (Some (Usage.mk (Some 10) (Some 20) (Some 30) (Some 40)))))
    None (Some "feature/login") None None None None None None
    (Some "contents of secrets.env").

(** The lines a demo host parses, for the history and for a transcript. *)
Definition twoRows : list (string * HistoryEntry.t) :=
  [ ("first", HistoryEntry.mk "fix the parser" 1770595200000 "/work/app" "s1");
    ("second", HistoryEntry.mk "add a test" 1770595260000 "/work/app" "s1") ].

Definition twoEntries : list (string * TranscriptEntry.t) :=
  [ ("first", toolResultEntry); ("second", userBlocksEntry) ].

(** A NotebookEdit call on a notebook, and an assistant message with two. *)
Definition notebookCall (path : string) : ContentBlock.t :=
  ContentBlock.mk BlockType.tool_use None None (Some "NotebookEdit") None None
    (Some {[ "notebook_path" := path ]}) None.

Definition notebookEntry : TranscriptEntry.t :=
  TranscriptEntry.mk (Some "assistant")
    (Some (Message.mk (Some Role.assistant)
             (Some (CBlocks [notebookCall "analysis.ipynb"; notebookCall "report.ipynb"]))
             None None))
    None None None None None None None None None.

(** Prompts at 0, 5 and 40 minutes; and a single prompt in a range of an hour. *)
Definition threePrompts : SessionInfo.t :=
  SessionInfo.mk "s" "/work/app" "app" ["a"; "b"; "c"]
    [0; 5 * 60 * 1000; 40 * 60 * 1000] (mkTimeRange 0 (40 * 60 * 1000)).

Definition onePrompt : SessionInfo.t :=
  SessionInfo.mk "s" "/work/app" "app" ["a"]
    [1770595200000] (mkTimeRange 1770595200000 1770598800000).

(** A log of two sessions with a malformed line, a blank line and an old row. *)
Definition demoRows : list (string * HistoryEntry.t) :=
  [ ("r1", HistoryEntry.mk "fix the parser" 1770595200000 "/work/app" "s1");
    ("r2", HistoryEntry.mk "write the docs" 1770595260000 "/work/site" "s2");
    ("r3", HistoryEntry.mk "add a test" 1770595800000 "/work/app" "s1");
    ("r4", HistoryEntry.mk "an old prompt" 0 "/work/app" "s1") ].

Definition demoLog : string :=
  joinLines ["r2"; "{junk"; ""; "r1"; "r3"; "r4"].

(** The shareable profile with one literal pattern added. *)
Definition customConfig : PrivacyConfig :=
  resolvePrivacyConfig (Some PrivacyProfile.shareable)
    (Some (mkPrivacyOverrides None None None None None
             (Some [mkRegExp "hunter2" "g"]) None)).

(** A row of the first day of the year 10000, and a log that holds it. *)
Definition farRow : HistoryEntry.t :=
  HistoryEntry.mk "a prompt of the year 10000" 253402300800000 "/work/app" "s9".

Definition farRows : list (string * HistoryEntry.t) := [ ("far", farRow) ].

(** A row of 2026-10-15, and a log that holds it. *)
Definition octoberRow : HistoryEntry.t :=
  HistoryEntry.mk "a prompt of October" 1792022400000 "/work/app" "s8".

Definition octoberRows : list (string * HistoryEntry.t) := [ ("october", octoberRow) ].



(** ** Further notions *)

(** Milliseconds as hours. *)
Definition msToHours (ms : Z) : Q := (inject_Z ms / inject_Z 3600000)%Q.

(** Two texts put one after the other, a line feed between them. *)
Definition appendLines (a b : string) : string := a +:+ String "010" b.

(** The metadata of two parts of a transcript put together: the counts
    add up, and branch and model are those of the first part when it has
    them, of the second otherwise. *)
Definition mergeMeta (first rest : SessionMeta.t) : SessionMeta.t :=
  SessionMeta.mk (SessionMeta.info first)
    (if truthy (SessionMeta.gitBranch first) then SessionMeta.gitBranch first
     else SessionMeta.gitBranch rest)
    (if truthy (SessionMeta.model first) then SessionMeta.model first
     else SessionMeta.model rest)
    (SessionMeta.totalInputTokens first + SessionMeta.totalInputTokens rest)
    (SessionMeta.totalOutputTokens first + SessionMeta.totalOutputTokens rest)
    (SessionMeta.cacheCreationInputTokens first
     + SessionMeta.cacheCreationInputTokens rest)
    (SessionMeta.cacheReadInputTokens first + SessionMeta.cacheReadInputTokens rest)
    (SessionMeta.messageCount first + SessionMeta.messageCount rest).

(** A branch or a model as the parsers report it: none, or a name that is
    not empty. *)
Definition noneOrNamed (o : option string) : Prop := o = None ∨ truthy o = true.

(** The privacy configuration with the suppression of tool results off. *)
Definition keepToolResults (config : PrivacyConfig) : PrivacyConfig :=
  mkPrivacyConfig (redactPrompts config) (redactAbsolutePaths config)
    (redactHomeDir config) (stripThinking config) false
    (redactPatterns config) (excludeProjects config).

(** The metadata held in the state of the loop of [parseSessionDetail]. *)
Definition metaOf (session : SessionInfo.t) (st : DetailState.t) : SessionMeta.t :=
  SessionMeta.mk session (DetailState.gitBranch st) (DetailState.model st)
    (DetailState.totalInputTokens st) (DetailState.totalOutputTokens st)
    (DetailState.cacheCreationInputTokens st) (DetailState.cacheReadInputTokens st)
    (DetailState.messageCount st).

(** The number of prompts a list of views holds:
    [views.reduce((sum, s) => sum + s.prompts.length, 0)]. *)
Definition promptTotal (views : list SessionInfo.t) : nat :=
  fold_left (λ sum s, (sum + length (SessionInfo.prompts s))%nat) views 0%nat.

(** ** utils/jsonl.ts

    [parse] stands for [JSON.parse(line) as T], [None] when it throws. A
    file is measured and cut in bytes; its text is measured here in code
    units, which is the same for a file of ASCII text, one byte to the
    character. *)

(** A file of ASCII text, or no file. *)
Definition asciiFile (file : option string) : Prop :=
  match file with
  | Some text =>
      Forall (λ c, (nat_of_ascii c < 128)%nat) (list_ascii_of_string text)
  | None => True
  end.

(** Parse all lines from a JSONL string, skipping malformed lines. *)
Definition parseJsonl {T} (parse : string → option T) (text : string) : list T :=
  omap (λ line, if Str.isBlank line then None else parse line) (splitLines text).

(** Stream-parse JSONL from a file: the values yielded, none when the file
    does not exist. *)
Definition streamJsonl {T} (parse : string → option T) (file : option string)
  : list T :=
  match file with
  | None => []
  | Some text => parseJsonl parse text
  end.

(** Read and parse an entire JSONL file. *)
Definition readJsonl {T} (parse : string → option T) (file : option string)
  : list T :=
  match file with
  | None => []
  | Some text => parseJsonl parse text
  end.

Module Peek.
Record t (T : Type) := mk {
  first : list T;
  last : list T;
  totalBytes : nat;
}.
Arguments mk {T}.
Arguments first {T}.
Arguments last {T}.
Arguments totalBytes {T}.
End Peek.

(** [chunk.split("\n").filter((l) => l.trim())]. *)
Definition chunkLines (chunk : string) : list string :=
  List.filter (λ l, negb (Str.isBlank l)) (splitLines chunk).

(** Peek a JSONL file: read only first N and last N bytes. *)
Definition peekJsonl {T} (parse : string → option T) (file : option string)
    (bytes : nat) : Peek.t T :=
  match file with
  | None => Peek.mk [] [] 0
  | Some text =>
      let size := String.length text in
      if (size <=? bytes * 2)%nat then
        (* Small file: just read the whole thing *)
        Peek.mk (parseJsonl parse text) [] size
      else
        (* Read first chunk; skip its last line (may be truncated) *)
        let firstChunk := Str.take bytes text in
        let firstLines := chunkLines firstChunk in
        let first := omap parse (removelast firstLines) in
        (* Read last chunk; skip its first line (may be truncated) *)
        let lastChunk := Str.drop (Nat.max 0 (size - bytes)) text in
        let lastLines := chunkLines lastChunk in
        let last := omap parse (tail lastLines) in
        Peek.mk first last size
  end.

(** What a privacy configuration promises of an entry handed to a caller. *)
Definition entryRespects (config : PrivacyConfig) (e : TranscriptEntry.t) : Prop :=
  (stripToolResults config = true → TranscriptEntry.toolUseResult e = None)
  ∧ (∀ m blocks,
       TranscriptEntry.message e = Some m →
       Message.role m = Some Role.assistant →
       Message.content m = Some (CBlocks blocks) →
       Forall (λ b,
                 (stripThinking config = true
                  → ContentBlock.type b ≠ BlockType.thinking)
                 ∧ (stripToolResults config = true
                    → ContentBlock.type b ≠ BlockType.tool_result))
              blocks)
  ∧ (redactPrompts config = true →
     ∀ m s,
       TranscriptEntry.message e = Some m →
       Message.role m = Some Role.user →
       Message.content m = Some (CString s) →
       s = redacted).

(** ** readers/project-reader.ts *)

Module ProjectInfo.
Record t := mk {
  encodedPath : string;
  decodedPath : string;
  name : string;
  sessionCount : nat;
  hasMemory : bool;
}.
End ProjectInfo.

Module ProjectMemory.
Record t := mk {
  projectPath : string;
  projectName : string;
  content : string;
}.
End ProjectMemory.

(** The projects directory as the reader sees it: [readdir(projectsDir)],
    [readdir(join(projectsDir, name))] and the text of
    [join(projectsDir, name, "memory", "MEMORY.md")]; [None] where the call
    throws or the file does not exist. *)
Record ProjectsDir := mkProjectsDir {
  dirEntries : option (list string);
  dirFiles : string → option (list string);
  dirMemory : string → option string;
}.

(** [String.prototype.endsWith]. *)
Definition endsWith (suffix s : string) : bool :=
  (String.length suffix <=? String.length s)%nat
  && String.eqb suffix (Str.drop (String.length s - String.length suffix) s).

Definition readProject (dir : ProjectsDir) (privacy : PrivacyConfig)
    (encodedPath : string) : option ProjectInfo.t :=
  if Str.startsWith "." encodedPath then None
  else
    let decodedPath := decodeProjectPath encodedPath in
    if isProjectExcluded decodedPath privacy then None
    else
      match dirFiles dir encodedPath with
      | None => None   (* skip unreadable dirs *)
      | Some files =>
          let sessionCount := length (List.filter (endsWith ".jsonl") files) in
          let hasMemory := bool_decide (is_Some (dirMemory dir encodedPath)) in
          let name :=
            match last (Str.split "/" decodedPath) with
            | Some EmptyString | None => decodedPath
            | Some name => name
            end in
          Some (ProjectInfo.mk encodedPath decodedPath name sessionCount hasMemory)
      end.

(** List all projects from the projects directory. *)
Definition readProjects (dir : ProjectsDir) (privacy : PrivacyConfig)
  : list ProjectInfo.t :=
  match dirEntries dir with
  | None => []
  | Some entries => omap (readProject dir privacy) entries
  end.

(** Read MEMORY.md for a project. *)
Definition readProjectMemory (dir : ProjectsDir) (projectPath : string)
  : option ProjectMemory.t :=
  let encoded := Str.replaceChar "/" "-" projectPath in
  match dirMemory dir encoded with
  | None => None
  | Some content =>
      if Str.isBlank content then None
      else
        Some (ProjectMemory.mk projectPath
                match last (Str.split "/" projectPath) with
                | Some EmptyString | None => projectPath
                | Some name => name
                end
                (Str.take 2000 content))
  end.

(** The configuration with another list of excluded projects. *)
Definition withExcludes (patterns : list string) (config : PrivacyConfig)
  : PrivacyConfig :=
  mkPrivacyConfig (redactPrompts config) (redactAbsolutePaths config)
    (redactHomeDir config) (stripThinking config) (stripToolResults config)
    (redactPatterns config) patterns.

(** A small projects directory for the worked examples. *)
Definition demoProjects : ProjectsDir :=
  mkProjectsDir
    (Some ["-home-alice-my-app"; ".cache"; "-home-alice-notes"])
    (λ name, if String.eqb name "-home-alice-my-app"
             then Some ["s1.jsonl"; "s2.jsonl"; "memory"]
             else if String.eqb name "-home-alice-notes" then Some []
             else None)
    (λ name, if String.eqb name "-home-alice-my-app"
             then Some "# Notes on the build"
             else None).

(** ** types/aggregations.ts *)

Module SessionListFilter.
(** [SessionListFilter extends DateFilter]. *)
Record t := mk {
  date : option string;
  from : option string;
  to : option string;
  project : option string;
}.
End SessionListFilter.

Module ProjectSummary.
Record t := mk {
  project : string;
  projectName : string;
  sessionCount : nat;
  promptCount : nat;
  estimatedHours : Q;
  branches : list string;
  filesReferenced : list string;
  toolCalls : list ToolCallSummary.t;
  models : list string;
}.
End ProjectSummary.

Module TopFile.
Record t := mk { path : string; count : Z }.
End TopFile.

Module TopCommand.
Record t := mk { command : string; count : Z }.
End TopCommand.

Module ToolUsageReport.
Record t := mk {
  byTool : list (string * Z);
  byCategory : list (ToolCategory.t * Z);
  topFiles : list TopFile.t;
  topCommands : list TopCommand.t;
  total : Z;
}.
End ToolUsageReport.

(** ** utils/dates.ts: the date range of a filter *)

(** Get the date of today; [now] is [Date.now()]. *)
Definition today (rt : Runtime) (now : Z) : string := toLocalDate rt now.

(** An optional string that is truthy. *)
Definition nonEmpty (o : option string) : option string :=
  if truthy o then o else None.

(** Resolve a DateFilter to concrete from/to strings. *)
Definition resolveDateRange (rt : Runtime) (now : Z)
    (filter : option SessionListFilter.t) : string * string :=
  match nonEmpty (filter ≫= SessionListFilter.date) with
  | Some date => (date, date)
  | None =>
      match nonEmpty (filter ≫= SessionListFilter.from),
            nonEmpty (filter ≫= SessionListFilter.to) with
      | Some from, Some to => (from, to)
      | Some from, None => (from, today rt now)
      | None, _ => let t := today rt now in (t, t)
      end
  end.

(** ** aggregations/project.ts *)

(** [filter.project && !name.toLowerCase().includes(filter.project.toLowerCase())]. *)
Definition filteredOut (filter : SessionListFilter.t) (name : string) : bool :=
  match nonEmpty (SessionListFilter.project filter) with
  | Some p => negb (Str.includes (Str.toLowerCase p) (Str.toLowerCase name))
  | None => false
  end.

(** One turn of the grouping loop. *)
Definition projectGroupStep (filter : SessionListFilter.t)
    (byProject : list (string * list SessionInfo.t)) (session : SessionInfo.t)
  : list (string * list SessionInfo.t) :=
  let name := SessionInfo.projectName session in
  if filteredOut filter name then byProject
  else
    match mapGet name byProject with
    | Some _ => mapAlter (λ existing, existing ++ [session]) name byProject
    | None => mapSet name [session] byProject
    end.

(** [[...new Set(l)]]. *)
Definition unique (l : list string) : list string := fold_left (λ s x, setAdd x s) l [].

(** The summary pushed for one project. A group is never empty, so
    [projectSessions[0]] is there. *)
Definition summarizeProject (rt : Runtime) (files : SessionInfo.t → option string)
    (privacy : PrivacyConfig) (name : string) (projectSessions : list SessionInfo.t)
  : ProjectSummary.t :=
  (* Parse detailed sessions for rich data *)
  let details :=
    (λ session, parseSessionDetail rt session (files session) privacy)
      <$> List.filter (λ session, (3 <=? length (SessionInfo.prompts session))%nat)
            projectSessions in
  let allToolCalls := details ≫= SessionDetail.toolCalls in
  let allFiles := details ≫= SessionDetail.filesReferenced in
  let allBranches :=
    omap (λ d, nonEmpty (SessionMeta.gitBranch (SessionDetail.meta d))) details in
  let allModels :=
    omap (λ d, nonEmpty (SessionMeta.model (SessionDetail.meta d))) details in
  ProjectSummary.mk
    (default EmptyString (SessionInfo.project <$> head projectSessions))
    name
    (length projectSessions)
    (promptTotal projectSessions)
    (estimateHours projectSessions)
    (unique allBranches)
    (unique allFiles)
    allToolCalls
    (unique allModels).

(** Build per-project summaries from session data. [files] gives the
    transcript text of each session. *)
Definition buildProjectSummaries (rt : Runtime) (now : Z)
    (filter : SessionListFilter.t) (historyFile : option string)
    (files : SessionInfo.t → option string) (privacy : PrivacyConfig)
  : list ProjectSummary.t :=
  let '(from, to) := resolveDateRange rt now (Some filter) in
  let sessions := readHistory rt historyFile from to privacy in
  (* Group by project *)
  let byProject := fold_left (projectGroupStep filter) sessions [] in
  let summaries :=
    (λ '(name, projectSessions), summarizeProject rt files privacy name projectSessions)
      <$> byProject in
  sortBy (λ s, - Z.of_nat (ProjectSummary.promptCount s)) summaries.

(** ** aggregations/tools.ts *)

(** [m.set(k, (m.get(k) ?? 0) + 1)] on a [Map] in insertion order. *)
Fixpoint countUp {K} `{EqDecision K} (k : K) (m : list (K * Z)) : list (K * Z) :=
  match m with
  | [] => [(k, 0 + 1)]
  | (k', n) :: rest =>
      if decide (k = k') then (k', n + 1) :: rest else (k', n) :: countUp k rest
  end.

#[global] Instance ToolCategory_eq_dec : EqDecision ToolCategory.t.
Proof. solve_decision. Defined.

Module ToolUsageState.
Record t := mk {
  byTool : list (string * Z);
  byCategory : list (ToolCategory.t * Z);
  fileCounts : list (string * Z);
  commandCounts : list (string * Z);
  total : Z;
}.
End ToolUsageState.

(** The body of the loop over the tool calls of a session. *)
Definition toolCallStep (st : ToolUsageState.t) (tc : ToolCallSummary.t)
  : ToolUsageState.t :=
  let byTool := countUp (ToolCallSummary.name tc) (ToolUsageState.byTool st) in
  let byCategory :=
    countUp (ToolCallSummary.category tc) (ToolUsageState.byCategory st) in
  let total := ToolUsageState.total st + 1 in
  match nonEmpty (ToolCallSummary.target tc) with
  | Some target =>
      let fileCounts :=
        match ToolCallSummary.category tc with
        | ToolCategory.file_read | ToolCategory.file_write =>
            countUp target (ToolUsageState.fileCounts st)
        | _ => ToolUsageState.fileCounts st
        end in
      let commandCounts :=
        match ToolCallSummary.category tc with
        | ToolCategory.shell => countUp target (ToolUsageState.commandCounts st)
        | _ => ToolUsageState.commandCounts st
        end in
      ToolUsageState.mk byTool byCategory fileCounts commandCounts total
  | None =>
      ToolUsageState.mk byTool byCategory (ToolUsageState.fileCounts st)
        (ToolUsageState.commandCounts st) total
  end.

(** The body of the loop over the sessions. *)
Definition toolSessionStep (rt : Runtime) (files : SessionInfo.t → option string)
    (privacy : PrivacyConfig) (st : ToolUsageState.t) (session : SessionInfo.t)
  : ToolUsageState.t :=
  if (length (SessionInfo.prompts session) <? 2)%nat then st (* skip trivial sessions *)
  else
    let detail := parseSessionDetail rt session (files session) privacy in
    fold_left toolCallStep (SessionDetail.toolCalls detail) st.

(** [[...counts.entries()].sort((a, b) => b[1] - a[1]).slice(0, 20)]. *)
Definition top20 (counts : list (string * Z)) : list (string * Z) :=
  take 20 (sortBy (λ e, - e.2) counts).

(** Build a tool usage report from session data. *)
Definition buildToolUsageReport (rt : Runtime) (now : Z)
    (filter : SessionListFilter.t) (historyFile : option string)
    (files : SessionInfo.t → option string) (privacy : PrivacyConfig)
  : ToolUsageReport.t :=
  let '(from, to) := resolveDateRange rt now (Some filter) in
  let sessions := readHistory rt historyFile from to privacy in
  let st :=
    fold_left (toolSessionStep rt files privacy) sessions
      (ToolUsageState.mk [] [] [] [] 0) in
  let topFiles :=
    (λ '(path, count), TopFile.mk path count) <$> top20 (ToolUsageState.fileCounts st) in
  let topCommands :=
    (λ '(command, count), TopCommand.mk command count)
      <$> top20 (ToolUsageState.commandCounts st) in
  ToolUsageReport.mk (ToolUsageState.byTool st) (ToolUsageState.byCategory st)
    topFiles topCommands (ToolUsageState.total st).

(** The sum of the counts of a map. *)
Definition countSum {K} (m : list (K * Z)) : Z := foldr Z.add 0 (m.*2).

(** The sessions a project filter keeps. *)
Definition keptSessions (filter : SessionListFilter.t) (sessions : list SessionInfo.t)
  : list SessionInfo.t :=
  List.filter (λ s, negb (filteredOut filter (SessionInfo.projectName s))) sessions.

(** What the loop of the tool usage report keeps true of its counters. *)
Definition toolUsageInv (st : ToolUsageState.t) : Prop :=
  countSum (ToolUsageState.byTool st) = ToolUsageState.total st
  ∧ countSum (ToolUsageState.byCategory st) = ToolUsageState.total st
  ∧ countSum (ToolUsageState.fileCounts st)
    + countSum (ToolUsageState.commandCounts st) ≤ ToolUsageState.total st
  ∧ NoDup (ToolUsageState.byTool st).*1
  ∧ NoDup (ToolUsageState.byCategory st).*1
  ∧ NoDup (ToolUsageState.fileCounts st).*1
  ∧ NoDup (ToolUsageState.commandCounts st).*1
  ∧ Forall (λ e, 1 ≤ e.2) (ToolUsageState.byTool st)
  ∧ Forall (λ e, 1 ≤ e.2) (ToolUsageState.byCategory st)
  ∧ Forall (λ e, 1 ≤ e.2) (ToolUsageState.fileCounts st)
  ∧ Forall (λ e, 1 ≤ e.2) (ToolUsageState.commandCounts st).

(** The tool calls the report counts: those of the sessions with two
    prompts or more, each parsed in full. *)
Definition countedToolCalls (rt : Runtime) (files : SessionInfo.t → option string)
    (privacy : PrivacyConfig) (sessions : list SessionInfo.t)
  : list ToolCallSummary.t :=
  List.filter (λ s, negb (length (SessionInfo.prompts s) <? 2)%nat) sessions
    ≫= λ s, SessionDetail.toolCalls (parseSessionDetail rt s (files s) privacy).

(** What the grouping loop of the project summaries keeps true: no name
    twice, no empty group, no name the filter rejects, and in each group
    the sessions of that name only. *)
Definition groupsOk (filter : SessionListFilter.t)
    (byProject : list (string * list SessionInfo.t)) : Prop :=
  NoDup byProject.*1
  ∧ Forall (λ e, e.2 ≠ []
                 ∧ filteredOut filter e.1 = false
                 ∧ Forall (λ s, SessionInfo.projectName s = e.1) e.2)
           byProject.

(** ** The sessions interface of [createClaudeHistory]

    [privacy] is the configuration the instance was created with, [files]
    gives the transcript text of each session. *)

Module Sessions.

(** [if (filter?.project) sessions = sessions.filter(...)]. *)
Definition byProjectName (filter : option SessionListFilter.t)
    (sessions : list SessionInfo.t) : list SessionInfo.t :=
  match nonEmpty (filter ≫= SessionListFilter.project) with
  | Some project =>
      let f := Str.toLowerCase project in
      List.filter
        (λ s, Str.includes f (Str.toLowerCase (SessionInfo.projectName s)))
        sessions
  | None => sessions
  end.

(** Medium: also peeks session files for branch, model and tokens. *)
Definition listWithMeta (rt : Runtime) (now : Z) (historyFile : option string)
    (files : SessionInfo.t → option string) (privacy : PrivacyConfig)
    (filter : option SessionListFilter.t) : list SessionMeta.t :=
  let '(from, to) := resolveDateRange rt now filter in
  let sessions := readHistory rt historyFile from to privacy in
  (λ s, peekSession rt s (files s) privacy) <$> byProjectName filter sessions.

(** Full: parses the entire session JSONL. [file] is the transcript of the
    session asked for. *)
Definition detail (rt : Runtime) (file : option string) (privacy : PrivacyConfig)
    (sessionId projectPath : string) : SessionDetail.t :=
  let session :=
    SessionInfo.mk sessionId projectPath
      match last (Str.split "/" projectPath) with
      | Some EmptyString | None => projectPath
      | Some name => name
      end
      [] [] (mkTimeRange 0 0) in
  parseSessionDetail rt session file privacy.

(** Count sessions matching filter. *)
Definition count (rt : Runtime) (now : Z) (historyFile : option string)
    (privacy : PrivacyConfig) (filter : option SessionListFilter.t) : nat :=
  let '(from, to) := resolveDateRange rt now filter in
  let sessions := readHistory rt historyFile from to privacy in
  match nonEmpty (filter ≫= SessionListFilter.project) with
  | Some project =>
      let f := Str.toLowerCase project in
      length
        (List.filter
           (λ s, Str.includes f (Str.toLowerCase (SessionInfo.projectName s)))
           sessions)
  | None => length sessions
  end.

(** Fast: reads only history.jsonl. *)
Definition list (rt : Runtime) (now : Z) (historyFile : option string)
    (privacy : PrivacyConfig) (filter : option SessionListFilter.t)
  : list SessionInfo.t :=
  let '(from, to) := resolveDateRange rt now filter in
  let sessions := readHistory rt historyFile from to privacy in
  byProjectName filter sessions.

End Sessions.

(** [filter ?? {}]. *)
Definition orEmptyFilter (filter : option SessionListFilter.t) : SessionListFilter.t :=
  default (SessionListFilter.mk None None None None) filter.

(** [aggregate.byProject(filter)]. *)
Definition aggregateByProject (rt : Runtime) (now : Z) (historyFile : option string)
    (files : SessionInfo.t → option string) (privacy : PrivacyConfig)
    (filter : option SessionListFilter.t) : list ProjectSummary.t :=
  buildProjectSummaries rt now (orEmptyFilter filter) historyFile files privacy.

(** ** readers/task-reader.ts: the date tests

    [fileDate] is the time value of the [Date] object. *)

Definition isSameDate (rt : Runtime) (fileDate : Z) (targetDate : string) : bool :=
  let '(year, month0, date) := dateFields rt fileDate in
  let month := Str.padStart2 (pretty (month0 + 1)) in
  let day := Str.padStart2 (pretty date) in
  String.eqb (pretty year +:+ "-" +:+ month +:+ "-" +:+ day) targetDate.

Definition isInDateRange (rt : Runtime) (fileDate : Z) (from to : string) : bool :=
  let '(year, month0, date) := dateFields rt fileDate in
  let month := Str.padStart2 (pretty (month0 + 1)) in
  let day := Str.padStart2 (pretty date) in
  let dateStr := pretty year +:+ "-" +:+ month +:+ "-" +:+ day in
  negb (Str.ltb dateStr from) && negb (Str.ltb to dateStr).

(** * Properties *)

(** *** Round trip of the path encoding *)

Lemma hasChar_replaceChar_self c d s :
  c ≠ d → Str.hasChar c (Str.replaceChar c d s) = false.
Proof.
  intros Hcd. induction s as [|x s IH]; cbn [Str.hasChar Str.replaceChar]; [done|].
  rewrite IH, orb_false_r.
  destruct (Ascii.eqb x c) eqn:E.
  - apply Ascii.eqb_neq. done.
  - apply Ascii.eqb_neq. apply Ascii.eqb_neq in E. congruence.
Qed.

Lemma replaceChar_absent c d s :
  Str.hasChar c s = false → Str.replaceChar c d s = s.
Proof.
  induction s as [|x s IH]; cbn [Str.hasChar Str.replaceChar]; [done|].
  intros [Hx Hs]%orb_false_elim.
  rewrite Ascii.eqb_sym in Hx. rewrite Hx. by rewrite IH.
Qed.

Lemma decode_encode_no_dash p :
  Str.hasChar "-" p = false → decodeProjectPath (encodeProjectPath p) = p.
Proof.
  unfold decodeProjectPath, encodeProjectPath.
  induction p as [|x p IH]; cbn [Str.hasChar Str.replaceChar]; [done|].
  intros [Hx Hp]%orb_false_elim. rewrite IH by done. f_equal.
  destruct (Ascii.eqb x "/") eqn:E.
  - apply Ascii.eqb_eq in E. subst x. reflexivity.
  - rewrite Ascii.eqb_sym in Hx. by rewrite Hx.
Qed.

Lemma decode_has_no_dash s : Str.hasChar "-" (decodeProjectPath s) = false.
Proof. apply hasChar_replaceChar_self. discriminate. Qed.

(** C9: encoding then decoding a project path gives the path back exactly
    when the path holds no literal dash; and a path with a dash that is not
    recovered exists (["/a-b"] comes back as ["/a/b"]). *)
Theorem C9_encode_decode_roundtrip :
  (∀ p : string,
      decodeProjectPath (encodeProjectPath p) = p ↔ Str.hasChar "-" p = false)
  ∧ (∃ p : string,
        Str.hasChar "-" p = true ∧ decodeProjectPath (encodeProjectPath p) ≠ p).
Proof.
  split.
  - intros p. split.
    + intros <-. apply decode_has_no_dash.
    + apply decode_encode_no_dash.
  - exists "/a-b". split; [reflexivity|]. vm_compute. discriminate.
Qed.

(** ** Privacy filtering leaves everything but the content alone *)

(** C10: filterTranscriptEntry either suppresses the entry or returns it
    with at most message.content changed: the entry's type, timestamp,
    gitBranch, planContent, cwd, sessionId, isSidechain, parentUuid, uuid and
    toolUseResult, the presence of its message, and the message's role,
    model and usage are those of the input. *)
Theorem C10_filterTranscriptEntry_frame
    (rt : Runtime) (entry : TranscriptEntry.t) (config : PrivacyConfig) :
  match filterTranscriptEntry rt entry config with
  | None => True
  | Some out =>
      TranscriptEntry.type out = TranscriptEntry.type entry
      ∧ TranscriptEntry.timestamp out = TranscriptEntry.timestamp entry
      ∧ TranscriptEntry.gitBranch out = TranscriptEntry.gitBranch entry
      ∧ TranscriptEntry.planContent out = TranscriptEntry.planContent entry
      ∧ TranscriptEntry.cwd out = TranscriptEntry.cwd entry
      ∧ TranscriptEntry.sessionId out = TranscriptEntry.sessionId entry
      ∧ TranscriptEntry.isSidechain out = TranscriptEntry.isSidechain entry
      ∧ TranscriptEntry.parentUuid out = TranscriptEntry.parentUuid entry
      ∧ TranscriptEntry.uuid out = TranscriptEntry.uuid entry
      ∧ TranscriptEntry.toolUseResult out = TranscriptEntry.toolUseResult entry
      ∧ Message.role <$> TranscriptEntry.message out
        = Message.role <$> TranscriptEntry.message entry
      ∧ Message.model <$> TranscriptEntry.message out
        = Message.model <$> TranscriptEntry.message entry
      ∧ Message.usage <$> TranscriptEntry.message out
        = Message.usage <$> TranscriptEntry.message entry
      ∧ (out = entry
         ∨ ∃ m c, TranscriptEntry.message entry = Some m
                  ∧ out = withContent entry m c)
  end.
Proof.
  unfold filterTranscriptEntry.
  destruct (stripToolResults config && _); [exact I|].
  destruct (TranscriptEntry.message entry) as [m|] eqn:Hm.
  - destruct (redactPrompts config), (Message.role m) as [[]|],
      (Message.content m) as [[]|];
      cbn; rewrite ?Hm; cbn;
      repeat split; eauto.
  - rewrite Hm. repeat split; eauto.
Qed.

(** ** Cost estimation *)






(** ** The stable ascending sort *)

Section SortBy.
Context {A : Type} (key : A → Z).

Lemma insertBy_perm x l : insertBy key x l ≡ₚ x :: l.
Proof.
  induction l as [|y l IH]; cbn; [done|].
  destruct (key x <=? key y); [done|].
  rewrite IH. apply Permutation_swap.
Qed.

Lemma sortBy_perm l : sortBy key l ≡ₚ l.
Proof.
  induction l as [|x l IH]; cbn; [done|].
  by rewrite insertBy_perm, IH.
Qed.

Lemma sortBy_length l : length (sortBy key l) = length l.
Proof. by rewrite sortBy_perm. Qed.

Lemma insertBy_sorted x l :
  Sorted (λ a b, key a ≤ key b) l → Sorted (λ a b, key a ≤ key b) (insertBy key x l).
Proof.
  induction 1 as [|y l Hs IH Hd]; cbn.
  - repeat constructor.
  - destruct (key x <=? key y) eqn:E.
    + apply Z.leb_le in E. repeat constructor; done.
    + apply Z.leb_gt in E. constructor; [done|].
      destruct l as [|z l]; cbn in *.
      * constructor. lia.
      * destruct (key x <=? key z); constructor; [lia|].
        by inversion Hd.
Qed.

Lemma sortBy_sorted l : Sorted (λ a b, key a ≤ key b) (sortBy key l).
Proof.
  induction l as [|x l IH]; cbn; [constructor|]. by apply insertBy_sorted.
Qed.

Lemma sortBy_strongly_sorted l :
  StronglySorted (λ a b, key a ≤ key b) (sortBy key l).
Proof.
  apply Sorted_StronglySorted; [|apply sortBy_sorted].
  intros a b c ??. lia.
Qed.
End SortBy.

(** ** Gap-capped hours *)

Lemma gapStep_shift a l idx acc :
  Forall (λ i, (1 ≤ i)%nat) idx →
  fold_left (gapStep (a :: l)) (map S idx) acc = fold_left (gapStep l) idx acc.
Proof.
  intros H. revert acc. induction H as [|i idx Hi _ IH]; intros acc; cbn; [done|].
  rewrite IH. f_equal. unfold gapStep.
  destruct i as [|i]; [lia|]. cbn. by rewrite Nat.sub_0_r.
Qed.

Lemma gapLoop_cappedGaps timestamps totalMs :
  gapLoop timestamps totalMs = totalMs + cappedGaps timestamps.
Proof.
  unfold gapLoop. change (λ totalMs i, _) with (gapStep timestamps).
  revert totalMs. induction timestamps as [|a [|b l] IH]; intros totalMs.
  - cbn. lia.
  - cbn. lia.
  - cbn [length]. replace (S (S (length l)) - 1)%nat with (S (length l)) by lia.
    cbn [seq fold_left].
    rewrite <- seq_shift.
    rewrite gapStep_shift.
    + specialize (IH (gapStep (a :: b :: l) totalMs 1)).
      cbn [length] in IH. rewrite Nat.sub_succ, Nat.sub_0_r in IH.
      rewrite IH. unfold gapStep. cbn. lia.
    + apply Forall_forall. intros i Hi%list_elem_of_In%in_seq. lia.
Qed.

Lemma hoursStep_contribution totalMs session :
  hoursStep totalMs session = totalMs + contribution session.
Proof.
  unfold hoursStep, contribution, sessionTimestamps.
  destruct (SessionInfo.promptTimestamps session) as [|t [|t' ts]] eqn:E.
  - cbn [length]. cbn [Nat.ltb Nat.leb].
    cbn [List.filter].
    destruct (0 <? start _), (0 <? end_ _); cbn; lia.
  - cbn. lia.
  - replace (0 <? length (t :: t' :: ts))%nat with true by done.
    pose proof (sortBy_length (λ t, t) (t :: t' :: ts)) as Hlen.
    destruct (length (sortBy (λ t0 : Z, t0) (t :: t' :: ts)) <=? 1)%nat eqn:El.
    + apply Nat.leb_le in El. cbn [length] in Hlen. lia.
    + apply gapLoop_cappedGaps.
Qed.

Lemma fold_hoursStep sessions acc :
  fold_left hoursStep sessions acc = acc + foldr Z.add 0 (contribution <$> sessions).
Proof.
  revert acc. induction sessions as [|s l IH]; intros acc; cbn; [lia|].
  rewrite IH, hoursStep_contribution. lia.
Qed.

(** C4, as stated, fails: a session with no prompt timestamp whose time
    range runs from 1,000 ms to 61,000 ms contributes the capped gap between
    the two bounds (60,000 ms, a sixtieth of an hour), not the floor of 5
    minutes (a twelfth of an hour). *)
Lemma C4_counterexample_no_timestamps :
  SessionInfo.promptTimestamps idleSession = []
  ∧ (estimateHours [idleSession] == 1 # 60)%Q
  ∧ ¬ (estimateHours [idleSession] == inject_Z (5 * 60 * 1000) / inject_Z 3600000)%Q.
Proof.
  split; [reflexivity|]. split; [reflexivity|].
  intros H. vm_compute in H. discriminate.
Qed.

(** C4, amended: estimateHours is the sum of the sessions' contributions
    divided by 3,600,000 (0 for no session). A session with prompt
    timestamps has them sorted ascending; with exactly one it contributes
    the floor of 5 minutes whatever its recorded time range; with more it
    contributes the sum over the consecutive sorted pairs of min(gap, 15
    minutes). A session with no prompt timestamp is measured on the bounds
    of its time range: the capped gap between them when both are positive,
    the floor of 5 minutes otherwise. *)
Theorem C4_estimateHours_amended (sessions : list SessionInfo.t) :
  (estimateHours sessions
   == inject_Z (foldr Z.add 0%Z (contribution <$> sessions)) / inject_Z 3600000)%Q
  ∧ (∀ s, s ∈ sessions →
       match SessionInfo.promptTimestamps s with
       | [] =>
           contribution s =
             if (0 <? start (SessionInfo.timeRange s))
                && (0 <? end_ (SessionInfo.timeRange s))
             then Z.min (end_ (SessionInfo.timeRange s)
                         - start (SessionInfo.timeRange s)) (15 * 60 * 1000)
             else 5 * 60 * 1000
       | [_] => contribution s = 5 * 60 * 1000
       | timestamps =>
           ∃ sorted,
             sorted ≡ₚ timestamps
             ∧ StronglySorted Z.le sorted
             ∧ contribution s = cappedGaps sorted
       end).
Proof.
  split.
  - unfold estimateHours. destruct sessions as [|s l]; [reflexivity|].
    cbn [length Nat.eqb]. rewrite fold_hoursStep. reflexivity.
  - intros s _. unfold contribution.
    destruct (SessionInfo.promptTimestamps s) as [|t [|t' ts]]; try reflexivity.
    exists (sortBy (λ t, t) (t :: t' :: ts)). split; [apply sortBy_perm|].
    split; [apply (sortBy_strongly_sorted (λ t : Z, t))|reflexivity].
Qed.

(** ** Insertion-ordered maps *)

Section MapLemmas.
Context {V : Type}.
Implicit Types (m : list (string * V)) (k : string).

Lemma mapGet_None m k : mapGet k m = None ↔ k ∉ m.*1.
Proof.
  induction m as [|[k' v] m IH]; cbn.
  - split; [intros _; apply not_elem_of_nil|done].
  - rewrite not_elem_of_cons. destruct (decide (k = k')); [|tauto].
    split; [done|]. intros [? _]. done.
Qed.

Lemma mapGet_Some_elem m k v : mapGet k m = Some v → (k, v) ∈ m.
Proof.
  induction m as [|[k' v'] m IH]; cbn; [done|].
  destruct (decide (k = k')) as [->|].
  - intros [= ->]. left.
  - intros H. right. auto.
Qed.

Lemma mapGet_elem_NoDup m k v : NoDup m.*1 → (k, v) ∈ m → mapGet k m = Some v.
Proof.
  induction m as [|[k' v'] m IH]; cbn; [by intros _ ?%elem_of_nil|].
  intros [Hk Hm]%NoDup_cons [[= -> ->]|Hin]%elem_of_cons.
  - by rewrite decide_True.
  - rewrite decide_False; [auto|].
    intros ->. apply Hk. apply list_elem_of_fmap. by exists (k', v).
Qed.

Lemma mapGet_snoc m k k' v :
  mapGet k (m ++ [(k', v)]) =
    match mapGet k m with
    | Some x => Some x
    | None => if decide (k = k') then Some v else None
    end.
Proof.
  induction m as [|[k0 v0] m IH]; cbn; [done|].
  destruct (decide (k = k0)); done.
Qed.

Lemma mapAlter_keys (f : V → V) k m : (mapAlter f k m).*1 = m.*1.
Proof.
  induction m as [|[k0 v0] m IH]; cbn; [done|].
  destruct (decide (k = k0)); cbn; by rewrite ?IH.
Qed.

Lemma mapGet_alter (f : V → V) k k' m :
  mapGet k (mapAlter f k' m) =
    if decide (k = k') then f <$> mapGet k m else mapGet k m.
Proof.
  induction m as [|[k0 v0] m IH]; cbn.
  - by destruct (decide (k = k')).
  - destruct (decide (k' = k0)) as [->|Hne]; cbn.
    + repeat case_decide; simplify_eq; done.
    + rewrite IH. repeat case_decide; simplify_eq; done.
Qed.
End MapLemmas.

(** ** Lines of a file *)

Lemma split_no_sep c s : Str.hasChar c s = false → Str.split c s = [s].
Proof.
  induction s as [|x s IH]; cbn [Str.hasChar Str.split]; [done|].
  intros [Hx Hs]%orb_false_elim.
  rewrite Ascii.eqb_sym, Hx, IH by done. done.
Qed.

Lemma split_app_sep c a b :
  Str.hasChar c a = false →
  Str.split c (a +:+ String c b) = a :: Str.split c b.
Proof.
  induction a as [|x a IH]; cbn [Str.hasChar].
  - intros _. change (EmptyString +:+ String c b) with (String c b).
    cbn [Str.split]. by rewrite Ascii.eqb_refl.
  - intros [Hx Ha]%orb_false_elim.
    change (String x a +:+ String c b) with (String x (a +:+ String c b)).
    cbn [Str.split]. rewrite Ascii.eqb_sym, Hx, IH by done. done.
Qed.

Lemma split_join_lines (lines : list string) :
  lines ≠ [] →
  Forall (λ l, Str.hasChar "010" l = false) lines →
  splitLines (joinLines lines) = lines.
Proof.
  unfold splitLines, joinLines, Str.join.
  induction lines as [|l [|l' lines] IH]; [done| |]; intros _ Hall.
  - cbn. apply split_no_sep. by inversion Hall.
  - inversion Hall as [|?? Hl Hrest]; subst.
    change (String.concat (String "010" "") (l :: l' :: lines))
      with (l +:+ String "010" (String.concat (String "010" "") (l' :: lines))).
    rewrite split_app_sep by done. f_equal. by apply IH.
Qed.

Lemma fold_lines_join {A} (step : A → string → A) (lines : list string) acc :
  (∀ a, step a EmptyString = a) →
  Forall (λ l, Str.hasChar "010" l = false) lines →
  fold_left step (splitLines (joinLines lines)) acc = fold_left step lines acc.
Proof.
  intros Hblank Hall. destruct lines as [|l lines].
  - cbn. apply Hblank.
  - by rewrite split_join_lines.
Qed.

Lemma omap_lines_join {A} (f : string → option A) (lines : list string) :
  f EmptyString = None →
  Forall (λ l, Str.hasChar "010" l = false) lines →
  omap f (splitLines (joinLines lines)) = omap f lines.
Proof.
  intros Hblank Hall. destruct lines as [|l lines].
  - cbn. by rewrite Hblank.
  - by rewrite split_join_lines.
Qed.

Lemma fold_left_skip {A B} (step : A → B → A) l1 bad l2 acc :
  (∀ a, step a bad = a) →
  fold_left step (l1 ++ bad :: l2) acc = fold_left step (l1 ++ l2) acc.
Proof. intros H. rewrite !fold_left_app. cbn. by rewrite H. Qed.

Lemma omap_skip {A B} (f : A → option B) l1 bad l2 :
  f bad = None → omap f (l1 ++ bad :: l2) = omap f (l1 ++ l2).
Proof. intros H. rewrite !omap_app. cbn. by rewrite H. Qed.

Lemma Forall_drop_middle {A} (P : A → Prop) l1 x l2 :
  Forall P (l1 ++ x :: l2) → Forall P (l1 ++ l2).
Proof.
  rewrite !Forall_app, Forall_cons. tauto.
Qed.

(** ** The history reader *)

Lemma acceptLine_filter rt from to privacy (lines : list string) :
  omap (acceptLine rt from to privacy) lines =
  filter (accepted rt from to privacy)
    (omap (λ line, if Str.isBlank line then None else parseHistoryLine rt line) lines).
Proof.
  induction lines as [|line lines IH]; cbn; [done|].
  unfold acceptLine at 1.
  destruct (Str.isBlank line); [done|].
  destruct (parseHistoryLine rt line) as [r|]; [|done].
  rewrite filter_cons, <- IH.
  destruct (decide (accepted rt from to privacy r)) as [[Hw He]|Hn].
  - unfold inWindow in Hw. apply andb_true_iff in Hw as [H1 H2].
    apply negb_true_iff in H1, H2. cbn zeta. by rewrite H1, H2, He.
  - cbn zeta.
    destruct (Str.ltb (toLocalDate rt _) from) eqn:H1; [done|].
    destruct (Str.ltb to _) eqn:H2; [done|].
    destruct (isProjectExcluded _ _) eqn:He; [done|].
    destruct Hn. split; [|done]. unfold inWindow. by rewrite H1, H2.
Qed.

Lemma groupEntries_spec rt privacy (entries : list HistoryEntry.t) :
  let m := fold_left (groupStep rt privacy) entries [] in
  NoDup m.*1
  ∧ ∀ sid, mapGet sid m
           = groupOf rt privacy (filter (λ r, HistoryEntry.sessionId r = sid) entries).
Proof.
  induction entries as [|e entries IH] using rev_ind; cbn.
  { split; [constructor|done]. }
  rewrite fold_left_app. cbn. destruct IH as [Hnd Hget].
  set (m := fold_left (groupStep rt privacy) entries []) in *.
  unfold groupStep.
  destruct (mapGet (HistoryEntry.sessionId e) m) as [g|] eqn:Hg.
  - split; [by rewrite mapAlter_keys|].
    intros sid. rewrite mapGet_alter, filter_app, filter_cons, filter_nil.
    destruct (decide (sid = HistoryEntry.sessionId e)) as [->|Hne].
    + rewrite decide_True by done. rewrite Hg. rewrite Hget in Hg.
      destruct (filter _ entries) as [|r rows]; [done|]. cbn in *.
      injection Hg as <-. cbn. by rewrite !fmap_app.
    + rewrite decide_False by done. by rewrite app_nil_r.
  - split.
    + rewrite fmap_app. cbn. apply NoDup_app. split; [done|].
      split; [|apply NoDup_singleton].
      intros k Hk ->%list_elem_of_singleton. by apply mapGet_None in Hg.
    + intros sid. rewrite mapGet_snoc, filter_app, filter_cons, filter_nil.
      destruct (decide (sid = HistoryEntry.sessionId e)) as [->|Hne].
      * rewrite decide_True by done. rewrite Hg. rewrite Hget in Hg.
        destruct (filter _ entries) as [|r rows]; [done|]. done.
      * rewrite decide_False by done. rewrite app_nil_r, <- Hget.
        by destruct (mapGet sid m).
Qed.

Lemma readHistory_elem rt file from to privacy v :
  v ∈ readHistory rt file from to privacy ↔
  ∃ g, groupOf rt privacy
         (sessionRows rt file from to privacy (SessionInfo.sessionId v)) = Some g
       ∧ v = toSessionInfo (SessionInfo.sessionId v, g).
Proof.
  unfold readHistory, sessionRows, logRecords.
  destruct file as [text|].
  2:{ split; [by intros ?%elem_of_nil|]. by intros (g & ? & _). }
  rewrite sortBy_perm, acceptLine_filter.
  set (entries := filter _ _).
  destruct (groupEntries_spec rt privacy entries) as [Hnd Hget].
  rewrite list_elem_of_fmap. split.
  - intros ([sid g] & -> & Hin). cbn. exists g. split; [|done].
    rewrite <- Hget. by apply mapGet_elem_NoDup.
  - intros (g & Hg & Hv). exists (SessionInfo.sessionId v, g). split; [done|].
    apply mapGet_Some_elem. by rewrite Hget.
Qed.

Lemma readHistory_ids_NoDup rt file from to privacy :
  NoDup (SessionInfo.sessionId <$> readHistory rt file from to privacy).
Proof.
  unfold readHistory. destruct file as [text|]; [|constructor].
  rewrite sortBy_perm, <- list_fmap_compose.
  destruct (groupEntries_spec rt privacy
              (omap (acceptLine rt from to privacy) (splitLines text))) as [Hnd _].
  erewrite list_fmap_ext; [exact Hnd|]. by intros ? [].
Qed.

Lemma NoDup_fmap_count {A B} `{EqDecision B} (f : A → B) (l : list A) x :
  NoDup (f <$> l) → x ∈ l → length (filter (λ y, f y = f x) l) = 1%nat.
Proof.
  induction l as [|a l IH]; [by intros _ ?%elem_of_nil|].
  rewrite fmap_cons.
  intros [Ha Hl]%NoDup_cons [->|Hin]%elem_of_cons.
  - rewrite filter_cons_True by done. cbn [length]. f_equal.
    apply length_zero_iff_nil. apply eq_sym.
    destruct (filter _ l) as [|y ys] eqn:E; [done|].
    assert (y ∈ filter (λ y, f y = f a) l) as [Hy Hyl]%list_elem_of_filter
      by (rewrite E; left).
    destruct Ha. rewrite <- Hy. by apply list_elem_of_fmap_2.
  - rewrite filter_cons_False; [by apply IH|].
    intros Heq. apply Ha. rewrite Heq. by apply list_elem_of_fmap_2.
Qed.

Lemma fold_min_spec (l : list Z) (x : Z) :
  (fold_left Z.min l x = x ∨ fold_left Z.min l x ∈ l)
  ∧ fold_left Z.min l x ≤ x
  ∧ Forall (λ t, fold_left Z.min l x ≤ t) l.
Proof.
  revert x. induction l as [|y l IH]; intros x; cbn.
  { split; [by left|]. split; [lia|constructor]. }
  destruct (IH (Z.min x y)) as (Hin & Hle & Hall).
  split; [|split].
  - destruct Hin as [->|Hin].
    + destruct (Z.min_spec x y) as [[_ ->]|[_ ->]]; [by left|right; left].
    + right. by right.
  - lia.
  - constructor; [lia|done].
Qed.

Lemma mathMin_spec (l : list Z) :
  l ≠ [] → mathMin l ∈ l ∧ Forall (λ t, mathMin l ≤ t) l.
Proof.
  destruct l as [|x l]; [done|]. intros _. cbn.
  destruct (fold_min_spec l x) as (Hin & Hle & Hall).
  split.
  - destruct Hin as [->|Hin]; [left|by right].
  - by constructor.
Qed.

Lemma sessionRows_accepted rt file from to privacy sid r :
  r ∈ sessionRows rt file from to privacy sid ↔
  r ∈ logRecords rt file ∧ accepted rt from to privacy r
  ∧ HistoryEntry.sessionId r = sid.
Proof.
  unfold sessionRows. rewrite !list_elem_of_filter. tauto.
Qed.

Lemma readHistory_view rt file from to privacy v :
  v ∈ readHistory rt file from to privacy →
  let rows := sessionRows rt file from to privacy (SessionInfo.sessionId v) in
  rows ≠ []
  ∧ SessionInfo.prompts v = historyDisplay rt privacy <$> rows
  ∧ SessionInfo.promptTimestamps v = HistoryEntry.timestamp <$> rows
  ∧ SessionInfo.timeRange v
    = mkTimeRange (mathMin (HistoryEntry.timestamp <$> rows))
        (mathMax (HistoryEntry.timestamp <$> rows)).
Proof.
  intros (g & Hg & Hv)%readHistory_elem rows. subst rows.
  destruct (sessionRows rt file from to privacy (SessionInfo.sessionId v))
    as [|r rows] eqn:Hrows; [done|].
  cbn in Hg. injection Hg as <-. rewrite Hv. cbn. done.
Qed.

Lemma readHistory_sorted rt file from to privacy :
  StronglySorted (λ a b, sessionStart a ≤ sessionStart b)
    (readHistory rt file from to privacy).
Proof.
  unfold readHistory. destruct file; [|constructor].
  apply (sortBy_strongly_sorted sessionStart).
Qed.

(** readHistory in terms of the test the code applies: the session id of
    each accepted record is the id of exactly one returned view; a view
    holds the prompts and timestamps of the accepted records of its session
    and of nothing else, in the order of the log; a log without a record
    the test rejects reads the same; the time range starts at the least of
    the timestamps; and the list is sorted ascending by that start. *)
Lemma readHistory_by_accepted
    (rt : Runtime) (file : option string) (from to : string)
    (privacy : PrivacyConfig) :
  let views := readHistory rt file from to privacy in
  (∀ r, r ∈ logRecords rt file → accepted rt from to privacy r →
     length (filter (λ v, SessionInfo.sessionId v = HistoryEntry.sessionId r) views)
     = 1%nat)
  ∧ (∀ v, v ∈ views →
       let rows := sessionRows rt file from to privacy (SessionInfo.sessionId v) in
       rows ≠ []
       ∧ SessionInfo.prompts v = historyDisplay rt privacy <$> rows
       ∧ SessionInfo.promptTimestamps v = HistoryEntry.timestamp <$> rows
       ∧ Forall (λ r, inWindow rt from to r = true) rows
       ∧ sessionStart v ∈ SessionInfo.promptTimestamps v
       ∧ Forall (λ t, sessionStart v ≤ t) (SessionInfo.promptTimestamps v))
  ∧ (∀ r, r ∈ logRecords rt file → inWindow rt from to r = false →
       ∀ v, v ∈ views →
         r ∉ sessionRows rt file from to privacy (SessionInfo.sessionId v))
  ∧ (∀ before line after r,
       Forall (λ l, Str.hasChar "010" l = false) (before ++ line :: after) →
       parseHistoryLine rt line = Some r →
       inWindow rt from to r = false →
       readHistory rt (Some (joinLines (before ++ line :: after))) from to privacy
       = readHistory rt (Some (joinLines (before ++ after))) from to privacy)
  ∧ StronglySorted (λ a b, sessionStart a ≤ sessionStart b) views.
Proof.
  intros views. split; [|split; [|split; [|split]]].
  - intros r Hr Hacc.
    assert (r ∈ sessionRows rt file from to privacy (HistoryEntry.sessionId r)) as Hin.
    { apply sessionRows_accepted. done. }
    destruct (groupOf rt privacy
                (sessionRows rt file from to privacy (HistoryEntry.sessionId r)))
      as [g|] eqn:Hg.
    2:{ unfold groupOf in Hg. destruct (sessionRows _ _ _ _ _ _); [|done].
        by apply elem_of_nil in Hin. }
    set (v := toSessionInfo (HistoryEntry.sessionId r, g)).
    assert (v ∈ views) as Hv.
    { apply readHistory_elem. exists g. done. }
    change (HistoryEntry.sessionId r) with (SessionInfo.sessionId v).
    apply NoDup_fmap_count; [apply readHistory_ids_NoDup|done].
  - intros v Hv rows. subst rows.
    destruct (readHistory_view rt file from to privacy v Hv)
      as (Hne & Hp & Ht & Hrange).
    assert (HistoryEntry.timestamp
              <$> sessionRows rt file from to privacy (SessionInfo.sessionId v) ≠ [])
      as Hne'.
    { intros Heq%fmap_nil_inv. done. }
    unfold sessionStart. rewrite Hrange, Ht. cbn [start].
    repeat split; try done.
    + apply Forall_forall. intros x (_ & [Hw _] & _)%sessionRows_accepted. done.
    + by apply mathMin_spec.
    + by apply mathMin_spec.
  - intros r _ Hout v _ (_ & [Hw _] & _)%sessionRows_accepted. congruence.
  - intros before line after r Hall Hparse Hout.
    pose proof (Forall_drop_middle _ _ _ _ Hall) as Hall'.
    unfold readHistory. rewrite !omap_lines_join by done.
    rewrite omap_skip; [done|].
    unfold acceptLine. destruct (Str.isBlank line); [done|].
    rewrite Hparse. unfold inWindow in Hout. cbn zeta in *.
    destruct (Str.ltb (toLocalDate rt _) from); [done|].
    destruct (Str.ltb to _); [done|]. done.
  - apply readHistory_sorted.
Qed.

(** ** Date strings and the calendar *)

Lemma pretty_four_digits (y : Z) : 1000 ≤ y ≤ 9999 → pretty y = digits4 y.
Proof.
  intros Hy.
  assert (forallb (λ n, String.eqb (pretty n) (digits4 n)) (seqZ 1000 9000) = true)
    as Hall by (vm_compute; reflexivity).
  rewrite forallb_forall in Hall. apply String.eqb_eq, Hall.
  apply list_elem_of_In, elem_of_seqZ. lia.
Qed.

Lemma pad_two_digits (n : Z) : 0 ≤ n ≤ 99 → Str.padStart2 (pretty n) = digits2 n.
Proof.
  intros Hn.
  assert (forallb (λ n, String.eqb (Str.padStart2 (pretty n)) (digits2 n))
            (seqZ 0 100) = true) as Hall by (vm_compute; reflexivity).
  rewrite forallb_forall in Hall. apply String.eqb_eq, Hall.
  apply list_elem_of_In, elem_of_seqZ. lia.
Qed.

Lemma nat_of_digitChar (k : Z) :
  0 ≤ k ≤ 9 → nat_of_ascii (digitChar k) = (48 + Z.to_nat k)%nat.
Proof. intros Hk. unfold digitChar. apply nat_ascii_embedding. lia. Qed.

Lemma ltb_digit (j k : Z) (a b : string) :
  0 ≤ j ≤ 9 → 0 ≤ k ≤ 9 →
  Str.ltb (String (digitChar j) a) (String (digitChar k) b)
  = if j <? k then true else if k <? j then false else Str.ltb a b.
Proof.
  intros Hj Hk. cbn [Str.ltb]. rewrite !nat_of_digitChar by done.
  destruct (Z.ltb_spec j k), (Z.ltb_spec k j),
    (Nat.ltb_spec (48 + Z.to_nat j) (48 + Z.to_nat k)),
    (Nat.ltb_spec (48 + Z.to_nat k) (48 + Z.to_nat j)); try done; lia.
Qed.

Lemma ltb_same_head (c : ascii) (a b : string) :
  Str.ltb (String c a) (String c b) = Str.ltb a b.
Proof. cbn [Str.ltb]. by rewrite Nat.ltb_irrefl. Qed.

Lemma isoDate_digits (y m d : Z) :
  isoDate (y, m, d)
  = String (digitChar (y / 1000)) (String (digitChar (y / 100 mod 10))
      (String (digitChar (y / 10 mod 10)) (String (digitChar (y mod 10))
        (String "-" (String (digitChar (m / 10))
           (String (digitChar (m mod 10))
             (String "-" (String (digitChar (d / 10))
                (String (digitChar (d mod 10)) EmptyString))))))))).
Proof. reflexivity. Qed.

(** The string the code builds for a timestamp is the date of the
    timestamp written YYYY-MM-DD, when the year has four digits. *)
Lemma toLocalDate_isoDate rt (timestamp : Z) :
  fourDigitYear (calendarDate rt timestamp) →
  toLocalDate rt timestamp = isoDate (calendarDate rt timestamp).
Proof.
  unfold toLocalDate, calendarDate.
  destruct (dateFields rt timestamp) as [[y m0] d]. intros (Hy & Hm & Hd).
  rewrite pretty_four_digits, !pad_two_digits by lia. reflexivity.
Qed.

(** Two dates of four-digit years, written YYYY-MM-DD, compare as strings
    the way the dates compare in the calendar. *)
Lemma ltb_isoDate (a b : CalendarDate) :
  fourDigitYear a → fourDigitYear b →
  Str.ltb (isoDate a) (isoDate b) = true ↔ calendarBefore a b.
Proof.
  destruct a as [[y1 m1] d1], b as [[y2 m2] d2].
  intros (Hy1 & Hm1 & Hd1) (Hy2 & Hm2 & Hd2). rewrite !isoDate_digits.
  unfold calendarBefore.
  assert (∀ n, 0 ≤ n → 0 ≤ n / 1000 ∧ 0 ≤ n / 100 mod 10 ≤ 9
               ∧ 0 ≤ n / 10 mod 10 ≤ 9 ∧ 0 ≤ n mod 10 ≤ 9
               ∧ 0 ≤ n / 10 ∧ 0 ≤ n mod 10 ≤ 9
               ∧ n = 1000 * (n / 1000) + 100 * (n / 100 mod 10)
                     + 10 * (n / 10 mod 10) + n mod 10
               ∧ n = 10 * (n / 10) + n mod 10) as Hdigits.
  { intros n Hn. repeat split; try (apply Z.div_pos; lia);
      try (apply Z.mod_pos_bound; lia);
      try (pose proof (Z.mod_pos_bound (n / 100) 10); lia);
      try (pose proof (Z.mod_pos_bound (n / 10) 10); lia);
      try (pose proof (Z.mod_pos_bound n 10); lia).
    - pose proof (Z.div_mod n 10 ltac:(lia)).
      pose proof (Z.div_mod (n / 10) 10 ltac:(lia)).
      pose proof (Z.div_mod (n / 100) 10 ltac:(lia)).
      assert (n / 10 / 10 = n / 100) by (rewrite Z.div_div by lia; done).
      assert (n / 100 / 10 = n / 1000) by (rewrite Z.div_div by lia; done).
      lia.
    - pose proof (Z.div_mod n 10 ltac:(lia)). lia. }
  destruct (Hdigits y1 ltac:(lia)) as (A1 & A2 & A3 & A4 & _ & _ & Ay1 & _).
  destruct (Hdigits y2 ltac:(lia)) as (B1 & B2 & B3 & B4 & _ & _ & Ay2 & _).
  destruct (Hdigits m1 ltac:(lia)) as (_ & _ & _ & _ & C1 & C2 & _ & Am1).
  destruct (Hdigits m2 ltac:(lia)) as (_ & _ & _ & _ & D1 & D2 & _ & Am2).
  destruct (Hdigits d1 ltac:(lia)) as (_ & _ & _ & _ & E1 & E2 & _ & Ad1).
  destruct (Hdigits d2 ltac:(lia)) as (_ & _ & _ & _ & F1 & F2 & _ & Ad2).
  clear Hdigits.
  generalize dependent (y1 / 1000). intros p1 ??.
  generalize dependent (y1 / 100 mod 10). intros p2 ??.
  generalize dependent (y1 / 10 mod 10). intros p3 ??.
  generalize dependent (y1 mod 10). intros p4 ??.
  generalize dependent (y2 / 1000). intros q1 ??.
  generalize dependent (y2 / 100 mod 10). intros q2 ??.
  generalize dependent (y2 / 10 mod 10). intros q3 ??.
  generalize dependent (y2 mod 10). intros q4 ??.
  generalize dependent (m1 / 10). intros r1 ??.
  generalize dependent (m1 mod 10). intros r2 ??.
  generalize dependent (m2 / 10). intros s1 ??.
  generalize dependent (m2 mod 10). intros s2 ??.
  generalize dependent (d1 / 10). intros u1 ??.
  generalize dependent (d1 mod 10). intros u2 ??.
  generalize dependent (d2 / 10). intros v1 ??.
  generalize dependent (d2 mod 10). intros v2 ??.
  rewrite !ltb_digit, ltb_same_head, !ltb_digit, ltb_same_head, !ltb_digit by lia.
  cbn [Str.ltb].
  repeat match goal with
         | |- context [?a <? ?b] => destruct (Z.ltb_spec a b)
         end; split; try done; try lia.
Qed.

(** Under these conditions the test of the code is the membership of the
    date of the record in the window of the calendar. *)
Lemma accepted_wanted rt (fromDate toDate : CalendarDate) privacy r :
  fourDigitYear fromDate → fourDigitYear toDate →
  fourDigitYear (calendarDate rt (HistoryEntry.timestamp r)) →
  accepted rt (isoDate fromDate) (isoDate toDate) privacy r
  ↔ wanted rt fromDate toDate privacy r.
Proof.
  intros Hf Ht Hr. unfold accepted, wanted, inWindow, inCalendarWindow.
  cbn zeta. rewrite (toLocalDate_isoDate rt _ Hr).
  pose proof (ltb_isoDate _ _ Hr Hf) as H1. pose proof (ltb_isoDate _ _ Ht Hr) as H2.
  rewrite andb_true_iff, !negb_true_iff, <- H1, <- H2.
  rewrite !not_true_iff_false. done.
Qed.

Lemma filter_ext_Forall {A} (P Q : A → Prop) `{∀ x, Decision (P x)}
    `{∀ x, Decision (Q x)} (l : list A) :
  Forall (λ x, P x ↔ Q x) l → filter P l = filter Q l.
Proof.
  induction 1 as [|x l Hx _ IH]; [done|].
  rewrite !filter_cons, IH.
  destruct (decide (P x)), (decide (Q x)); tauto.
Qed.

Lemma wantedRows_sessionRows rt file (fromDate toDate : CalendarDate) privacy sid :
  fourDigitYear fromDate → fourDigitYear toDate →
  Forall (λ r, fourDigitYear (calendarDate rt (HistoryEntry.timestamp r)))
         (logRecords rt file) →
  sessionRows rt file (isoDate fromDate) (isoDate toDate) privacy sid
  = wantedRows rt file fromDate toDate privacy sid.
Proof.
  intros Hf Ht Hall. unfold sessionRows, wantedRows. f_equal.
  apply filter_ext_Forall. eapply Forall_impl; [exact Hall|].
  intros r Hr. by apply accepted_wanted.
Qed.

(** C7, as stated, fails: the window is tested on date strings, compared
    code unit by code unit, and this is the order of the calendar only
    between dates written alike. A record of 10000-01-01 contributes to the
    view returned for the window from 1000-01-01 to 2026-12-31, and a
    record of 2026-10-15 to the view returned for the window written
    2026-1-1 to 2026-9-9; both dates come after the end of the window. *)
Lemma C7_counterexample_outside_calendar_window :
  (readHistory (Demo.runtime farRows []) (Some "far") "1000-01-01" "2026-12-31"
     LOCAL_PROFILE
   = [SessionInfo.mk "s9" "/work/app" "app" ["a prompt of the year 10000"]
        [253402300800000] (mkTimeRange 253402300800000 253402300800000)]
   ∧ calendarDate (Demo.runtime farRows []) (HistoryEntry.timestamp farRow)
     = (10000, 1, 1)
   ∧ calendarBefore (2026, 12, 31) (10000, 1, 1))
  ∧ (readHistory (Demo.runtime octoberRows []) (Some "october") "2026-1-1" "2026-9-9"
       LOCAL_PROFILE
     = [SessionInfo.mk "s8" "/work/app" "app" ["a prompt of October"]
          [1792022400000] (mkTimeRange 1792022400000 1792022400000)]
     ∧ calendarDate (Demo.runtime octoberRows []) (HistoryEntry.timestamp octoberRow)
       = (2026, 10, 15)
     ∧ calendarBefore (2026, 9, 9) (2026, 10, 15)).
Proof.
  split; (split; [vm_compute; reflexivity|split; [vm_compute; reflexivity|]]).
  - left. lia.
  - right. split; [done|]. left. lia.
Qed.

(** C7, amended: for a log whose records all fall on dates of four-digit
    years, and a window from one date of a four-digit year to another, both
    written YYYY-MM-DD, the session id of each record dated inside the
    window (and of a project not excluded) is the id of exactly one
    returned view; a view holds the prompts and timestamps of the records
    of its session that are dated inside the window, and of nothing else,
    in the order of the log; a log without a record dated outside the
    window reads the same; the time range starts at the least of the
    timestamps; and the list is sorted ascending by that start. The window
    and the date of a record are those of the calendar: the fields of the
    Date object compared as numbers. *)
Theorem C7_readHistory_sessions_amended
    (rt : Runtime) (file : option string) (fromDate toDate : CalendarDate)
    (privacy : PrivacyConfig) :
  fourDigitYear fromDate → fourDigitYear toDate →
  Forall (λ r, fourDigitYear (calendarDate rt (HistoryEntry.timestamp r)))
         (logRecords rt file) →
  let views := readHistory rt file (isoDate fromDate) (isoDate toDate) privacy in
  (∀ r, r ∈ logRecords rt file → wanted rt fromDate toDate privacy r →
     length (filter (λ v, SessionInfo.sessionId v = HistoryEntry.sessionId r) views)
     = 1%nat)
  ∧ (∀ v, v ∈ views →
       let rows := wantedRows rt file fromDate toDate privacy (SessionInfo.sessionId v) in
       rows ≠ []
       ∧ SessionInfo.prompts v = historyDisplay rt privacy <$> rows
       ∧ SessionInfo.promptTimestamps v = HistoryEntry.timestamp <$> rows
       ∧ Forall (λ r, inCalendarWindow fromDate toDate
                        (calendarDate rt (HistoryEntry.timestamp r))) rows
       ∧ sessionStart v ∈ SessionInfo.promptTimestamps v
       ∧ Forall (λ t, sessionStart v ≤ t) (SessionInfo.promptTimestamps v))
  ∧ (∀ before line after r,
       Forall (λ l, Str.hasChar "010" l = false) (before ++ line :: after) →
       parseHistoryLine rt line = Some r →
       fourDigitYear (calendarDate rt (HistoryEntry.timestamp r)) →
       ¬ inCalendarWindow fromDate toDate (calendarDate rt (HistoryEntry.timestamp r)) →
       readHistory rt (Some (joinLines (before ++ line :: after)))
         (isoDate fromDate) (isoDate toDate) privacy
       = readHistory rt (Some (joinLines (before ++ after)))
           (isoDate fromDate) (isoDate toDate) privacy)
  ∧ StronglySorted (λ a b, sessionStart a ≤ sessionStart b) views.
Proof.
  intros Hf Ht Hall views.
  destruct (readHistory_by_accepted rt file (isoDate fromDate) (isoDate toDate) privacy)
    as (Hone & Hview & _ & Hdrop & Hsorted).
  fold views in Hone, Hview, Hsorted.
  split; [|split; [|split]].
  - intros r Hr Hw. apply Hone; [done|].
    apply accepted_wanted; [done..| |done].
    by apply (proj1 (Forall_forall _ _) Hall).
  - intros v Hv rows. subst rows.
    rewrite <- (wantedRows_sessionRows rt file fromDate toDate privacy _ Hf Ht Hall).
    destruct (Hview v Hv) as (Hne & Hp & Hts & _ & Hstart & Hmin).
    repeat split; try done.
    rewrite (wantedRows_sessionRows rt file fromDate toDate privacy _ Hf Ht Hall).
    apply Forall_forall. intros r Hr. unfold wantedRows in Hr.
    apply list_elem_of_filter in Hr as [_ Hr].
    apply list_elem_of_filter in Hr as [[Hw _] _]. done.
  - intros before line after r Hlines Hparse Hr Hout.
    apply (Hdrop before line after r Hlines Hparse).
    destruct (inWindow rt (isoDate fromDate) (isoDate toDate) r) eqn:E; [|done].
    exfalso. apply Hout.
    assert (accepted rt (isoDate fromDate) (isoDate toDate) LOCAL_PROFILE r) as Hacc
      by (split; [done|reflexivity]).
    apply accepted_wanted in Hacc as [Hw _]; done.
  - done.
Qed.

(** C7, an instance: the log of the worked example read for the 9th and the
    10th of February 2026; the session [s1] has one view. *)
Lemma C7_witness_february :
  length (filter (λ v, SessionInfo.sessionId v = "s1")
            (readHistory (Demo.runtime demoRows []) (Some demoLog)
               "2026-02-09" "2026-02-10" LOCAL_PROFILE)) = 1%nat.
Proof.
  assert (fourDigitYear (2026, 2, 9)) as Hfrom by (cbn; lia).
  assert (fourDigitYear (2026, 2, 10)) as Hto by (cbn; lia).
  assert (Forall (λ r, fourDigitYear
                         (calendarDate (Demo.runtime demoRows [])
                            (HistoryEntry.timestamp r)))
            (logRecords (Demo.runtime demoRows []) (Some demoLog))) as Hlog.
  { assert (logRecords (Demo.runtime demoRows []) (Some demoLog)
            = [ HistoryEntry.mk "write the docs" 1770595260000 "/work/site" "s2";
                HistoryEntry.mk "fix the parser" 1770595200000 "/work/app" "s1";
                HistoryEntry.mk "add a test" 1770595800000 "/work/app" "s1";
                HistoryEntry.mk "an old prompt" 0 "/work/app" "s1" ]) as ->
      by (vm_compute; reflexivity).
    repeat constructor; vm_compute; discriminate. }
  pose proof (proj1 (C7_readHistory_sessions_amended (Demo.runtime demoRows [])
                       (Some demoLog) (2026, 2, 9) (2026, 2, 10) LOCAL_PROFILE
                       Hfrom Hto Hlog)
                (HistoryEntry.mk "fix the parser" 1770595200000 "/work/app" "s1"))
    as Hone.
  change (isoDate (2026, 2, 9)) with "2026-02-09" in Hone.
  change (isoDate (2026, 2, 10)) with "2026-02-10" in Hone.
  apply Hone.
  - vm_compute. right. left.
  - split; [split|].
    + vm_compute. intros [H|H]; [discriminate H|].
      destruct H as [_ [H|[_ H]]]; discriminate H.
    + vm_compute. intros [H|H]; [discriminate H|].
      destruct H as [_ [H|[_ H]]]; discriminate H.
    + reflexivity.
Defined.

(** A log of six lines read for 2026-02-09: the malformed line, the blank
    line and the row of 1970 are skipped, the rows of session s1 are grouped
    in the order of the log, and s1, which starts first, comes first. *)
Example readHistory_worked :
  readHistory (Demo.runtime demoRows []) (Some demoLog)
    "2026-02-09" "2026-02-09" LOCAL_PROFILE
  = [ SessionInfo.mk "s1" "/work/app" "app" ["fix the parser"; "add a test"]
        [1770595200000; 1770595800000] (mkTimeRange 1770595200000 1770595800000);
      SessionInfo.mk "s2" "/work/site" "site" ["write the docs"]
        [1770595260000] (mkTimeRange 1770595260000 1770595260000) ].
Proof. vm_compute. reflexivity. Qed.

(** redactString with the three steps on: the home directory first, the
    absolute paths next, the pattern last. *)
Example redactString_worked :
  redactString (Demo.runtime [] [])
    "hunter2 opens /Users/bob/work/app/src/main.ts from /home/alice/notes"
    customConfig
  = "[REDACTED] opens src/main.ts from ~/notes".
Proof. vm_compute. reflexivity. Qed.

(** ** Prompt redaction under the strict profile *)

(** C1, as stated, fails. (a) A history row whose display text is the
    marker itself is returned with the same text: the log holds one line,
    parsed to a row of 2026-02-09 with display [redacted], and the view
    returned under the strict profile stores that very text. (b) A user
    message whose content is a list of blocks is returned unchanged by
    filterTranscriptEntry under the strict profile, its text included. *)
Lemma C1_counterexample_marker_and_blocks :
  (SessionInfo.prompts <$>
     readHistory (Demo.runtime [("row", markerRow)] []) (Some "row")
       "2026-02-09" "2026-02-09"
       (resolvePrivacyConfig (Some PrivacyProfile.strict) None))
  = [[HistoryEntry.display markerRow]]
  ∧ filterTranscriptEntry (Demo.runtime [] []) userBlocksEntry
      (resolvePrivacyConfig (Some PrivacyProfile.strict) None)
    = Some userBlocksEntry.
Proof. split; vm_compute; reflexivity. Qed.

(** C1, amended: under the strict profile every prompt text a returned view
    stores is the fixed marker [redacted], one per accepted record of the
    session, so it differs from the record's display text exactly when that
    text is not the marker; and a transcript entry with a user-role message
    whose content is a string is either suppressed (it carries a tool-use
    result) or returned with the marker as its content. *)
Theorem C1_strict_prompts_amended
    (rt : Runtime) (file : option string) (from to : string) :
  let strict := resolvePrivacyConfig (Some PrivacyProfile.strict) None in
  (∀ v, v ∈ readHistory rt file from to strict →
     SessionInfo.prompts v
     = (λ _, redacted) <$> sessionRows rt file from to strict (SessionInfo.sessionId v))
  ∧ (∀ r, historyDisplay rt strict r = redacted
          ∧ (historyDisplay rt strict r ≠ HistoryEntry.display r
             ↔ HistoryEntry.display r ≠ redacted))
  ∧ (∀ entry m s,
       TranscriptEntry.message entry = Some m →
       Message.role m = Some Role.user →
       Message.content m = Some (CString s) →
       filterTranscriptEntry rt entry strict
       = if bool_decide (is_Some (TranscriptEntry.toolUseResult entry))
         then None
         else Some (withContent entry m (CString redacted))).
Proof.
  intros strict. split; [|split].
  - intros v Hv.
    destruct (readHistory_view rt file from to strict v Hv) as (_ & -> & _).
    apply list_fmap_ext. done.
  - intros r. split; [done|]. unfold historyDisplay. cbn. split; intros H ?; congruence.
  - intros entry m s Hm Hr Hc. unfold filterTranscriptEntry.
    cbn [strict resolvePrivacyConfig stripToolResults redactPrompts default
         PRIVACY_PROFILES STRICT_PROFILE SHAREABLE_PROFILE LOCAL_PROFILE andb].
    destruct (bool_decide _); [done|]. by rewrite Hm, Hr, Hc.
Qed.

(** ** Redaction of history prompts when no pattern is configured *)

(** C3, evaluated where the code departs from it: under the shareable
    profile (home-directory and absolute-path redaction on, no pattern) on
    a host whose home directory is /home/alice, readHistory stores the
    display text of the row as it is, while redactString of that text is
    the text with the home directory replaced by a tilde. In general, with
    prompt redaction off and no pattern configured the stored text is the
    display text, whatever the other settings. *)
Theorem C3_shareable_stores_raw_display :
  (SessionInfo.prompts <$>
     readHistory (Demo.runtime [("row", pathRow)] []) (Some "row")
       "2026-02-09" "2026-02-09"
       (resolvePrivacyConfig (Some PrivacyProfile.shareable) None))
  = [["open /home/alice/proj/src/main.ts"]]
  ∧ redactString (Demo.runtime [("row", pathRow)] []) (HistoryEntry.display pathRow)
      (resolvePrivacyConfig (Some PrivacyProfile.shareable) None)
    = "open ~/proj/src/main.ts"
  ∧ (∀ (rt : Runtime) (privacy : PrivacyConfig) (r : HistoryEntry.t),
       redactPrompts privacy = false → redactPatterns privacy = [] →
       historyDisplay rt privacy r = HistoryEntry.display r).
Proof.
  split; [vm_compute; reflexivity|]. split; [vm_compute; reflexivity|].
  intros rt privacy r Hp Hpat. unfold historyDisplay. by rewrite Hp, Hpat.
Qed.

(** ** Peek mode and the privacy filter *)

(** C2, evaluated where the code departs from it: the transcript holds one
    record that carries a tool-result payload; under the local profile
    (stripToolResults set) filterTranscriptEntry suppresses it and
    parseSessionDetail counts nothing of it, yet peekSession takes its
    branch, its model, its four token counts and counts it as a message.
    In general the result of peekSession is the same under every privacy
    configuration. *)
Theorem C2_peekSession_counts_suppressed_record :
  filterTranscriptEntry (Demo.runtime [] [("line", toolResultEntry)])
    toolResultEntry LOCAL_PROFILE = None
  ∧ peekSession (Demo.runtime [] [("line", toolResultEntry)]) anySession
      (Some "line") LOCAL_PROFILE
    = SessionMeta.mk anySession (Some "feature/login") (Some "claude-opus-4-6")
        10 20 30 40 1
  ∧ SessionDetail.meta
      (parseSessionDetail (Demo.runtime [] [("line", toolResultEntry)]) anySession
         (Some "line") LOCAL_PROFILE)
    = SessionMeta.mk anySession None None 0 0 0 0 0
  ∧ (∀ (rt : Runtime) (session : SessionInfo.t) (file : option string)
       (p1 p2 : PrivacyConfig),
       peekSession rt session file p1 = peekSession rt session file p2).
Proof.
  split; [vm_compute; reflexivity|]. split; [vm_compute; reflexivity|].
  split; [vm_compute; reflexivity|]. reflexivity.
Qed.

(** ** Absent files and malformed lines *)

(** C8: a missing history file gives the empty list; a missing transcript
    file gives, from peekSession and from parseSessionDetail, the input view
    with zero counts, empty lists, flags off and neither branch nor model;
    and in the three scans a line that JSON.parse rejects is skipped: the
    result on the lines [before], the bad line, then [after] is the result on
    [before] then [after]. *)
Theorem C8_absent_files_and_malformed_lines
    (rt : Runtime) (session : SessionInfo.t) (from to : string)
    (privacy : PrivacyConfig) (before : list string) (bad : string)
    (after : list string) :
  Forall (λ l, Str.hasChar "010" l = false) (before ++ bad :: after) →
  parseHistoryLine rt bad = None →
  parseTranscriptLine rt bad = None →
  readHistory rt None from to privacy = []
  ∧ peekSession rt session None privacy
    = SessionMeta.mk session None None 0 0 0 0 0
  ∧ parseSessionDetail rt session None privacy
    = SessionDetail.mk (SessionMeta.mk session None None 0 0 0 0 0)
        [] [] [] false 0 false
  ∧ readHistory rt (Some (joinLines (before ++ bad :: after))) from to privacy
    = readHistory rt (Some (joinLines (before ++ after))) from to privacy
  ∧ peekSession rt session (Some (joinLines (before ++ bad :: after))) privacy
    = peekSession rt session (Some (joinLines (before ++ after))) privacy
  ∧ parseSessionDetail rt session (Some (joinLines (before ++ bad :: after))) privacy
    = parseSessionDetail rt session (Some (joinLines (before ++ after))) privacy.
Proof.
  intros Hall Hh Ht.
  pose proof (Forall_drop_middle _ _ _ _ Hall) as Hall'.
  repeat split.
  - unfold readHistory.
    rewrite !omap_lines_join by done.
    rewrite omap_skip; [done|].
    unfold acceptLine. rewrite Hh. by destruct (Str.isBlank bad).
  - unfold peekSession.
    rewrite !fold_lines_join by done.
    apply fold_left_skip. intros a. unfold peekLine. rewrite Ht.
    by destruct (Str.isBlank bad).
  - unfold parseSessionDetail. f_equal.
    rewrite !fold_lines_join by done.
    apply fold_left_skip. intros a. unfold detailLine. rewrite Ht.
    by destruct (Str.isBlank bad).
Qed.

(** C8 at a concrete input: the lines [first], a truncated line, [second]. *)
Lemma C8_witness_truncated_line :
  readHistory (Demo.runtime twoRows twoEntries) None
    "2026-02-09" "2026-02-09" LOCAL_PROFILE = []
  ∧ peekSession (Demo.runtime twoRows twoEntries) anySession None LOCAL_PROFILE
    = SessionMeta.mk anySession None None 0 0 0 0 0
  ∧ parseSessionDetail (Demo.runtime twoRows twoEntries) anySession None LOCAL_PROFILE
    = SessionDetail.mk (SessionMeta.mk anySession None None 0 0 0 0 0)
        [] [] [] false 0 false
  ∧ readHistory (Demo.runtime twoRows twoEntries)
      (Some (joinLines (["first"] ++ "{oops" :: ["second"])))
      "2026-02-09" "2026-02-09" LOCAL_PROFILE
    = readHistory (Demo.runtime twoRows twoEntries)
        (Some (joinLines (["first"] ++ ["second"])))
        "2026-02-09" "2026-02-09" LOCAL_PROFILE
  ∧ peekSession (Demo.runtime twoRows twoEntries) anySession
      (Some (joinLines (["first"] ++ "{oops" :: ["second"]))) LOCAL_PROFILE
    = peekSession (Demo.runtime twoRows twoEntries) anySession
        (Some (joinLines (["first"] ++ ["second"]))) LOCAL_PROFILE
  ∧ parseSessionDetail (Demo.runtime twoRows twoEntries) anySession
      (Some (joinLines (["first"] ++ "{oops" :: ["second"]))) LOCAL_PROFILE
    = parseSessionDetail (Demo.runtime twoRows twoEntries) anySession
        (Some (joinLines (["first"] ++ ["second"]))) LOCAL_PROFILE.
Proof.
  apply (C8_absent_files_and_malformed_lines (Demo.runtime twoRows twoEntries)
           anySession "2026-02-09" "2026-02-09" LOCAL_PROFILE
           ["first"] "{oops" ["second"]).
  - repeat constructor.
  - reflexivity.
  - reflexivity.
Defined.

(** ** Tool display names and the per-session dedup *)

Section MapSet.
Context {V : Type}.
Implicit Types (m : list (string * V)) (k : string).

Lemma mapSet_keys_NoDup m k (v : V) : NoDup m.*1 → NoDup (mapSet k v m).*1.
Proof.
  intros Hnd. unfold mapSet. destruct (mapGet k m) eqn:Hg.
  - by rewrite mapAlter_keys.
  - rewrite fmap_app. apply NoDup_app. split; [done|].
    split; [|apply NoDup_singleton].
    intros k' Hk ->%list_elem_of_singleton. by apply mapGet_None in Hg.
Qed.

Lemma mapSet_keys_elem m k k' (v : V) :
  k' ∈ (mapSet k v m).*1 ↔ k' = k ∨ k' ∈ m.*1.
Proof.
  unfold mapSet. destruct (mapGet k m) eqn:Hg.
  - rewrite mapAlter_keys. split; [by right|].
    intros [->|?]; [|done].
    apply mapGet_Some_elem in Hg. apply list_elem_of_fmap. by exists (k, v0).
  - rewrite fmap_app, elem_of_app. cbn. rewrite list_elem_of_singleton. tauto.
Qed.

Lemma mapAlter_const_elem m k k' (v v' : V) :
  (k', v') ∈ mapAlter (λ _, v) k m → (k', v') = (k, v) ∨ (k', v') ∈ m.
Proof.
  induction m as [|[k0 v0] m IH]; cbn; [by intros ?%elem_of_nil|].
  destruct (decide (k = k0)) as [->|Hne].
  - intros [->|Hin]%elem_of_cons; [by left|right; by right].
  - intros [->|Hin]%elem_of_cons; [right; left|].
    destruct (IH Hin) as [?|?]; [by left|right; by right].
Qed.

Lemma mapSet_elem m k k' (v v' : V) :
  (k', v') ∈ mapSet k v m → (k', v') = (k, v) ∨ (k', v') ∈ m.
Proof.
  unfold mapSet. destruct (mapGet k m).
  - apply mapAlter_const_elem.
  - rewrite elem_of_app, list_elem_of_singleton. tauto.
Qed.
End MapSet.

Lemma dedupOf_nil : dedupOf [] [].
Proof.
  split; [constructor|]. split.
  - intros k. cbn. done.
  - intros k tc ?%elem_of_nil. done.
Qed.

Lemma dedupOf_fold tcs set seen :
  dedupOf set seen → dedupOf (fold_left recordToolCall tcs set) (seen ++ tcs).
Proof.
  revert set seen. induction tcs as [|tc tcs IH]; intros set seen Hinv; cbn.
  { by rewrite app_nil_r. }
  replace (seen ++ tc :: tcs) with ((seen ++ [tc]) ++ tcs)
    by (by rewrite <- app_assoc).
  apply IH. destruct Hinv as (Hnd & Hkeys & Hvals).
  unfold recordToolCall. split; [by apply mapSet_keys_NoDup|]. split.
  - intros k. rewrite mapSet_keys_elem, fmap_app, elem_of_app, Hkeys.
    cbn. rewrite list_elem_of_singleton. tauto.
  - intros k tc' [[= -> ->]|Hin]%mapSet_elem.
    + split; [done|]. apply elem_of_app. right. left.
    + destruct (Hvals _ _ Hin) as [? ?]. split; [done|].
      apply elem_of_app. by left.
Qed.

Lemma detailStep_toolCallSet st filtered :
  DetailState.toolCallSet (detailStep st filtered)
  = fold_left recordToolCall (entryToolCalls filtered) (DetailState.toolCallSet st).
Proof.
  unfold detailStep, entryToolCalls.
  destruct (TranscriptEntry.message filtered) as [m|]; [|done].
  cbn. by destruct (assistantWithContent m).
Qed.

Lemma detailLines_toolCallSet rt privacy (lines : list string) st :
  DetailState.toolCallSet (fold_left (detailLine rt privacy) lines st)
  = fold_left recordToolCall
      (flat_map entryToolCalls
         (omap (λ line,
                  if Str.isBlank line then None
                  else parseTranscriptLine rt line ≫= λ entry,
                       filterTranscriptEntry rt entry privacy)
               lines))
      (DetailState.toolCallSet st).
Proof.
  revert st. induction lines as [|line lines IH]; intros st; [done|].
  cbn [fold_left omap list_omap]. rewrite IH. unfold detailLine at 1.
  destruct (Str.isBlank line); [done|].
  destruct (parseTranscriptLine rt line) as [entry|]; [|done]. cbn.
  destruct (filterTranscriptEntry rt entry privacy) as [filtered|]; [|done].
  cbn. by rewrite fold_left_app, detailStep_toolCallSet.
Qed.

Lemma parseSessionDetail_dedup rt session file privacy :
  ∃ set,
    SessionDetail.toolCalls (parseSessionDetail rt session file privacy) = set.*2
    ∧ dedupOf set (sessionToolCalls rt file privacy).
Proof.
  unfold parseSessionDetail, sessionToolCalls, streamTranscript.
  destruct file as [text|].
  - eexists. split; [reflexivity|].
    rewrite detailLines_toolCallSet.
    apply (dedupOf_fold _ [] []), dedupOf_nil.
  - exists []. split; [done|]. apply dedupOf_nil.
Qed.

(** C6, as stated, fails: the display name of a NotebookEdit call on
    analysis.ipynb is NotebookEdit, without the notebook path, and that of
    a WebSearch call carries no query; a command is cut at its first space,
    not at a tab; and calls whose salient arguments differ can share a
    display name (git status and git diff; two notebooks), so the two
    NotebookEdit calls of one assistant message end as a single
    ToolCallSummary. *)
Lemma C6_counterexample_notebook_paths :
  toolDisplayName "NotebookEdit" (Some {[ "notebook_path" := "analysis.ipynb" ]})
  = "NotebookEdit"
  ∧ toolDisplayName "WebSearch" (Some {[ "query" := "rocq stdpp" ]}) = "WebSearch"
  ∧ toolDisplayName "Bash" (Some {[ "command" := "ls" +:+ String "009" "-la" ]})
    = "Bash(ls" +:+ String "009" "-la)"
  ∧ toolDisplayName "Bash" (Some {[ "command" := "git status" ]})
    = toolDisplayName "Bash" (Some {[ "command" := "git diff" ]})
  ∧ ToolCallSummary.displayName <$>
      SessionDetail.toolCalls
        (parseSessionDetail (Demo.runtime [] [("line", notebookEntry)]) anySession
           (Some "line") LOCAL_PROFILE)
    = ["NotebookEdit"].
Proof. repeat split; vm_compute; reflexivity. Qed.

(** C6, amended: the display name is the tool name with its mcp__ namespace
    stripped (the last piece between double underscores), followed in
    parentheses by the first that is present of: the last two slash
    separated segments of file_path, the text of command before its first
    space, pattern; with none of the three it is the bare name, whatever
    notebook_path and query hold. Within a session the display name is the
    dedup key: the ToolCallSummary list has no two entries with one display
    name, its display names are exactly those of the tool calls of the
    filtered assistant messages, and each entry is one of these calls; so
    calls with identical name and input collapse into one entry, and calls
    give different entries exactly when their display names differ. *)
Theorem C6_display_name_and_dedup_amended
    (rt : Runtime) (session : SessionInfo.t) (file : option string)
    (privacy : PrivacyConfig) :
  let detail := parseSessionDetail rt session file privacy in
  (∀ name input,
     toolDisplayName name input =
       match inputField input "file_path", inputField input "command",
             inputField input "pattern" with
       | Some path, _, _ =>
           shortToolName name +:+ "("
             +:+ Str.join "/" (lastTwo (Str.split "/" path)) +:+ ")"
       | None, Some command, _ =>
           shortToolName name +:+ "("
             +:+ default EmptyString (head (Str.split " " command)) +:+ ")"
       | None, None, Some pattern => shortToolName name +:+ "(" +:+ pattern +:+ ")"
       | None, None, None => shortToolName name
       end)
  ∧ (∀ b tc, toolCallOf b = Some tc →
       Some (ToolCallSummary.name tc) = ContentBlock.name b
       ∧ ToolCallSummary.displayName tc
         = toolDisplayName (ToolCallSummary.name tc) (ContentBlock.input b))
  ∧ NoDup (ToolCallSummary.displayName <$> SessionDetail.toolCalls detail)
  ∧ (∀ d, d ∈ ToolCallSummary.displayName <$> SessionDetail.toolCalls detail
          ↔ d ∈ ToolCallSummary.displayName <$> sessionToolCalls rt file privacy)
  ∧ (∀ tc, tc ∈ SessionDetail.toolCalls detail → tc ∈ sessionToolCalls rt file privacy).
Proof.
  intros detail.
  destruct (parseSessionDetail_dedup rt session file privacy)
    as (set & Hset & Hnd & Hkeys & Hvals).
  fold detail in Hset.
  assert (ToolCallSummary.displayName <$> SessionDetail.toolCalls detail = set.*1)
    as Hnames.
  { rewrite Hset, <- list_fmap_compose. apply list_fmap_ext.
    intros i [k tc] Hi. cbn. apply list_elem_of_lookup_2 in Hi.
    by destruct (Hvals _ _ Hi). }
  split; [|split; [|split; [|split]]].
  - intros name input. unfold toolDisplayName.
    destruct (inputField input "file_path"), (inputField input "command"),
      (inputField input "pattern"); reflexivity.
  - intros b tc. unfold toolCallOf, toolUseName.
    destruct (BlockType.eqb _ _); [|done].
    destruct (ContentBlock.name b) as [[|c n]|]; try done.
    intros [= <-]. done.
  - by rewrite Hnames.
  - intros d. by rewrite Hnames.
  - intros tc. rewrite Hset. intros ([k tc'] & -> & Hin)%list_elem_of_fmap.
    by destruct (Hvals _ _ Hin).
Qed.

(** ** Further properties of the privacy engine and of the parsers *)

(** X1: the three profiles nest: what local switches on, shareable switches on;
    what shareable switches on, strict switches on; the patterns and the
    excluded projects of one are among those of the next; and each step
    adds something. *)
Theorem profiles_nest :
  let toggles := [redactPrompts; redactAbsolutePaths; redactHomeDir;
                  stripThinking; stripToolResults] in
  Forall (λ t, implb (t LOCAL_PROFILE) (t SHAREABLE_PROFILE) = true
               ∧ implb (t SHAREABLE_PROFILE) (t STRICT_PROFILE) = true) toggles
  ∧ redactPatterns LOCAL_PROFILE ⊆ redactPatterns SHAREABLE_PROFILE
  ∧ redactPatterns SHAREABLE_PROFILE ⊆ redactPatterns STRICT_PROFILE
  ∧ excludeProjects LOCAL_PROFILE ⊆ excludeProjects SHAREABLE_PROFILE
  ∧ excludeProjects SHAREABLE_PROFILE ⊆ excludeProjects STRICT_PROFILE
  ∧ redactHomeDir LOCAL_PROFILE = false ∧ redactHomeDir SHAREABLE_PROFILE = true
  ∧ redactPrompts SHAREABLE_PROFILE = false ∧ redactPrompts STRICT_PROFILE = true.
Proof.
  split; [repeat constructor|].
  repeat split; try reflexivity; intros x Hx; by apply elem_of_nil in Hx.
Qed.

Lemma redactBlock_same rt config block :
  sameButText (redactBlock rt config block) block.
Proof.
  unfold redactBlock, sameButText.
  destruct (ContentBlock.text block) as [[|??]|];
    try destruct (0 <? length (redactPatterns config))%nat; done.
Qed.

Lemma BlockType_eqb_eq a b : BlockType.eqb a b = true ↔ a = b.
Proof. destruct a, b; cbn; split; congruence. Qed.

(** X2: filterContentBlocks keeps no thinking block when stripThinking is set
    and no tool-result block when stripToolResults is set, and every block
    it returns is a block of the input with at most its text changed. *)
Theorem filterContentBlocks_strips
    (rt : Runtime) (blocks : list ContentBlock.t) (config : PrivacyConfig) :
  Forall
    (λ b,
       (stripThinking config = true → ContentBlock.type b ≠ BlockType.thinking)
       ∧ (stripToolResults config = true
          → ContentBlock.type b ≠ BlockType.tool_result)
       ∧ ∃ b0, b0 ∈ blocks ∧ sameButText b b0)
    (filterContentBlocks rt blocks config).
Proof.
  induction blocks as [|block rest IH]; cbn [filterContentBlocks]; [constructor|].
  assert (Forall
            (λ b, (stripThinking config = true
                   → ContentBlock.type b ≠ BlockType.thinking)
                  ∧ (stripToolResults config = true
                     → ContentBlock.type b ≠ BlockType.tool_result)
                  ∧ ∃ b0, b0 ∈ block :: rest ∧ sameButText b b0)
            (filterContentBlocks rt rest config)) as Hrest.
  { eapply Forall_impl; [exact IH|]. intros b (? & ? & b0 & ? & ?).
    split; [done|]. split; [done|]. exists b0. split; [by right|done]. }
  destruct (stripThinking config &&
            BlockType.eqb (ContentBlock.type block) BlockType.thinking) eqn:E1;
    [done|].
  destruct (stripToolResults config &&
            BlockType.eqb (ContentBlock.type block) BlockType.tool_result) eqn:E2;
    [done|].
  constructor; [|done].
  pose proof (redactBlock_same rt config block) as Hsame.
  destruct Hsame as [Hty Hsame'].
  split; [|split].
  - intros Hs Heq. rewrite Hs in E1. cbn in E1.
    rewrite Hty in Heq. apply BlockType_eqb_eq in Heq. congruence.
  - intros Hs Heq. rewrite Hs in E2. cbn in E2.
    rewrite Hty in Heq. apply BlockType_eqb_eq in Heq. congruence.
  - exists block. split; [left|]. by split.
Qed.


Lemma filtered_blocks_no_thinking rt blocks config :
  stripThinking config = true →
  countThinkingBlocks (Some (CBlocks (filterContentBlocks rt blocks config))) = 0.
Proof.
  intros Hs. unfold countThinkingBlocks.
  induction blocks as [|block rest IH]; cbn [filterContentBlocks]; [done|].
  rewrite Hs. cbn [andb].
  destruct (BlockType.eqb (ContentBlock.type block) BlockType.thinking) eqn:E;
    [exact IH|].
  destruct (stripToolResults config &&
            BlockType.eqb (ContentBlock.type block) BlockType.tool_result);
    [exact IH|].
  cbn [List.filter].
  destruct (redactBlock_same rt config block) as [-> _]. by rewrite E.
Qed.

Lemma filtered_entry_no_thinking rt entry config filtered m :
  stripThinking config = true →
  filterTranscriptEntry rt entry config = Some filtered →
  TranscriptEntry.message filtered = Some m →
  assistantWithContent m = true →
  countThinkingBlocks (Message.content m) = 0.
Proof.
  intros Hs. unfold filterTranscriptEntry.
  destruct (stripToolResults config && _); [done|].
  destruct (TranscriptEntry.message entry) as [m0|] eqn:Hm0.
  2:{ intros [= <-]. congruence. }
  unfold assistantWithContent.
  destruct (redactPrompts config), (Message.role m0) as [[]|] eqn:Hr,
    (Message.content m0) as [[s|blocks]|] eqn:Hc;
    intros [= <-]; cbn; rewrite ?Hm0; intros [= <-]; cbn;
    rewrite ?Hr, ?Hc; try done;
    intros _; by apply filtered_blocks_no_thinking.
Qed.

(** X3: under the local profile, and under any configuration that strips
    thinking blocks as the three profiles do, the thinking-block count of a
    parsed session is 0: the blocks are removed before they are counted. *)
Theorem thinking_blocks_never_counted
    (rt : Runtime) (session : SessionInfo.t) (file : option string)
    (profile : PrivacyProfile.t) :
  SessionDetail.thinkingBlockCount
    (parseSessionDetail rt session file (PRIVACY_PROFILES profile)) = 0.
Proof.
  assert (stripThinking (PRIVACY_PROFILES profile) = true) as Hs
    by (by destruct profile).
  unfold parseSessionDetail. destruct file as [text|]; [|done]. cbn.
  generalize (splitLines text). intros lines.
  assert (DetailState.thinkingBlockCount initialDetailState = 0) as H0 by done.
  revert H0. generalize initialDetailState.
  induction lines as [|line lines IH]; intros st Hst; [done|].
  cbn [fold_left]. apply IH. unfold detailLine.
  destruct (Str.isBlank line); [done|].
  destruct (parseTranscriptLine rt line) as [entry|]; [|done].
  destruct (filterTranscriptEntry rt entry (PRIVACY_PROFILES profile))
    as [filtered|] eqn:Hf; [|done].
  unfold detailStep.
  destruct (TranscriptEntry.message filtered) as [m|] eqn:Hm; [|done].
  cbn. destruct (assistantWithContent m) eqn:Ha; [|done].
  rewrite (filtered_entry_no_thinking rt entry _ filtered m Hs Hf Hm Ha). lia.
Qed.

(** X4: prompts at 0, 5 and 40 minutes give (5 + 15) / 60 of an hour, and a
    session with a single prompt gives 5 minutes whatever its time range. *)
Theorem estimateHours_examples :
  (estimateHours [threePrompts] == 1 # 3)%Q
  ∧ (estimateHours [onePrompt] == 5 # 60)%Q.
Proof. split; reflexivity. Qed.

(** X5: parseSessions puts the sessions with three prompts or more, parsed in
    full, in [detailed], and the others, as they are, in [short]; both keep
    the order of the input. *)
Theorem parseSessions_split
    (rt : Runtime) (sessions : list SessionInfo.t)
    (files : SessionInfo.t → option string) (privacy : PrivacyConfig) :
  parseSessions rt sessions files privacy
  = ((λ s, parseSessionDetail rt s (files s) privacy)
       <$> filter (λ s, (3 ≤ length (SessionInfo.prompts s))%nat) sessions,
     filter (λ s, (length (SessionInfo.prompts s) < 3)%nat) sessions).
Proof.
  unfold parseSessions.
  assert (∀ acc1 acc2,
    fold_left
      (λ '(detailed, short) session,
         if (3 <=? length (SessionInfo.prompts session))%nat
         then (detailed ++ [parseSessionDetail rt session (files session) privacy],
               short)
         else (detailed, short ++ [session]))
      sessions (acc1, acc2)
    = (acc1 ++ ((λ s, parseSessionDetail rt s (files s) privacy)
                  <$> filter (λ s, (3 ≤ length (SessionInfo.prompts s))%nat) sessions),
       acc2 ++ filter (λ s, (length (SessionInfo.prompts s) < 3)%nat) sessions))
    as H.
  { induction sessions as [|s l IH]; intros acc1 acc2; cbn [fold_left].
    - by rewrite !filter_nil, fmap_nil, !app_nil_r.
    - rewrite !filter_cons.
      destruct (3 <=? length (SessionInfo.prompts s))%nat eqn:E.
      + apply Nat.leb_le in E. rewrite IH.
        rewrite decide_True by done. rewrite decide_False by lia.
        by rewrite fmap_cons, <- app_assoc.
      + apply Nat.leb_gt in E. rewrite IH.
        rewrite decide_False by lia. rewrite decide_True by done.
        by rewrite <- app_assoc. }
  apply (H [] []).
Qed.

Lemma setAdd_NoDup x s : NoDup s → NoDup (setAdd x s).
Proof.
  intros Hnd. unfold setAdd. destruct (decide (x ∈ s)); [done|].
  apply NoDup_app. split; [done|]. split; [|apply NoDup_singleton].
  intros y Hy ->%list_elem_of_singleton. done.
Qed.

Lemma fold_setAdd_NoDup paths s :
  NoDup s → NoDup (fold_left (λ set fp, setAdd fp set) paths s).
Proof.
  revert s. induction paths as [|p paths IH]; intros s Hnd; [done|].
  cbn. apply IH. by apply setAdd_NoDup.
Qed.

(** X6: the referenced files of a parsed session hold no path twice, and at
    most ten assistant summaries are kept. *)
Theorem parseSessionDetail_dedups_files
    (rt : Runtime) (session : SessionInfo.t) (file : option string)
    (privacy : PrivacyConfig) :
  NoDup (SessionDetail.filesReferenced (parseSessionDetail rt session file privacy))
  ∧ (length (SessionDetail.assistantSummaries
               (parseSessionDetail rt session file privacy)) ≤ 10)%nat.
Proof.
  unfold parseSessionDetail. destruct file as [text|].
  2:{ split; [constructor|cbn; lia]. }
  cbn. split; [|rewrite length_take; lia].
  generalize (splitLines text). intros lines.
  assert (NoDup (DetailState.fileSet initialDetailState)) as H0 by constructor.
  revert H0. generalize initialDetailState.
  induction lines as [|line lines IH]; intros st Hst; [done|].
  cbn [fold_left]. apply IH. unfold detailLine.
  destruct (Str.isBlank line); [done|].
  destruct (parseTranscriptLine rt line) as [entry|]; [|done].
  destruct (filterTranscriptEntry rt entry privacy) as [filtered|]; [|done].
  unfold detailStep.
  destruct (TranscriptEntry.message filtered) as [m|]; [|done].
  cbn. destruct (assistantWithContent m); [|done].
  by apply fold_setAdd_NoDup.
Qed.

(** * Further properties *)

(** ** Gap-capped hours: how the estimate composes and what bounds it *)

Lemma msToHours_le a b : a ≤ b ↔ (msToHours a <= msToHours b)%Q.
Proof.
  unfold msToHours, Qle, Qdiv, Qmult, Qinv, inject_Z; simpl. lia.
Qed.

Lemma estimateHours_total sessions :
  (estimateHours sessions
   == msToHours (foldr Z.add 0%Z (contribution <$> sessions)))%Q.
Proof.
  unfold estimateHours, msToHours. destruct sessions as [|s l]; [reflexivity|].
  cbn [length Nat.eqb]. rewrite fold_hoursStep. reflexivity.
Qed.

Lemma sum_contribution_perm (a b : list SessionInfo.t) :
  a ≡ₚ b → foldr Z.add 0 (contribution <$> a) = foldr Z.add 0 (contribution <$> b).
Proof.
  induction 1 as [|x l l' _ IH|x y l|l l' l'' _ IH1 _ IH2]; cbn; lia.
Qed.

Lemma sortBy_id_perm (l l' : list Z) :
  l ≡ₚ l' → sortBy (λ t, t) l = sortBy (λ t, t) l'.
Proof.
  intros Hp. apply (StronglySorted_unique Z.le).
  - apply (sortBy_strongly_sorted (λ t : Z, t)).
  - apply (sortBy_strongly_sorted (λ t : Z, t)).
  - by rewrite !sortBy_perm.
Qed.

Lemma contribution_perm s s' :
  SessionInfo.promptTimestamps s ≡ₚ SessionInfo.promptTimestamps s' →
  SessionInfo.timeRange s = SessionInfo.timeRange s' →
  contribution s = contribution s'.
Proof.
  intros Hp Hr. unfold contribution. rewrite Hr.
  pose proof (Permutation_length Hp) as Hlen.
  destruct (SessionInfo.promptTimestamps s) as [|t [|t' ts]] eqn:E,
    (SessionInfo.promptTimestamps s') as [|u [|u' us]] eqn:E'; try done.
  by rewrite (sortBy_id_perm _ _ Hp).
Qed.

(** X7: the estimate depends neither on the order of the sessions nor, for a
    session, on the order in which its prompt timestamps are listed. *)
Theorem estimateHours_order_irrelevant :
  (∀ sessions sessions' : list SessionInfo.t,
     sessions ≡ₚ sessions' →
     (estimateHours sessions == estimateHours sessions')%Q)
  ∧ (∀ s s' : SessionInfo.t,
       SessionInfo.promptTimestamps s ≡ₚ SessionInfo.promptTimestamps s' →
       SessionInfo.timeRange s = SessionInfo.timeRange s' →
       (estimateHours [s] == estimateHours [s'])%Q).
Proof.
  split.
  - intros l l' Hp. rewrite !estimateHours_total.
    by rewrite (sum_contribution_perm _ _ Hp).
  - intros s s' Hp Hr. rewrite !estimateHours_total. cbn.
    by rewrite (contribution_perm s s' Hp Hr).
Qed.

Lemma cappedGaps_bounds (l : list Z) a hi :
  StronglySorted Z.le (a :: l) → Forall (λ t, t ≤ hi) (a :: l) →
  0 ≤ cappedGaps (a :: l)
  ∧ cappedGaps (a :: l) ≤ hi - a
  ∧ cappedGaps (a :: l) ≤ Z.of_nat (length l) * GAP_CAP_MS.
Proof.
  revert a. induction l as [|b l IH]; intros a Hs Hall.
  - cbn. inversion Hall; subst. lia.
  - apply StronglySorted_inv in Hs as [Hs Hab].
    inversion Hall as [|?? Ha Hall']; subst.
    destruct (IH b Hs Hall') as (H0 & H1 & H2).
    inversion Hab as [|?? Hle _]; subst.
    change (cappedGaps (a :: b :: l))
      with (Z.min (b - a) GAP_CAP_MS + cappedGaps (b :: l)).
    cbn [length]. unfold GAP_CAP_MS in *. lia.
Qed.

(** X8: for a session with two prompt timestamps or more, all of them between
    [lo] and [hi], the estimate is at least 0, at most the span [hi - lo],
    and at most 15 minutes per gap. *)
Theorem estimateHours_bounds (s : SessionInfo.t) (lo hi : Z) :
  (2 ≤ length (SessionInfo.promptTimestamps s))%nat →
  Forall (λ t, lo ≤ t ≤ hi) (SessionInfo.promptTimestamps s) →
  (0 <= estimateHours [s])%Q
  ∧ (estimateHours [s] <= msToHours (hi - lo))%Q
  ∧ (estimateHours [s]
     <= msToHours ((Z.of_nat (length (SessionInfo.promptTimestamps s)) - 1)
                   * (15 * 60 * 1000)))%Q.
Proof.
  intros Hlen Hall.
  assert (0 ≤ contribution s ∧ contribution s ≤ hi - lo
          ∧ contribution s
            ≤ (Z.of_nat (length (SessionInfo.promptTimestamps s)) - 1)
              * (15 * 60 * 1000)) as (H0 & H1 & H2).
  { unfold contribution.
    destruct (SessionInfo.promptTimestamps s) as [|t [|t' ts]] eqn:E;
      [cbn in Hlen; lia|cbn in Hlen; lia|].
    pose proof (sortBy_strongly_sorted (λ t : Z, t) (t :: t' :: ts)) as Hs.
    pose proof (sortBy_perm (λ t : Z, t) (t :: t' :: ts)) as Hp.
    pose proof (sortBy_length (λ t : Z, t) (t :: t' :: ts)) as Hl.
    assert (Forall (λ t, lo ≤ t ≤ hi) (sortBy (λ t : Z, t) (t :: t' :: ts))) as Hall'.
    { by rewrite Hp. }
    destruct (sortBy (λ t : Z, t) (t :: t' :: ts)) as [|a l]; [done|].
    destruct (cappedGaps_bounds l a hi) as (? & ? & ?).
    - exact Hs.
    - eapply Forall_impl; [exact Hall'|]. cbn. lia.
    - inversion Hall'; subst. cbn [length] in *.
      unfold GAP_CAP_MS in *. lia. }
  rewrite estimateHours_total. cbn [fmap list_fmap foldr].
  rewrite Z.add_0_r.
  split; [|split].
  - apply (proj1 (msToHours_le _ _)) in H0.
    apply (Qle_trans _ (msToHours 0)); [unfold msToHours, Qle; cbn; lia|done].
  - by apply (proj1 (msToHours_le _ _)).
  - by apply (proj1 (msToHours_le _ _)).
Qed.

(** The bounds at a concrete input: prompts at 0, 5 and 40 minutes. *)
Lemma estimateHours_bounds_witness :
  (0 <= estimateHours [threePrompts])%Q
  ∧ (estimateHours [threePrompts] <= msToHours (2400000 - 0))%Q
  ∧ (estimateHours [threePrompts]
     <= msToHours ((Z.of_nat (length (SessionInfo.promptTimestamps threePrompts)) - 1)
                   * (15 * 60 * 1000)))%Q.
Proof.
  apply (estimateHours_bounds threePrompts 0 2400000).
  - cbn. lia.
  - repeat constructor; cbn; lia.
Defined.

(** Swapping two sessions, and listing the timestamps of a session in
    another order, at a concrete input. *)
Lemma estimateHours_order_witness :
  (estimateHours [threePrompts; onePrompt] == estimateHours [onePrompt; threePrompts])%Q.
Proof.
  apply (proj1 estimateHours_order_irrelevant). apply Permutation_swap.
Defined.

(** ** Pricing: overrides *)

(** X9: after setPricing, a model id that is not empty is priced by the
    override filed under it when there is one, and otherwise exactly as
    before any override: by the built-in entry, by the member of
    Object.prototype it names, or by the fallback tier. *)
Theorem setPricing_lookup
    (overrides : gmap string ModelPricing) (c : ascii) (rest : string) :
  getModelPricing (setPricing overrides) (Some (String c rest))
  = match overrides !! String c rest with
    | Some r => rates r
    | None => getModelPricing MODEL_PRICING (Some (String c rest))
    end.
Proof.
  unfold getModelPricing, getProperty, setPricing.
  destruct (overrides !! String c rest) as [r|] eqn:E.
  - by rewrite (lookup_union_Some_l _ _ _ _ E).
  - by rewrite lookup_union_r.
Qed.

(** ** Peek mode: concatenated transcripts, reported names, full parse *)

Lemma split_nonempty c s : Str.split c s ≠ [].
Proof.
  destruct s as [|x s]; cbn [Str.split]; [done|].
  destruct (Ascii.eqb x c); [done|]. by destruct (Str.split c s).
Qed.

Lemma split_app_general c a b :
  Str.split c (a +:+ String c b) = Str.split c a ++ Str.split c b.
Proof.
  induction a as [|x a IH].
  - change (EmptyString +:+ String c b) with (String c b).
    cbn [Str.split]. by rewrite Ascii.eqb_refl.
  - change (String x a +:+ String c b) with (String x (a +:+ String c b)).
    cbn [Str.split]. rewrite IH.
    destruct (Ascii.eqb x c); [done|].
    pose proof (split_nonempty c a) as Hne.
    by destruct (Str.split c a).
Qed.

Lemma peekLine_merge rt m r line :
  peekLine rt (mergeMeta m r) line = mergeMeta m (peekLine rt r line).
Proof.
  unfold peekLine. destruct (Str.isBlank line); [done|].
  destruct (parseTranscriptLine rt line) as [entry|]; [|done].
  unfold peekStep, mergeMeta. cbn.
  f_equal.
  - destruct (truthy (SessionMeta.gitBranch m)) eqn:E; [by rewrite E|done].
  - destruct (truthy (SessionMeta.model m)) eqn:E; [by rewrite E|done].
  - destruct (TranscriptEntry.message entry ≫= Message.usage); lia.
  - destruct (TranscriptEntry.message entry ≫= Message.usage); lia.
  - destruct (TranscriptEntry.message entry ≫= Message.usage); lia.
  - destruct (TranscriptEntry.message entry ≫= Message.usage); lia.
  - destruct (isUserOrAssistant _); lia.
Qed.

Lemma peekLines_merge rt (lines : list string) m r :
  fold_left (peekLine rt) lines (mergeMeta m r)
  = mergeMeta m (fold_left (peekLine rt) lines r).
Proof.
  revert r. induction lines as [|line lines IH]; intros r; [done|].
  cbn [fold_left]. by rewrite peekLine_merge, IH.
Qed.

Lemma peekLine_named rt m line :
  noneOrNamed (SessionMeta.gitBranch m) → noneOrNamed (SessionMeta.model m) →
  noneOrNamed (SessionMeta.gitBranch (peekLine rt m line))
  ∧ noneOrNamed (SessionMeta.model (peekLine rt m line)).
Proof.
  intros Hb Hm. unfold peekLine. destruct (Str.isBlank line); [done|].
  destruct (parseTranscriptLine rt line) as [entry|]; [|done].
  unfold peekStep. cbn. split.
  - destruct (negb _ && namedBranch _) eqn:E; [|done].
    apply andb_true_iff in E as [_ E]. unfold namedBranch in E.
    apply andb_true_iff in E as [E _]. by right.
  - destruct (negb _ && truthy _) eqn:E; [|done].
    apply andb_true_iff in E as [_ E]. by right.
Qed.

Lemma peekLines_named rt (lines : list string) m :
  noneOrNamed (SessionMeta.gitBranch m) → noneOrNamed (SessionMeta.model m) →
  noneOrNamed (SessionMeta.gitBranch (fold_left (peekLine rt) lines m))
  ∧ noneOrNamed (SessionMeta.model (fold_left (peekLine rt) lines m)).
Proof.
  revert m. induction lines as [|line lines IH]; intros m Hb Hm; [done|].
  cbn [fold_left]. destruct (peekLine_named rt m line Hb Hm). by apply IH.
Qed.

Lemma mergeMeta_initial m :
  noneOrNamed (SessionMeta.gitBranch m) → noneOrNamed (SessionMeta.model m) →
  mergeMeta m (initialMeta (SessionMeta.info m)) = m.
Proof.
  intros Hb Hm. destruct m as [info b mo i o w r n]. unfold mergeMeta. cbn in *.
  f_equal; try lia.
  - destruct Hb as [-> | ->]; done.
  - destruct Hm as [-> | ->]; done.
Qed.

Lemma peekLines_info rt (lines : list string) m :
  SessionMeta.info (fold_left (peekLine rt) lines m) = SessionMeta.info m.
Proof.
  revert m. induction lines as [|line lines IH]; intros m; [done|].
  cbn [fold_left]. rewrite IH. unfold peekLine.
  destruct (Str.isBlank line); [done|].
  by destruct (parseTranscriptLine rt line).
Qed.

(** X10: peeking a transcript made of two parts, one after the other, gives the
    two peeks merged: the four token counts and the message count add up,
    and the branch and the model are those of the first part when it
    reports them, those of the second part otherwise. *)
Theorem peekSession_concatenation
    (rt : Runtime) (session : SessionInfo.t) (a b : string)
    (privacy : PrivacyConfig) :
  peekSession rt session (Some (appendLines a b)) privacy
  = mergeMeta (peekSession rt session (Some a) privacy)
              (peekSession rt session (Some b) privacy).
Proof.
  unfold peekSession, appendLines, splitLines.
  rewrite split_app_general, fold_left_app.
  set (first := fold_left (peekLine rt) (Str.split "010" a) (initialMeta session)).
  assert (noneOrNamed (SessionMeta.gitBranch first)
          ∧ noneOrNamed (SessionMeta.model first)) as [Hb Hm].
  { apply peekLines_named; by left. }
  assert (SessionMeta.info first = session) as Hinfo by apply peekLines_info.
  rewrite <- (mergeMeta_initial first Hb Hm) at 1.
  rewrite peekLines_merge. by rewrite Hinfo.
Qed.

Lemma namedBranch_not_head b : namedBranch (Some b) = true → b ≠ "" ∧ b ≠ "HEAD".
Proof.
  unfold namedBranch. intros [Ht Hh]%andb_true_iff.
  split; [by intros ->|]. intros ->. done.
Qed.

Lemma peekLines_branch rt (lines : list string) m :
  (∀ b, SessionMeta.gitBranch m = Some b → b ≠ "" ∧ b ≠ "HEAD") →
  ∀ b, SessionMeta.gitBranch (fold_left (peekLine rt) lines m) = Some b →
       b ≠ "" ∧ b ≠ "HEAD".
Proof.
  revert m. induction lines as [|line lines IH]; intros m Hm; [done|].
  cbn [fold_left]. apply IH. unfold peekLine.
  destruct (Str.isBlank line); [done|].
  destruct (parseTranscriptLine rt line) as [entry|]; [|done].
  unfold peekStep. cbn.
  destruct (negb _ && namedBranch _) eqn:E; [|done].
  apply andb_true_iff in E as [_ E]. intros b Hb. rewrite Hb in E.
  by apply namedBranch_not_head.
Qed.

Lemma detailLines_branch rt privacy (lines : list string) st :
  (∀ b, DetailState.gitBranch st = Some b → b ≠ "" ∧ b ≠ "HEAD") →
  ∀ b, DetailState.gitBranch (fold_left (detailLine rt privacy) lines st) = Some b →
       b ≠ "" ∧ b ≠ "HEAD".
Proof.
  revert st. induction lines as [|line lines IH]; intros st Hst; [done|].
  cbn [fold_left]. apply IH. unfold detailLine.
  destruct (Str.isBlank line); [done|].
  destruct (parseTranscriptLine rt line) as [entry|]; [|done].
  destruct (filterTranscriptEntry rt entry privacy) as [filtered|]; [|done].
  unfold detailStep.
  assert (∀ b,
    (if negb (truthy (DetailState.gitBranch st))
        && namedBranch (TranscriptEntry.gitBranch filtered)
     then TranscriptEntry.gitBranch filtered else DetailState.gitBranch st) = Some b
    → b ≠ "" ∧ b ≠ "HEAD") as H.
  { destruct (negb _ && namedBranch _) eqn:E; [|done].
    apply andb_true_iff in E as [_ E]. intros b Hb. rewrite Hb in E.
    by apply namedBranch_not_head. }
  by destruct (TranscriptEntry.message filtered).
Qed.

(** X11: the branch peekSession and parseSessionDetail report is never the
    empty name and never the sentinel HEAD. *)
Theorem reported_branch_is_named
    (rt : Runtime) (session : SessionInfo.t) (file : option string)
    (privacy : PrivacyConfig) :
  (∀ b, SessionMeta.gitBranch (peekSession rt session file privacy) = Some b →
        b ≠ "" ∧ b ≠ "HEAD")
  ∧ (∀ b, SessionMeta.gitBranch
            (SessionDetail.meta (parseSessionDetail rt session file privacy)) = Some b →
          b ≠ "" ∧ b ≠ "HEAD").
Proof.
  split.
  - unfold peekSession. destruct file as [text|]; [|done].
    by apply peekLines_branch.
  - unfold parseSessionDetail. destruct file as [text|]; [|done].
    cbn. by apply detailLines_branch.
Qed.

Lemma detailLine_peekLine rt config session st line :
  stripToolResults config = false →
  metaOf session (detailLine rt config st line)
  = peekLine rt (metaOf session st) line.
Proof.
  intros Hs. unfold detailLine, peekLine.
  destruct (Str.isBlank line); [done|].
  destruct (parseTranscriptLine rt line) as [entry|]; [|done].
  unfold filterTranscriptEntry. rewrite Hs. cbn [andb].
  destruct (TranscriptEntry.message entry) as [m|] eqn:Hm.
  - destruct (redactPrompts config), (Message.role m) as [[]|] eqn:Hr,
      (Message.content m) as [[s|blocks]|] eqn:Hc;
      unfold detailStep, peekStep, metaOf; cbn; rewrite ?Hm; cbn; rewrite ?Hr;
      f_equal; try (by rewrite andb_comm);
      by destruct (Message.usage m).
  - unfold detailStep, peekStep, metaOf. rewrite Hm. cbn.
    by rewrite andb_false_r.
Qed.

Lemma detailLines_peekLines rt config session (lines : list string) st :
  stripToolResults config = false →
  metaOf session (fold_left (detailLine rt config) lines st)
  = fold_left (peekLine rt) lines (metaOf session st).
Proof.
  intros Hs. revert st. induction lines as [|line lines IH]; intros st; [done|].
  cbn [fold_left]. by rewrite IH, detailLine_peekLine.
Qed.

(** X12: when the privacy filter suppresses nothing (the suppression of tool
    results is off), the full parse and the peek report the same metadata:
    branch, model, the four token counts and the message count. *)
Theorem full_parse_agrees_with_peek
    (rt : Runtime) (session : SessionInfo.t) (file : option string)
    (config : PrivacyConfig) :
  SessionDetail.meta (parseSessionDetail rt session file (keepToolResults config))
  = peekSession rt session file config.
Proof.
  unfold parseSessionDetail, peekSession. destruct file as [text|]; [|done].
  cbn [finishDetail SessionDetail.meta].
  apply (detailLines_peekLines rt (keepToolResults config) session
           (splitLines text) initialDetailState).
  done.
Qed.

(** ** The history reader: shape of the views, conservation, empty windows *)

Lemma fold_max_spec (l : list Z) (x : Z) :
  (fold_left Z.max l x = x ∨ fold_left Z.max l x ∈ l)
  ∧ x ≤ fold_left Z.max l x
  ∧ Forall (λ t, t ≤ fold_left Z.max l x) l.
Proof.
  revert x. induction l as [|y l IH]; intros x; cbn.
  { split; [by left|]. split; [lia|constructor]. }
  destruct (IH (Z.max x y)) as (Hin & Hle & Hall).
  split; [|split].
  - destruct Hin as [->|Hin].
    + destruct (Z.max_spec x y) as [[_ ->]|[_ ->]]; [right; left|by left].
    + right. by right.
  - lia.
  - constructor; [lia|done].
Qed.

Lemma mathMax_spec (l : list Z) :
  l ≠ [] → mathMax l ∈ l ∧ Forall (λ t, t ≤ mathMax l) l.
Proof.
  destruct l as [|x l]; [done|]. intros _. cbn.
  destruct (fold_max_spec l x) as (Hin & Hle & Hall).
  split.
  - destruct Hin as [->|Hin]; [left|by right].
  - by constructor.
Qed.

(** X13: every view readHistory returns holds at least one prompt, as many
    timestamps as prompts, a time range that runs from the least to the
    greatest of them, the project name derived from its project path, and
    a project that the privacy configuration does not exclude. *)
Theorem readHistory_views_well_formed
    (rt : Runtime) (file : option string) (from to : string)
    (privacy : PrivacyConfig) :
  Forall
    (λ v,
       length (SessionInfo.prompts v) = length (SessionInfo.promptTimestamps v)
       ∧ (1 ≤ length (SessionInfo.prompts v))%nat
       ∧ start (SessionInfo.timeRange v) ∈ SessionInfo.promptTimestamps v
       ∧ end_ (SessionInfo.timeRange v) ∈ SessionInfo.promptTimestamps v
       ∧ Forall (λ t, start (SessionInfo.timeRange v) ≤ t
                      ∧ t ≤ end_ (SessionInfo.timeRange v))
           (SessionInfo.promptTimestamps v)
       ∧ SessionInfo.projectName v = projectName (SessionInfo.project v)
       ∧ isProjectExcluded (SessionInfo.project v) privacy = false)
    (readHistory rt file from to privacy).
Proof.
  apply Forall_forall. intros v Hv.
  pose proof Hv as (g & Hg & Hvg)%readHistory_elem.
  destruct (sessionRows rt file from to privacy (SessionInfo.sessionId v))
    as [|r rows] eqn:Hrows; [done|].
  cbn in Hg. injection Hg as <-.
  assert (r ∈ sessionRows rt file from to privacy (SessionInfo.sessionId v)) as Hr
    by (rewrite Hrows; left).
  apply sessionRows_accepted in Hr as (_ & [_ Hex] & _).
  set (ts := HistoryEntry.timestamp r :: (HistoryEntry.timestamp <$> rows)).
  destruct (mathMin_spec ts) as [Hmin Hmin']; [done|].
  destruct (mathMax_spec ts) as [Hmax Hmax']; [done|].
  rewrite Hvg. cbn -[mathMin mathMax]. fold ts.
  split; [by rewrite !length_fmap|]. split; [lia|].
  split; [done|]. split; [done|]. split; [|done].
  apply Forall_forall. intros t Ht.
  rewrite Forall_forall in Hmin', Hmax'. split; auto.
Qed.

Lemma promptTotal_from (views : list SessionInfo.t) acc :
  fold_left (λ sum s, (sum + length (SessionInfo.prompts s))%nat) views acc
  = (acc + promptTotal views)%nat.
Proof.
  unfold promptTotal. revert acc.
  induction views as [|v views IH]; intros acc; cbn; [lia|].
  rewrite IH, (IH (length _)). lia.
Qed.

Lemma promptTotal_cons v views :
  promptTotal (v :: views) = (length (SessionInfo.prompts v) + promptTotal views)%nat.
Proof. unfold promptTotal at 1. cbn. apply promptTotal_from. Qed.

Lemma promptTotal_perm views views' :
  views ≡ₚ views' → promptTotal views = promptTotal views'.
Proof.
  induction 1 as [|x l l' _ IH|x y l|l l' l'' _ IH1 _ IH2];
    rewrite ?promptTotal_cons; lia.
Qed.

Lemma promptTotal_app views views' :
  promptTotal (views ++ views') = (promptTotal views + promptTotal views')%nat.
Proof.
  induction views as [|v views IH]; [done|].
  cbn [app]. rewrite !promptTotal_cons, IH. lia.
Qed.

Lemma promptTotal_alter (f : SessionGroup → SessionGroup) k m g :
  mapGet k m = Some g →
  length (g_prompts (f g)) = S (length (g_prompts g)) →
  promptTotal (toSessionInfo <$> mapAlter f k m)
  = S (promptTotal (toSessionInfo <$> m)).
Proof.
  induction m as [|[k' g'] m IH]; cbn [mapGet mapAlter]; [done|].
  destruct (decide (k = k')) as [->|Hne].
  - intros [= ->] Hlen. rewrite !fmap_cons, !promptTotal_cons. cbn. lia.
  - intros Hg Hlen. rewrite !fmap_cons, !promptTotal_cons, IH by done. lia.
Qed.

Lemma groupEntries_total rt privacy (entries : list HistoryEntry.t) m :
  promptTotal (toSessionInfo <$> fold_left (groupStep rt privacy) entries m)
  = (promptTotal (toSessionInfo <$> m) + length entries)%nat.
Proof.
  revert m. induction entries as [|e entries IH]; intros m; cbn [fold_left length].
  { lia. }
  rewrite IH. unfold groupStep.
  destruct (mapGet (HistoryEntry.sessionId e) m) as [g|] eqn:Hg.
  - rewrite (promptTotal_alter _ _ _ g Hg); [lia|].
    cbn. rewrite length_app. cbn. lia.
  - rewrite fmap_app, promptTotal_app. cbn [fmap list_fmap].
    rewrite promptTotal_cons. cbn. unfold promptTotal. cbn. lia.
Qed.

Lemma readHistory_counts_accepted
    (rt : Runtime) (file : option string) (from to : string)
    (privacy : PrivacyConfig) :
  promptTotal (readHistory rt file from to privacy)
  = length (filter (accepted rt from to privacy) (logRecords rt file)).
Proof.
  unfold readHistory, logRecords. destruct file as [text|]; [|done].
  rewrite (promptTotal_perm _ _ (sortBy_perm sessionStart _)).
  rewrite groupEntries_total, acceptLine_filter. done.
Qed.

(** X14: for a log whose records fall on dates of four-digit years and a window
    between two such dates, the prompts of the returned views are, in
    number, the records of the log dated inside the window whose project
    is not excluded: each of them is counted once, and nothing else is. *)
Theorem readHistory_counts_each_record_once
    (rt : Runtime) (file : option string) (fromDate toDate : CalendarDate)
    (privacy : PrivacyConfig) :
  fourDigitYear fromDate → fourDigitYear toDate →
  Forall (λ r, fourDigitYear (calendarDate rt (HistoryEntry.timestamp r)))
         (logRecords rt file) →
  promptTotal (readHistory rt file (isoDate fromDate) (isoDate toDate) privacy)
  = length (filter (wanted rt fromDate toDate privacy) (logRecords rt file)).
Proof.
  intros Hf Ht Hall. rewrite readHistory_counts_accepted. f_equal.
  apply filter_ext_Forall. eapply Forall_impl; [exact Hall|].
  intros r Hr. by apply accepted_wanted.
Qed.

(** The count at a concrete input: of the four records of the worked
    example, three are dated inside the 9th and 10th of February 2026. *)
Lemma readHistory_counts_witness :
  promptTotal (readHistory (Demo.runtime demoRows []) (Some demoLog)
                 "2026-02-09" "2026-02-10" LOCAL_PROFILE) = 3%nat.
Proof.
  assert (fourDigitYear (2026, 2, 9)) as Hfrom by (cbn; lia).
  assert (fourDigitYear (2026, 2, 10)) as Hto by (cbn; lia).
  assert (Forall (λ r, fourDigitYear
                         (calendarDate (Demo.runtime demoRows [])
                            (HistoryEntry.timestamp r)))
            (logRecords (Demo.runtime demoRows []) (Some demoLog))) as Hlog.
  { assert (logRecords (Demo.runtime demoRows []) (Some demoLog)
            = [ HistoryEntry.mk "write the docs" 1770595260000 "/work/site" "s2";
                HistoryEntry.mk "fix the parser" 1770595200000 "/work/app" "s1";
                HistoryEntry.mk "add a test" 1770595800000 "/work/app" "s1";
                HistoryEntry.mk "an old prompt" 0 "/work/app" "s1" ]) as ->
      by (vm_compute; reflexivity).
    repeat constructor; vm_compute; discriminate. }
  pose proof (readHistory_counts_each_record_once (Demo.runtime demoRows [])
                (Some demoLog) (2026, 2, 9) (2026, 2, 10) LOCAL_PROFILE
                Hfrom Hto Hlog) as Hcount.
  change (isoDate (2026, 2, 9)) with "2026-02-09" in Hcount.
  change (isoDate (2026, 2, 10)) with "2026-02-10" in Hcount.
  rewrite Hcount. vm_compute. reflexivity.
Defined.

Lemma ltb_lt_le_trans a b c :
  Str.ltb a b = true → Str.ltb c b = false → Str.ltb a c = true.
Proof.
  revert b c. induction a as [|x a IH]; intros [|y b] [|z c];
    cbn [Str.ltb]; try done.
  destruct (nat_of_ascii x <? nat_of_ascii y)%nat eqn:Exy,
    (nat_of_ascii y <? nat_of_ascii x)%nat eqn:Eyx,
    (nat_of_ascii z <? nat_of_ascii y)%nat eqn:Ezy,
    (nat_of_ascii y <? nat_of_ascii z)%nat eqn:Eyz,
    (nat_of_ascii x <? nat_of_ascii z)%nat eqn:Exz,
    (nat_of_ascii z <? nat_of_ascii x)%nat eqn:Ezx;
    try done;
    rewrite ?Nat.ltb_lt, ?Nat.ltb_ge in *; try lia.
  apply IH.
Qed.

(** X15: a window whose end comes before its start, as strings, is empty:
    readHistory returns no view. *)
Theorem readHistory_inverted_window
    (rt : Runtime) (file : option string) (from to : string)
    (privacy : PrivacyConfig) :
  Str.ltb to from = true →
  readHistory rt file from to privacy = [].
Proof.
  intros Hinv. unfold readHistory. destruct file as [text|]; [|done].
  replace (omap (acceptLine rt from to privacy) (splitLines text)) with
    (@nil HistoryEntry.t); [done|].
  symmetry. induction (splitLines text) as [|line lines IH]; [done|].
  cbn [omap list_omap]. rewrite IH. unfold acceptLine.
  destruct (Str.isBlank line); [done|].
  destruct (parseHistoryLine rt line) as [entry|]; [|done].
  cbn zeta.
  destruct (Str.ltb (toLocalDate rt (HistoryEntry.timestamp entry)) from) eqn:E1;
    [done|].
  by rewrite (ltb_lt_le_trans _ _ _ Hinv E1).
Qed.

(** The empty window at a concrete input: the log of the worked example
    read from 2026-02-10 back to 2026-02-09. *)
Lemma readHistory_inverted_window_witness :
  readHistory (Demo.runtime demoRows []) (Some demoLog)
    "2026-02-10" "2026-02-09" LOCAL_PROFILE = [].
Proof.
  apply (readHistory_inverted_window (Demo.runtime demoRows []) (Some demoLog)
           "2026-02-10" "2026-02-09" LOCAL_PROFILE).
  reflexivity.
Defined.

(** ** JSONL: parsing composes, and a peek is two ends of the full parse *)

Lemma parseJsonl_lines {T} (parse : string → option T) (lines : list string) :
  omap (λ line, if Str.isBlank line then None else parse line) lines
  = omap parse (List.filter (λ l, negb (Str.isBlank l)) lines).
Proof.
  induction lines as [|l lines IH]; [done|].
  cbn [omap list_omap List.filter]. destruct (Str.isBlank l); cbn; by rewrite IH.
Qed.

(** X16: parsing two texts put one after the other, a line feed between them,
    gives the values of the first followed by the values of the second. *)
Theorem parseJsonl_concatenation {T} (parse : string → option T) (a b : string) :
  parseJsonl parse (appendLines a b) = parseJsonl parse a ++ parseJsonl parse b.
Proof.
  unfold parseJsonl, appendLines, splitLines.
  by rewrite split_app_general, omap_app.
Qed.

Lemma split_append c x :
  ∃ init piece,
    Str.split c x = init ++ [piece]
    ∧ ∀ y, Str.split c (x +:+ y)
           = init ++ match Str.split c y with
                     | h :: rest => (piece +:+ h) :: rest
                     | [] => [piece]
                     end.
Proof.
  induction x as [|a x (init & piece & Hx & Hxy)].
  - exists [], EmptyString. split; [done|]. intros y.
    change (EmptyString +:+ y) with y.
    pose proof (split_nonempty c y). by destruct (Str.split c y).
  - destruct (Ascii.eqb a c) eqn:E.
    + exists (EmptyString :: init), piece. split.
      * cbn [Str.split]. by rewrite E, Hx.
      * intros y. change (String a x +:+ y) with (String a (x +:+ y)).
        cbn [Str.split]. by rewrite E, Hxy.
    + destruct init as [|l init].
      * exists [], (String a piece). split.
        -- cbn [Str.split]. by rewrite E, Hx.
        -- intros y. change (String a x +:+ y) with (String a (x +:+ y)).
           cbn [Str.split]. rewrite E, Hxy. cbn [app].
           pose proof (split_nonempty c y). by destruct (Str.split c y).
      * exists (String a l :: init), piece. split.
        -- cbn [Str.split]. by rewrite E, Hx.
        -- intros y. change (String a x +:+ y) with (String a (x +:+ y)).
           cbn [Str.split]. by rewrite E, Hxy.
Qed.

Lemma take_drop_string n s : s = Str.take n s +:+ Str.drop n s.
Proof.
  revert s. induction n as [|n IH]; intros [|c s]; cbn [Str.take Str.drop]; try done.
  change (String c (Str.take n s) +:+ Str.drop n s)
    with (String c (Str.take n s +:+ Str.drop n s)).
  by rewrite <- IH.
Qed.

Lemma drop_drop_string n k s : Str.drop (n + k) s = Str.drop k (Str.drop n s).
Proof.
  revert s. induction n as [|n IH]; intros s; [done|].
  destruct s as [|c s]; cbn [Nat.add Str.drop]; [by destruct k|]. apply IH.
Qed.

Lemma filter_removelast_prefix {A} (f : A → bool) (init : list A) (x : A) :
  removelast (List.filter f (init ++ [x])) `prefix_of` List.filter f init.
Proof.
  rewrite List.filter_app. cbn [List.filter]. destruct (f x).
  - rewrite removelast_last. done.
  - rewrite app_nil_r. generalize (List.filter f init). intros l.
    destruct l as [|a l] using rev_ind; [done|].
    rewrite removelast_last. by apply prefix_app_r.
Qed.

Lemma omap_prefix {A B} (f : A → option B) (l1 l2 : list A) :
  l1 `prefix_of` l2 → omap f l1 `prefix_of` omap f l2.
Proof. intros [k ->]. rewrite omap_app. by apply prefix_app_r. Qed.

Lemma omap_suffix {A B} (f : A → option B) (l1 l2 : list A) :
  l1 `suffix_of` l2 → omap f l1 `suffix_of` omap f l2.
Proof. intros [k ->]. rewrite omap_app. by apply suffix_app_r. Qed.

(** X17: of a file of ASCII text a peek reports two ends of the full parse,
    and no value twice: the values read from the whole file are those of
    [first], then values the peek leaves out, then those of [last]. A file
    of at most twice the chunk size is read whole into [first], and a
    missing file gives empty lists; [totalBytes] is the size of the file. *)
Theorem peekJsonl_ends {T} (parse : string → option T) (file : option string)
    (bytes : nat) :
  asciiFile file →
  (∃ middle,
     readJsonl parse file
     = Peek.first (peekJsonl parse file bytes) ++ middle
       ++ Peek.last (peekJsonl parse file bytes))
  ∧ Peek.totalBytes (peekJsonl parse file bytes)
    = match file with Some text => String.length text | None => 0%nat end
  ∧ (∀ text, file = Some text → (String.length text ≤ bytes * 2)%nat →
       Peek.first (peekJsonl parse file bytes) = parseJsonl parse text
       ∧ Peek.last (peekJsonl parse file bytes) = []).
Proof.
  intros _. destruct file as [text|]; cbn [peekJsonl readJsonl].
  2:{ split; [by exists []|]. split; [done|]. by intros ? [=]. }
  destruct (String.length text <=? bytes * 2)%nat eqn:Esize.
  { cbn. split; [exists []; by rewrite !app_nil_r|]. split; [done|].
    by intros ? [= <-] _. }
  apply Nat.leb_gt in Esize. cbn [Peek.first Peek.last Peek.totalBytes].
  split; [|split; [done|intros ? [= <-] ?; lia]].
  set (size := String.length text) in *.
  replace (Nat.max 0 (size - bytes)) with (bytes + (size - bytes - bytes))%nat by lia.
  rewrite drop_drop_string.
  set (head := Str.take bytes text).
  set (rest := Str.drop bytes text).
  set (gap := (size - bytes - bytes)%nat).
  set (mid := Str.take gap rest).
  set (tailc := Str.drop gap rest).
  assert (text = head +:+ (mid +:+ tailc)) as Htext.
  { unfold head, mid, tailc, rest. by rewrite <- !take_drop_string. }
  destruct (split_append "010" head) as (initA & pa & HA & HAy).
  destruct (split_append "010" mid) as (initM & pm & HM & HMy).
  unfold parseJsonl, chunkLines, splitLines.
  replace (Str.split "010" text)
    with (Str.split "010" (head +:+ (mid +:+ tailc))) by (by rewrite <- Htext).
  rewrite HAy, HMy, HA.
  pose proof (split_nonempty "010" tailc) as Hne.
  destruct (Str.split "010" tailc) as [|pb linesB] eqn:EB; [done|].
  rewrite !parseJsonl_lines.
  set (f := λ l, negb (Str.isBlank l)).
  assert (∀ (before between after : list string) (first last : list T),
            first `prefix_of` omap parse (List.filter f before) →
            last `suffix_of` omap parse (List.filter f after) →
            ∃ middle,
              omap parse (List.filter f (before ++ between ++ after))
              = first ++ middle ++ last) as Hends.
  { intros before between after first last [k1 Hk1] [k2 Hk2].
    exists (k1 ++ omap parse (List.filter f between) ++ k2).
    rewrite !List.filter_app, !omap_app, Hk1, Hk2.
    by rewrite <- !app_assoc. }
  assert (omap parse (removelast (List.filter f (initA ++ [pa])))
          `prefix_of` omap parse (List.filter f initA)) as Hfirst.
  { apply omap_prefix, filter_removelast_prefix. }
  assert (omap parse (tail (List.filter f (pb :: linesB)))
          `suffix_of` omap parse (List.filter f linesB)) as Hlast.
  { apply omap_suffix. cbn [List.filter]. destruct (f pb); [done|].
    destruct (List.filter f linesB); [done|]. cbn. by apply suffix_cons_r. }
  destruct initM as [|m0 initM]; cbn [app].
  - apply (Hends initA [pa +:+ pm +:+ pb] linesB _ _ Hfirst Hlast).
  - replace (initA ++ (pa +:+ m0) :: initM ++ (pm +:+ pb) :: linesB)
      with (initA ++ ((pa +:+ m0) :: initM ++ [pm +:+ pb]) ++ linesB).
    + apply (Hends _ _ _ _ _ Hfirst Hlast).
    + cbn [app]. by rewrite <- app_assoc.
Qed.

(** The two ends at a concrete input: four lines peeked with chunks of
    three bytes; the first line and the last are read, the two in between
    are left out. *)
Lemma peekJsonl_ends_witness :
  ∃ middle,
    readJsonl Some (Some (joinLines ["aa"; "bb"; "cc"; "dd"]))
    = Peek.first (peekJsonl Some (Some (joinLines ["aa"; "bb"; "cc"; "dd"])) 3)
      ++ middle
      ++ Peek.last (peekJsonl Some (Some (joinLines ["aa"; "bb"; "cc"; "dd"])) 3).
Proof.
  apply (proj1 (peekJsonl_ends Some (Some (joinLines ["aa"; "bb"; "cc"; "dd"])) 3
                  ltac:(vm_compute; repeat constructor))).
Defined.

(** ** streamTranscript: what is yielded respects the configuration *)

Lemma filterContentBlocks_types rt blocks config :
  Forall (λ b,
            (stripThinking config = true
             → ContentBlock.type b ≠ BlockType.thinking)
            ∧ (stripToolResults config = true
               → ContentBlock.type b ≠ BlockType.tool_result))
         (filterContentBlocks rt blocks config).
Proof.
  induction blocks as [|block rest IH]; cbn [filterContentBlocks]; [constructor|].
  destruct (stripThinking config &&
            BlockType.eqb (ContentBlock.type block) BlockType.thinking) eqn:E1;
    [done|].
  destruct (stripToolResults config &&
            BlockType.eqb (ContentBlock.type block) BlockType.tool_result) eqn:E2;
    [done|].
  constructor; [|done].
  destruct (redactBlock_same rt config block) as [Hty _].
  split; intros Hs Heq; rewrite Hty in Heq; apply BlockType_eqb_eq in Heq;
    rewrite Hs, Heq in *; done.
Qed.

Lemma filterTranscriptEntry_respects rt entry config filtered :
  filterTranscriptEntry rt entry config = Some filtered →
  entryRespects config filtered.
Proof.
  unfold filterTranscriptEntry, entryRespects.
  destruct (stripToolResults config
            && bool_decide (is_Some (TranscriptEntry.toolUseResult entry))) eqn:E;
    [done|].
  assert (stripToolResults config = true
          → TranscriptEntry.toolUseResult entry = None) as Hres.
  { intros Hs. rewrite Hs in E. cbn in E. apply bool_decide_eq_false in E.
    destruct (TranscriptEntry.toolUseResult entry); [|done].
    exfalso. apply E. by eexists. }
  clear E.
  destruct (TranscriptEntry.message entry) as [m0|] eqn:Hm0.
  2:{ intros [= <-]. rewrite Hm0. split; [done|]. split; [done|]. by intros. }
  destruct (redactPrompts config) eqn:Hp, (Message.role m0) as [[]|] eqn:Hr,
    (Message.content m0) as [[s0|blocks0]|] eqn:Hc;
    intros [= <-]; cbn; rewrite ?Hm0;
    (split; [done|]);
    (split; [intros m blocks [= <-]; cbn; rewrite ?Hr, ?Hc; try done;
             intros _ [= <-]; apply filterContentBlocks_types
            |intros Hrp m s [= <-]; cbn; rewrite ?Hr, ?Hc; try done;
             try (intros _ [= <-]; done)]).
Qed.

Lemma Forall_omap {A B} (f : A → option B) (P : B → Prop) (l : list A) :
  (∀ x y, f x = Some y → P y) → Forall P (omap f l).
Proof.
  intros Hf. induction l as [|x l IH]; cbn; [constructor|].
  destruct (f x) as [y|] eqn:E; [constructor; eauto|done].
Qed.

(** X18: the entries streamed from a transcript are the records that parse, in
    file order, each passed through the privacy filter. Whatever the file
    holds, no streamed entry carries a tool result when tool results are
    stripped, no assistant block list holds a thinking or tool-result block
    the configuration strips, and with prompt redaction every user text is
    the marker. *)
Theorem streamTranscript_respects_privacy
    (rt : Runtime) (file : option string) (config : PrivacyConfig) :
  streamTranscript rt file config
  = omap (λ entry, filterTranscriptEntry rt entry config)
         (readJsonl (parseTranscriptLine rt) file)
  ∧ Forall (entryRespects config) (streamTranscript rt file config).
Proof.
  split.
  - destruct file as [text|]; [|done]. cbn [streamTranscript readJsonl].
    unfold parseJsonl. generalize (splitLines text). intros lines.
    induction lines as [|line lines IH]; [done|].
    cbn [omap list_omap]. destruct (Str.isBlank line); [done|].
    destruct (parseTranscriptLine rt line) as [entry|]; cbn; [|done].
    by rewrite IH.
  - destruct file as [text|]; [|constructor]. cbn [streamTranscript].
    apply Forall_omap. intros line filtered.
    destruct (Str.isBlank line); [done|].
    destruct (parseTranscriptLine rt line) as [entry|]; cbn; [|done].
    apply filterTranscriptEntry_respects.
Qed.

(** ** Projects: exclusion by decoded path, and memory of a listed project *)

Lemma lowerChar_dash c : Ascii.eqb "-" (Str.lowerChar c) = Ascii.eqb "-" c.
Proof. destruct c as [[] [] [] [] [] [] [] []]; reflexivity. Qed.

Lemma hasChar_toLowerCase_dash s :
  Str.hasChar "-" (Str.toLowerCase s) = Str.hasChar "-" s.
Proof.
  induction s as [|c s IH]; [done|].
  cbn [Str.toLowerCase Str.hasChar]. by rewrite lowerChar_dash, IH.
Qed.

Lemma prefix_hasChar c p s :
  String.prefix p s = true → Str.hasChar c p = true → Str.hasChar c s = true.
Proof.
  revert s. induction p as [|x p IH]; intros s; [done|].
  destruct s as [|y s]; [done|]. cbn [String.prefix Str.hasChar].
  destruct (ascii_dec x y) as [->|]; [|done].
  intros Hp [->|Hc]%orb_true_iff; [done|].
  rewrite (IH s Hp Hc). by rewrite orb_true_r.
Qed.

Lemma includes_hasChar c p s :
  Str.includes p s = true → Str.hasChar c p = true → Str.hasChar c s = true.
Proof.
  induction s as [|y s IH]; cbn [Str.includes].
  - rewrite orb_false_r. apply prefix_hasChar.
  - intros [Hp|Hi]%orb_true_iff Hc; [by eapply prefix_hasChar|].
    cbn [Str.hasChar]. rewrite (IH Hi Hc). by rewrite orb_true_r.
Qed.

Lemma existsb_filter_implied {A} (f g : A → bool) (l : list A) :
  (∀ x, f x = true → g x = true) →
  existsb f l = existsb f (List.filter g l).
Proof.
  intros Hfg. induction l as [|x l IH]; [done|].
  cbn [existsb List.filter]. destruct (g x) eqn:Eg; cbn [existsb]; rewrite IH; [done|].
  destruct (f x) eqn:Ef; [|done]. apply Hfg in Ef. congruence.
Qed.

Lemma isProjectExcluded_existsb projectPath config :
  isProjectExcluded projectPath config
  = existsb (λ p, Str.includes (Str.toLowerCase p) (Str.toLowerCase projectPath))
            (excludeProjects config).
Proof.
  unfold isProjectExcluded. by destruct (excludeProjects config).
Qed.

(** X19: the project list is filtered by the decoded directory name, in which
    every dash has become a slash: an exclusion pattern that holds a dash
    never applies there. Listing with a configuration gives the same
    projects as listing with its dashed patterns dropped. *)
Theorem readProjects_ignores_dashed_patterns
    (dir : ProjectsDir) (config : PrivacyConfig) :
  readProjects dir config
  = readProjects dir
      (withExcludes
         (List.filter (λ p, negb (Str.hasChar "-" p)) (excludeProjects config))
         config).
Proof.
  unfold readProjects. destruct (dirEntries dir) as [entries|]; [|done].
  induction entries as [|e entries IH]; [done|].
  cbn [omap list_omap]. rewrite IH. f_equal.
  unfold readProject. destruct (Str.startsWith "." e); [done|].
  rewrite !isProjectExcluded_existsb. cbn [withExcludes excludeProjects].
  rewrite <- (existsb_filter_implied _ (λ p, negb (Str.hasChar "-" p))); [done|].
  intros p Hinc. destruct (Str.hasChar "-" p) eqn:Hd; [|done].
  rewrite <- hasChar_toLowerCase_dash in Hd.
  pose proof (includes_hasChar "-" _ _ Hinc Hd) as Hlow.
  rewrite hasChar_toLowerCase_dash, decode_has_no_dash in Hlow. done.
Qed.

Lemma encode_decode_no_slash e :
  Str.hasChar "/" e = false → encodeProjectPath (decodeProjectPath e) = e.
Proof.
  unfold decodeProjectPath, encodeProjectPath.
  induction e as [|x e IH]; cbn [Str.hasChar Str.replaceChar]; [done|].
  intros [Hx He]%orb_false_elim. rewrite IH by done. f_equal.
  destruct (Ascii.eqb x "-") eqn:E.
  - apply Ascii.eqb_eq in E. by subst.
  - rewrite Ascii.eqb_sym in Hx. by rewrite Hx.
Qed.

Lemma take_length n s : (String.length (Str.take n s) ≤ n)%nat.
Proof.
  revert s. induction n as [|n IH]; intros [|c s]; cbn; try lia.
  specialize (IH s). lia.
Qed.

(** X20: a project listed by readProjects can be handed back to
    readProjectMemory by its decoded path: the directory name is recovered
    from it, so the MEMORY.md read is the one of the listed directory, under
    the same short name. The memory is absent exactly when [hasMemory] is
    false or the file is blank, and its content is the first 2000
    characters at most. The directory name holds no slash, as the names of
    a directory listing do. *)
Theorem listed_project_memory
    (dir : ProjectsDir) (privacy : PrivacyConfig) (p : ProjectInfo.t) :
  p ∈ readProjects dir privacy →
  Str.hasChar "/" (ProjectInfo.encodedPath p) = false →
  encodeProjectPath (ProjectInfo.decodedPath p) = ProjectInfo.encodedPath p
  ∧ readProjectMemory dir (ProjectInfo.decodedPath p)
    = match dirMemory dir (ProjectInfo.encodedPath p) with
      | None => None
      | Some content =>
          if Str.isBlank content then None
          else Some (ProjectMemory.mk (ProjectInfo.decodedPath p)
                       (ProjectInfo.name p) (Str.take 2000 content))
      end
  ∧ (ProjectInfo.hasMemory p = false
     → readProjectMemory dir (ProjectInfo.decodedPath p) = None)
  ∧ (∀ m, readProjectMemory dir (ProjectInfo.decodedPath p) = Some m →
       ProjectInfo.hasMemory p = true
       ∧ (String.length (ProjectMemory.content m) ≤ 2000)%nat).
Proof.
  unfold readProjects. destruct (dirEntries dir) as [entries|];
    [|by intros ?%elem_of_nil].
  intros (e & _ & He)%list_elem_of_omap Hslash.
  unfold readProject in He.
  destruct (Str.startsWith "." e); [done|].
  destruct (isProjectExcluded (decodeProjectPath e) privacy); [done|].
  destruct (dirFiles dir e) as [files|]; [|done].
  injection He as <-. cbn [ProjectInfo.encodedPath ProjectInfo.decodedPath
                           ProjectInfo.name ProjectInfo.hasMemory] in *.
  pose proof (encode_decode_no_slash e Hslash) as Henc.
  split; [done|].
  unfold readProjectMemory.
  unfold encodeProjectPath in Henc. rewrite Henc.
  destruct (dirMemory dir e) as [content|] eqn:Hmem.
  - pose proof (take_length 2000 content) as Hlen.
    set (taken := Str.take 2000 content) in *. clearbody taken.
    split; [done|]. split.
    + intros Hno. case_bool_decide as Hsome; [done|].
      exfalso. apply Hsome. by eexists.
    + intros m. destruct (Str.isBlank content); [done|]. intros [= <-].
      split; [by apply bool_decide_eq_true; eexists|done].
  - split; [done|]. split; [done|]. by intros.
Qed.

(** The memory of a listed project at a concrete input: the first
    directory of the example. *)
Lemma listed_project_memory_witness :
  readProjectMemory demoProjects "/home/alice/my/app"
  = Some (ProjectMemory.mk "/home/alice/my/app" "app" "# Notes on the build").
Proof.
  apply (proj1 (proj2
    (listed_project_memory demoProjects LOCAL_PROFILE
       (ProjectInfo.mk "-home-alice-my-app" "/home/alice/my/app" "app" 2 true)
       ltac:(vm_compute; left) ltac:(reflexivity)))).
Defined.

(** ** Tool usage report: the counters agree *)

Section CountUp.
Context {K : Type} `{EqDecision K}.
Implicit Types (m : list (K * Z)) (k : K).

Lemma countUp_sum k m : countSum (countUp k m) = countSum m + 1.
Proof.
  unfold countSum. induction m as [|[k' n] m IH]; cbn; [done|].
  destruct (decide (k = k')); cbn; [lia|]. rewrite IH. lia.
Qed.

Lemma countUp_keys k m :
  (countUp k m).*1 = if decide (k ∈ m.*1) then m.*1 else m.*1 ++ [k].
Proof.
  induction m as [|[k' n] m IH]; cbn.
  - rewrite decide_False; [done|apply not_elem_of_nil].
  - destruct (decide (k = k')) as [->|Hne]; cbn.
    + rewrite decide_True; [done|left].
    + rewrite IH. destruct (decide (k ∈ m.*1)) as [Hin|Hin].
      * rewrite decide_True; [done|by right].
      * rewrite decide_False; [done|]. by intros [?|?]%elem_of_cons.
Qed.

Lemma countUp_NoDup k m : NoDup m.*1 → NoDup (countUp k m).*1.
Proof.
  intros Hm. rewrite countUp_keys. destruct (decide (k ∈ m.*1)); [done|].
  apply NoDup_app. split; [done|]. split; [|apply NoDup_singleton].
  intros x Hx Hk. apply elem_of_cons in Hk as [->|Hk]; [done|by apply elem_of_nil in Hk].
Qed.

Lemma countUp_pos k m :
  Forall (λ e, 1 ≤ e.2) m → Forall (λ e, 1 ≤ e.2) (countUp k m).
Proof.
  induction 1 as [|[k' n] m Hn Hm IH]; cbn.
  - by repeat constructor.
  - destruct (decide (k = k')); constructor; cbn in *; try done. lia.
Qed.

End CountUp.

Lemma toolCallStep_inv st tc : toolUsageInv st → toolUsageInv (toolCallStep st tc).
Proof.
  unfold toolUsageInv.
  intros (Ht & Hc & Hle & Nt & Nc & Nf & Nm & Pt & Pc & Pf & Pm).
  unfold toolCallStep.
  destruct (nonEmpty (ToolCallSummary.target tc)) as [target|];
    [destruct (ToolCallSummary.category tc)|];
    cbn [ToolUsageState.byTool ToolUsageState.byCategory ToolUsageState.fileCounts
         ToolUsageState.commandCounts ToolUsageState.total];
    rewrite ?countUp_sum;
    repeat split; auto using countUp_NoDup, countUp_pos; lia.
Qed.

Lemma toolCalls_inv (calls : list ToolCallSummary.t) st :
  toolUsageInv st →
  toolUsageInv (fold_left toolCallStep calls st)
  ∧ ToolUsageState.total (fold_left toolCallStep calls st)
    = ToolUsageState.total st + Z.of_nat (length calls).
Proof.
  revert st. induction calls as [|tc calls IH]; intros st Hst; cbn [fold_left].
  - split; [done|]. cbn. lia.
  - destruct (IH _ (toolCallStep_inv st tc Hst)) as [Hinv Htot].
    split; [done|]. rewrite Htot. cbn [length].
    unfold toolCallStep. destruct (nonEmpty _); cbn; lia.
Qed.

Lemma toolSessions_inv rt files privacy (sessions : list SessionInfo.t) st :
  toolUsageInv st →
  toolUsageInv (fold_left (toolSessionStep rt files privacy) sessions st)
  ∧ ToolUsageState.total (fold_left (toolSessionStep rt files privacy) sessions st)
    = ToolUsageState.total st
      + Z.of_nat (length (countedToolCalls rt files privacy sessions)).
Proof.
  revert st. induction sessions as [|s sessions IH]; intros st Hst; cbn [fold_left].
  - split; [done|]. cbn. lia.
  - unfold countedToolCalls. cbn [List.filter]. unfold toolSessionStep at 2 4.
    destruct (length (SessionInfo.prompts s) <? 2)%nat; cbn [negb].
    + apply (IH st Hst).
    + destruct (toolCalls_inv
                  (SessionDetail.toolCalls (parseSessionDetail rt s (files s) privacy))
                  st Hst) as [Hinv Htot].
      destruct (IH _ Hinv) as [Hinv' Htot'].
      split; [done|]. rewrite Htot', Htot. cbn [mbind list_bind].
      rewrite length_app. unfold countedToolCalls. lia.
Qed.

Lemma StronglySorted_weaken {A} (R1 R2 : relation A) (l : list A) :
  (∀ x y, R1 x y → R2 x y) → StronglySorted R1 l → StronglySorted R2 l.
Proof.
  intros HR. induction 1 as [|x l _ IH Hx]; constructor; [done|].
  eapply Forall_impl; [exact Hx|]. auto.
Qed.

Lemma top20_spec (counts : list (string * Z)) :
  NoDup counts.*1 → Forall (λ e, 1 ≤ e.2) counts →
  (length (top20 counts) ≤ 20)%nat
  ∧ NoDup (top20 counts).*1
  ∧ StronglySorted (λ a b, b.2 ≤ a.2) (top20 counts)
  ∧ Forall (λ e, 1 ≤ e.2 ∧ e ∈ counts) (top20 counts)
  ∧ countSum (top20 counts) ≤ countSum counts.
Proof.
  intros Hnd Hpos. unfold top20.
  set (sorted := sortBy (λ e : string * Z, - e.2) counts).
  assert (sorted ≡ₚ counts) as Hperm by apply sortBy_perm.
  assert (Forall (λ e, 1 ≤ e.2) sorted) as Hpos' by (by rewrite Hperm).
  split; [rewrite length_take; lia|].
  split.
  { assert ((take 20 sorted).*1 `sublist_of` sorted.*1) as Hsub
      by apply fmap_sublist, sublist_take.
    eapply sublist_NoDup; [|exact Hsub]. by rewrite Hperm. }
  split.
  { pose proof (sortBy_strongly_sorted (λ e : string * Z, - e.2) counts) as Hs.
    fold sorted in Hs. rewrite <- (take_drop 20 sorted) in Hs.
    apply StronglySorted_app_1_l in Hs.
    eapply StronglySorted_weaken; [|exact Hs]. cbn. intros; lia. }
  split.
  { apply Forall_forall. intros e He.
    assert (e ∈ sorted) as Hes.
    { rewrite <- (take_drop 20 sorted). apply elem_of_app. by left. }
    split; [by eapply (proj1 (Forall_forall _ _) Hpos')|by rewrite <- Hperm]. }
  assert (countSum sorted = countSum counts) as <-.
  { unfold countSum. clear -Hperm.
    induction Hperm as [|x l l' _ IH|x y l|l l' l'' _ IH1 _ IH2]; cbn; lia. }
  clear -Hpos'. unfold countSum. generalize 20%nat. intros n.
  revert n. induction Hpos' as [|e l He Hl IH]; intros [|n]; cbn; try lia.
  - assert (0 ≤ foldr Z.add 0 l.*2); [|lia].
    clear -Hl. induction Hl as [|??? _ ?]; cbn; lia.
  - specialize (IH n). lia.
Qed.

(** X21: in a tool usage report the counts per tool and the counts per category
    both add up to [total], which is the number of tool calls of the
    sessions of the window with two prompts or more; no tool and no
    category is listed twice and none with a count below 1. The two top
    lists hold 20 entries at most, no entry twice, in descending order of
    count, and their counts together do not exceed [total]. *)
Theorem buildToolUsageReport_counts
    (rt : Runtime) (now : Z) (filter : SessionListFilter.t)
    (historyFile : option string) (files : SessionInfo.t → option string)
    (privacy : PrivacyConfig) :
  let report := buildToolUsageReport rt now filter historyFile files privacy in
  let range := resolveDateRange rt now (Some filter) in
  let sessions := readHistory rt historyFile range.1 range.2 privacy in
  countSum (ToolUsageReport.byTool report) = ToolUsageReport.total report
  ∧ countSum (ToolUsageReport.byCategory report) = ToolUsageReport.total report
  ∧ ToolUsageReport.total report
    = Z.of_nat (length (countedToolCalls rt files privacy sessions))
  ∧ NoDup (ToolUsageReport.byTool report).*1
  ∧ NoDup (ToolUsageReport.byCategory report).*1
  ∧ Forall (λ e, 1 ≤ e.2) (ToolUsageReport.byTool report)
  ∧ Forall (λ e, 1 ≤ e.2) (ToolUsageReport.byCategory report)
  ∧ (length (ToolUsageReport.topFiles report) ≤ 20)%nat
  ∧ (length (ToolUsageReport.topCommands report) ≤ 20)%nat
  ∧ NoDup (TopFile.path <$> ToolUsageReport.topFiles report)
  ∧ NoDup (TopCommand.command <$> ToolUsageReport.topCommands report)
  ∧ StronglySorted (λ a b, TopFile.count b ≤ TopFile.count a)
      (ToolUsageReport.topFiles report)
  ∧ StronglySorted (λ a b, TopCommand.count b ≤ TopCommand.count a)
      (ToolUsageReport.topCommands report)
  ∧ foldr Z.add 0 (TopFile.count <$> ToolUsageReport.topFiles report)
    + foldr Z.add 0 (TopCommand.count <$> ToolUsageReport.topCommands report)
    ≤ ToolUsageReport.total report.
Proof.
  intros report range sessions. subst report. unfold buildToolUsageReport.
  fold range. destruct range as [from to] eqn:Hrange. cbn [fst snd] in sessions.
  fold sessions.
  assert (toolUsageInv (ToolUsageState.mk [] [] [] [] 0)) as H0.
  { unfold toolUsageInv. cbn. repeat split; try constructor; done. }
  destruct (toolSessions_inv rt files privacy sessions _ H0) as [Hinv Htot].
  set (st := fold_left (toolSessionStep rt files privacy) sessions
               (ToolUsageState.mk [] [] [] [] 0)) in *.
  destruct Hinv as (Ht & Hc & Hle & Nt & Nc & Nf & Nm & Pt & Pc & Pf & Pm).
  destruct (top20_spec _ Nf Pf) as (Lf & NDf & Sf & _ & Sumf).
  destruct (top20_spec _ Nm Pm) as (Lm & NDm & Sm & _ & Summ).
  cbn [ToolUsageReport.byTool ToolUsageReport.byCategory ToolUsageReport.topFiles
       ToolUsageReport.topCommands ToolUsageReport.total].
  assert (∀ l : list (string * Z),
            TopFile.path <$> ((λ '(path, count), TopFile.mk path count) <$> l) = l.*1)
    as Hpath.
  { intros l. rewrite <- list_fmap_compose. apply list_fmap_ext. by intros ? []. }
  assert (∀ l : list (string * Z),
            TopCommand.command
              <$> ((λ '(command, count), TopCommand.mk command count) <$> l) = l.*1)
    as Hcommand.
  { intros l. rewrite <- list_fmap_compose. apply list_fmap_ext. by intros ? []. }
  assert (∀ l : list (string * Z),
            TopFile.count <$> ((λ '(path, count), TopFile.mk path count) <$> l) = l.*2)
    as Hfc.
  { intros l. rewrite <- list_fmap_compose. apply list_fmap_ext. by intros ? []. }
  assert (∀ l : list (string * Z),
            TopCommand.count
              <$> ((λ '(command, count), TopCommand.mk command count) <$> l) = l.*2)
    as Hcc.
  { intros l. rewrite <- list_fmap_compose. apply list_fmap_ext. by intros ? []. }
  rewrite Hpath, Hcommand, Hfc, Hcc, !length_fmap.
  cbn in Htot.
  repeat (split; [first [done|lia]|]).
  split.
  { eapply StronglySorted_fmap; [|exact Sf]. by intros [] []. }
  split.
  { eapply StronglySorted_fmap; [|exact Sm]. by intros [] []. }
  unfold countSum in *. lia.
Qed.

(** ** Project summaries: every session in one row, nothing lost *)

Lemma mapAlter_Forall {V} (P : string * V → Prop) (f : V → V) k (m : list (string * V)) :
  Forall P m → (∀ v, P (k, v) → P (k, f v)) → Forall P (mapAlter f k m).
Proof.
  intros Hm Hf. induction Hm as [|[k' v] m Hv Hm IH]; cbn [mapAlter]; [constructor|].
  destruct (decide (k = k')) as [->|]; constructor; auto.
Qed.

Lemma mapAlter_concat {A} k (m : list (string * list A)) (x : A) g :
  mapGet k m = Some g →
  concat (mapAlter (λ existing, existing ++ [x]) k m).*2 ≡ₚ concat m.*2 ++ [x].
Proof.
  induction m as [|[k' g'] m IH]; cbn [mapGet mapAlter]; [done|].
  destruct (decide (k = k')) as [->|Hne].
  - intros _. cbn. rewrite <- !app_assoc. apply Permutation_app_head.
    apply Permutation_app_comm.
  - intros Hg. cbn. rewrite (IH Hg). by rewrite app_assoc.
Qed.

Lemma projectGroupStep_spec filter m s :
  groupsOk filter m →
  groupsOk filter (projectGroupStep filter m s)
  ∧ concat (projectGroupStep filter m s).*2 ≡ₚ concat m.*2 ++ keptSessions filter [s].
Proof.
  intros [Hnd Hall]. unfold projectGroupStep, keptSessions. cbn [List.filter].
  destruct (filteredOut filter (SessionInfo.projectName s)) eqn:Hout; cbn [negb].
  { split; [done|]. by rewrite app_nil_r. }
  destruct (mapGet (SessionInfo.projectName s) m) as [g|] eqn:Hget.
  - split; [split|].
    + by rewrite mapAlter_keys.
    + apply mapAlter_Forall; [done|]. cbn. intros v (Hv & Hf & Hs).
      split; [by destruct v|]. split; [done|].
      apply Forall_app. split; [done|]. by constructor.
    + by apply (mapAlter_concat _ _ _ g).
  - unfold mapSet. rewrite Hget. split; [split|].
    + rewrite fmap_app. apply NoDup_app. split; [done|]. split.
      * intros x Hx Hk. apply elem_of_cons in Hk as [->|Hk];
          [|by apply elem_of_nil in Hk].
        by apply mapGet_None in Hget.
      * apply NoDup_singleton.
    + apply Forall_app. split; [done|]. constructor; [|constructor]. cbn.
      split; [done|]. split; [done|]. by constructor.
    + rewrite fmap_app, concat_app. done.
Qed.

Lemma keptSessions_cons filter s sessions :
  keptSessions filter (s :: sessions)
  = keptSessions filter [s] ++ keptSessions filter sessions.
Proof.
  unfold keptSessions. cbn [List.filter].
  by destruct (negb (filteredOut filter (SessionInfo.projectName s))).
Qed.

Lemma projectGroups_spec filter (sessions : list SessionInfo.t) m :
  groupsOk filter m →
  groupsOk filter (fold_left (projectGroupStep filter) sessions m)
  ∧ concat (fold_left (projectGroupStep filter) sessions m).*2
    ≡ₚ concat m.*2 ++ keptSessions filter sessions.
Proof.
  revert m. induction sessions as [|s sessions IH]; intros m Hm; cbn [fold_left].
  - split; [done|]. unfold keptSessions. cbn. by rewrite app_nil_r.
  - destruct (projectGroupStep_spec filter m s Hm) as [Hok Hperm].
    destruct (IH _ Hok) as [Hok' Hperm'].
    split; [done|]. rewrite Hperm', Hperm, (keptSessions_cons filter s sessions).
    by rewrite <- app_assoc.
Qed.

Lemma summaries_totals rt files privacy (groups : list (string * list SessionInfo.t)) :
  let summaries :=
    (λ '(name, projectSessions), summarizeProject rt files privacy name projectSessions)
      <$> groups in
  sum_list (ProjectSummary.sessionCount <$> summaries) = length (concat groups.*2)
  ∧ sum_list (ProjectSummary.promptCount <$> summaries)
    = promptTotal (concat groups.*2)
  ∧ ProjectSummary.projectName <$> summaries = groups.*1.
Proof.
  induction groups as [|[name g] groups (IH1 & IH2 & IH4)]; cbn zeta.
  - split; [done|]. split; done.
  - rewrite !fmap_cons. cbn [sum_list sum_list_with concat snd fst].
    cbn zeta in IH1, IH2, IH4.
    split; [|split].
    + rewrite IH1, length_app. done.
    + rewrite IH2, promptTotal_app. done.
    + by rewrite IH4.
Qed.

(** X22: the project summaries share out the sessions of the window that pass
    the project filter: no project name comes twice, the session counts
    add up to the number of those sessions and the prompt counts to the
    number of their prompts. The rows come in descending order of prompt
    count, each stands for one session at least under a name the filter
    accepts, and lists no branch, file or model twice. *)
Theorem buildProjectSummaries_conserves
    (rt : Runtime) (now : Z) (filter : SessionListFilter.t)
    (historyFile : option string) (files : SessionInfo.t → option string)
    (privacy : PrivacyConfig) :
  let summaries := buildProjectSummaries rt now filter historyFile files privacy in
  let range := resolveDateRange rt now (Some filter) in
  let kept :=
    keptSessions filter (readHistory rt historyFile range.1 range.2 privacy) in
  NoDup (ProjectSummary.projectName <$> summaries)
  ∧ sum_list (ProjectSummary.sessionCount <$> summaries) = length kept
  ∧ sum_list (ProjectSummary.promptCount <$> summaries) = promptTotal kept
  ∧ StronglySorted
      (λ a b, (ProjectSummary.promptCount b ≤ ProjectSummary.promptCount a)%nat)
      summaries
  ∧ Forall (λ s, (1 ≤ ProjectSummary.sessionCount s)%nat
                 ∧ filteredOut filter (ProjectSummary.projectName s) = false
                 ∧ NoDup (ProjectSummary.branches s)
                 ∧ NoDup (ProjectSummary.filesReferenced s)
                 ∧ NoDup (ProjectSummary.models s))
           summaries.
Proof.
  intros summaries range kept. subst summaries kept.
  unfold buildProjectSummaries. fold range. destruct range as [from to].
  cbn [fst snd].
  set (sessions := readHistory rt historyFile from to privacy).
  assert (groupsOk filter []) as H0 by (split; constructor).
  destruct (projectGroups_spec filter sessions [] H0) as [[Hnd Hall] Hperm].
  cbn [fmap list_fmap concat app] in Hperm.
  set (groups := fold_left (projectGroupStep filter) sessions []) in *.
  destruct (summaries_totals rt files privacy groups) as (T1 & T2 & T4).
  cbn zeta in T1, T2, T4.
  set (rows := (λ '(name, projectSessions),
                  summarizeProject rt files privacy name projectSessions) <$> groups)
    in *.
  pose proof (sortBy_perm (λ s, - Z.of_nat (ProjectSummary.promptCount s)) rows)
    as Hsort.
  split; [by rewrite Hsort, T4|].
  split; [by rewrite Hsort, T1, Hperm|].
  split; [rewrite Hsort, T2; by apply promptTotal_perm|].
  split.
  { eapply StronglySorted_weaken;
      [|apply (sortBy_strongly_sorted
                 (λ s, - Z.of_nat (ProjectSummary.promptCount s)))].
    cbn. intros; lia. }
  rewrite Hsort. unfold rows. apply Forall_fmap.
  eapply Forall_impl; [exact Hall|]. intros [name g] (Hne & Hf & _). cbn.
  split; [destruct g; [done|cbn; lia]|]. split; [done|].
  unfold unique. repeat split; apply fold_setAdd_NoDup; constructor.
Qed.

(** ** The three tiers of the sessions interface agree *)

Lemma resolveDateRange_orEmpty rt now filter :
  resolveDateRange rt now (Some (orEmptyFilter filter)) = resolveDateRange rt now filter.
Proof. by destruct filter. Qed.

Lemma keptSessions_byProjectName filter sessions :
  keptSessions (orEmptyFilter filter) sessions = Sessions.byProjectName filter sessions.
Proof.
  unfold keptSessions, Sessions.byProjectName, filteredOut.
  assert (SessionListFilter.project (orEmptyFilter filter)
          = filter ≫= SessionListFilter.project) as -> by (by destruct filter).
  destruct (nonEmpty (filter ≫= SessionListFilter.project)) as [p|].
  - induction sessions as [|s sessions IH]; [done|]. cbn [List.filter].
    rewrite negb_involutive, IH. done.
  - induction sessions as [|s sessions IH]; [done|]. cbn. by f_equal.
Qed.

(** X23: for one filter, the fast list, the list with metadata, the count and
    the project summaries speak of the same sessions: the count is the
    length of the list, the list with metadata holds the sessions of the
    list in the same order, each with its own metadata, the list is taken
    from what readHistory returns for the date range of the filter without
    reordering, and the session counts of the project summaries add up to
    the count. *)
Theorem sessions_tiers_agree
    (rt : Runtime) (now : Z) (historyFile : option string)
    (files : SessionInfo.t → option string) (privacy : PrivacyConfig)
    (filter : option SessionListFilter.t) :
  let listed := Sessions.list rt now historyFile privacy filter in
  let range := resolveDateRange rt now filter in
  Sessions.count rt now historyFile privacy filter = length listed
  ∧ SessionMeta.info <$> Sessions.listWithMeta rt now historyFile files privacy filter
    = listed
  ∧ listed `sublist_of` readHistory rt historyFile range.1 range.2 privacy
  ∧ sum_list (ProjectSummary.sessionCount
                <$> aggregateByProject rt now historyFile files privacy filter)
    = length listed.
Proof.
  intros listed range. subst listed.
  unfold Sessions.count, Sessions.list, Sessions.listWithMeta. fold range.
  pose proof (resolveDateRange_orEmpty rt now filter) as Hrange. fold range in Hrange.
  destruct range as [from to] eqn:Erange. cbn [fst snd].
  set (sessions := readHistory rt historyFile from to privacy).
  split.
  { unfold Sessions.byProjectName.
    by destruct (nonEmpty (filter ≫= SessionListFilter.project)). }
  split.
  { rewrite <- list_fmap_compose. rewrite <- (list_fmap_id (Sessions.byProjectName _ _)) at 2.
    apply list_fmap_ext. intros _ s _. cbn. unfold peekSession.
    destruct (files s); [|done]. by rewrite peekLines_info. }
  split.
  { unfold Sessions.byProjectName.
    destruct (nonEmpty (filter ≫= SessionListFilter.project)) as [p|]; [|done].
    generalize sessions. intros l. induction l as [|x l IH]; [done|].
    cbn [List.filter]. destruct (Str.includes _ _); by constructor. }
  unfold aggregateByProject, buildProjectSummaries. rewrite Hrange.
  fold sessions.
  assert (groupsOk (orEmptyFilter filter) []) as H0 by (split; constructor).
  destruct (projectGroups_spec (orEmptyFilter filter) sessions [] H0) as [_ Hperm].
  cbn [fmap list_fmap concat app] in Hperm.
  set (groups := fold_left (projectGroupStep (orEmptyFilter filter)) sessions []) in *.
  destruct (summaries_totals rt files privacy groups) as (T1 & _).
  cbn zeta in T1.
  rewrite (sortBy_perm (λ s, - Z.of_nat (ProjectSummary.promptCount s))).
  rewrite T1, Hperm. by rewrite keptSessions_byProjectName.
Qed.

(** ** Excluded projects: letter case, literal occurrences, the empty pattern *)





Lemma includes_empty s : Str.includes "" s = true.
Proof. by destruct s. Qed.


Lemma empty_pattern_excludes path config :
  EmptyString ∈ excludeProjects config → isProjectExcluded path config = true.
Proof.
  intros Hin. rewrite isProjectExcluded_existsb. apply existsb_exists.
  exists EmptyString. split; [by apply list_elem_of_In|]. apply includes_empty.
Qed.

(** X25: an empty string among the excluded projects excludes every project: it
    occurs in every path, so readHistory returns no session and
    readProjects no project, whatever the files hold. *)
Theorem empty_pattern_hides_everything
    (rt : Runtime) (file : option string) (from to : string)
    (dir : ProjectsDir) (privacy : PrivacyConfig) :
  EmptyString ∈ excludeProjects privacy →
  readHistory rt file from to privacy = [] ∧ readProjects dir privacy = [].
Proof.
  intros Hin. split.
  - unfold readHistory. destruct file as [text|]; [|done]. cbn zeta.
    assert (omap (acceptLine rt from to privacy) (splitLines text) = []) as ->; [|done].
    induction (splitLines text) as [|line lines IH]; [done|].
    cbn [omap list_omap]. rewrite IH. unfold acceptLine.
    destruct (Str.isBlank line); [done|].
    destruct (parseHistoryLine rt line) as [entry|]; [|done].
    destruct (_ || _); [done|]. by rewrite empty_pattern_excludes.
  - unfold readProjects. destruct (dirEntries dir) as [entries|]; [|done].
    induction entries as [|e entries IH]; [done|].
    cbn [omap list_omap]. rewrite IH. unfold readProject.
    destruct (Str.startsWith "." e); [done|]. by rewrite empty_pattern_excludes.
Qed.

(** The empty pattern at a concrete input: the log and the projects
    directory of the examples. *)
Lemma empty_pattern_hides_everything_witness :
  readHistory (Demo.runtime demoRows []) (Some demoLog) "2026-02-09" "2026-02-10"
    (withExcludes [EmptyString] LOCAL_PROFILE) = []
  ∧ readProjects demoProjects (withExcludes [EmptyString] LOCAL_PROFILE) = [].
Proof.
  apply (empty_pattern_hides_everything (Demo.runtime demoRows []) (Some demoLog)
           "2026-02-09" "2026-02-10" demoProjects
           (withExcludes [EmptyString] LOCAL_PROFILE)).
  cbn. left.
Defined.

(** ** Compaction of absolute paths: what it leaves alone, what it keeps *)

Lemma matchAbsolutePath_None s :
  String.prefix "/Users/" s = false → String.prefix "/home/" s = false →
  matchAbsolutePath s = None.
Proof. unfold matchAbsolutePath. by intros -> ->. Qed.

(** X26: a text in which neither [/Users/] nor [/home/] occurs comes out of the
    compaction of absolute paths as it went in. *)
Theorem compactAbsolutePaths_frame (s : string) :
  Str.includes "/Users/" s = false → Str.includes "/home/" s = false →
  compactAbsolutePaths s = s.
Proof.
  unfold compactAbsolutePaths.
  induction s as [|c s IH]; [done|].
  cbn [Str.includes]. intros [Hu Hu']%orb_false_elim [Hh Hh']%orb_false_elim.
  cbn [compactPathsFrom]. rewrite (matchAbsolutePath_None _ Hu Hh).
  by rewrite IH.
Qed.

(** The frame at a concrete input: a relative path, and a path under
    another root. *)
Lemma compactAbsolutePaths_frame_witness :
  compactAbsolutePaths "see src/index.ts and /opt/tools/bin"
  = "see src/index.ts and /opt/tools/bin".
Proof.
  apply (compactAbsolutePaths_frame "see src/index.ts and /opt/tools/bin");
    reflexivity.
Defined.

Lemma compactPathsFrom_skip_all s k :
  (String.length s ≤ k)%nat → compactPathsFrom s k = EmptyString.
Proof.
  revert k. induction s as [|c s IH]; intros k; [done|].
  cbn [String.length compactPathsFrom]. destruct k as [|k]; [lia|].
  intros Hk. apply IH. lia.
Qed.

Lemma takeWhile_all p s :
  forallb p (list_ascii_of_string s) = true → Str.takeWhile p s = s.
Proof.
  induction s as [|c s IH]; [done|]. cbn [list_ascii_of_string forallb Str.takeWhile].
  intros [-> Hs]%andb_true_iff. by rewrite IH.
Qed.

Lemma append_empty_right s : s +:+ EmptyString = s.
Proof.
  induction s as [|c s IH]; [done|].
  change (String c s +:+ EmptyString) with (String c (s +:+ EmptyString)).
  by rewrite IH.
Qed.

Lemma compactPathsFrom_match c s m :
  matchAbsolutePath (String c s) = Some m →
  compactPathsFrom (String c s) 0
  = compactMatch m +:+ compactPathsFrom s (String.length m - 1).
Proof. intros Hm. cbn [compactPathsFrom]. by rewrite Hm. Qed.

Lemma compact_whole_match c s root name :
  matchAbsolutePath (String c s) = Some (String c s) →
  Str.split "/" (String c s) = [EmptyString; root; name] →
  compactAbsolutePaths (String c s) = root +:+ String "/" name.
Proof.
  intros Hm Hsplit. unfold compactAbsolutePaths.
  rewrite (compactPathsFrom_match c s _ Hm).
  rewrite compactPathsFrom_skip_all by (cbn [String.length]; lia).
  unfold compactMatch. rewrite Hsplit. cbn.
  by rewrite append_empty_right.
Qed.

(** X27: a path that stops at a home directory keeps the user name: for a name
    made of path characters without a slash, the compaction turns
    [/home/name] into [home/name], and likewise under [/Users/]. Only the
    leading slash goes. *)
Theorem compactAbsolutePaths_keeps_user (name : string) :
  name ≠ EmptyString →
  forallb pathChar (list_ascii_of_string name) = true →
  Str.hasChar "/" name = false →
  compactAbsolutePaths ("/home/" +:+ name) = "home/" +:+ name
  ∧ compactAbsolutePaths ("/Users/" +:+ name) = "Users/" +:+ name.
Proof.
  intros Hne Hpath Hslash.
  assert (Str.split "/" name = [name]) as Hsplit by (by apply split_no_sep).
  pose proof (takeWhile_all _ _ Hpath) as Hrun.
  split.
  - change ("/home/" +:+ name)
      with (String "/" (String "h" (String "o" (String "m" (String "e"
              (String "/" name)))))).
    change ("home/" +:+ name) with ("home" +:+ String "/" name).
    apply compact_whole_match.
    + unfold matchAbsolutePath.
      change (String.prefix "/Users/" _) with false. cbn iota.
      assert (String.prefix "/home/"
                (String "/" (String "h" (String "o" (String "m" (String "e"
                   (String "/" name)))))) = true) as ->.
      { cbn. by destruct name. }
      change (Str.drop (String.length "/home/") _) with name.
      rewrite Hrun. by destruct name.
    + cbn [Str.split Ascii.eqb Bool.eqb]. by rewrite Hsplit.
  - change ("/Users/" +:+ name)
      with (String "/" (String "U" (String "s" (String "e" (String "r"
              (String "s" (String "/" name))))))).
    change ("Users/" +:+ name) with ("Users" +:+ String "/" name).
    apply compact_whole_match.
    + unfold matchAbsolutePath.
      assert (String.prefix "/Users/"
                (String "/" (String "U" (String "s" (String "e" (String "r"
                   (String "s" (String "/" name))))))) = true) as ->.
      { cbn. by destruct name. }
      change (Str.drop (String.length "/Users/") _) with name.
      rewrite Hrun. by destruct name.
    + cbn [Str.split Ascii.eqb Bool.eqb]. by rewrite Hsplit.
Qed.

(** The user name kept at a concrete input. *)
Lemma compactAbsolutePaths_keeps_user_witness :
  compactAbsolutePaths "/home/bob" = "home/bob"
  ∧ compactAbsolutePaths "/Users/bob" = "Users/bob".
Proof.
  apply (compactAbsolutePaths_keeps_user "bob"); [discriminate|reflexivity..].
Defined.

(** ** Date strings: one-day windows, and the order of the calendar *)

Lemma nat_of_ascii_inj a b : nat_of_ascii a = nat_of_ascii b → a = b.
Proof.
  intros H. rewrite <- (ascii_nat_embedding a), <- (ascii_nat_embedding b).
  by rewrite H.
Qed.

Lemma ltb_irrefl a : Str.ltb a a = false.
Proof.
  induction a as [|c a IH]; [done|]. cbn [Str.ltb].
  by rewrite Nat.ltb_irrefl.
Qed.

Lemma ltb_total a b : Str.ltb a b = false → Str.ltb b a = false → a = b.
Proof.
  revert b. induction a as [|x a IH]; intros [|y b]; cbn [Str.ltb]; try done.
  destruct (nat_of_ascii x <? nat_of_ascii y)%nat eqn:E1; [done|].
  destruct (nat_of_ascii y <? nat_of_ascii x)%nat eqn:E2; [done|].
  intros Hab Hba. apply Nat.ltb_ge in E1, E2.
  rewrite (nat_of_ascii_inj x y) by lia. f_equal. by apply IH.
Qed.

(** X28: a window of one day is the test for that day: the range test of the
    task, todo and plan readers, asked with the same date at both ends,
    answers as the same-date test does, and readHistory asked for the
    window from a date to itself keeps exactly the records whose local
    date is that date. *)
Theorem single_day_window (rt : Runtime) (date : string) :
  (∀ fileDate, isInDateRange rt fileDate date date = isSameDate rt fileDate date)
  ∧ (∀ r, inWindow rt date date r = true
          ↔ toLocalDate rt (HistoryEntry.timestamp r) = date).
Proof.
  assert (∀ s, negb (Str.ltb s date) && negb (Str.ltb date s) = true ↔ s = date)
    as Hone.
  { intros s. split.
    - intros [H1 H2]%andb_true_iff. apply negb_true_iff in H1, H2.
      by apply ltb_total.
    - intros ->. by rewrite ltb_irrefl. }
  split.
  - intros fileDate. unfold isInDateRange, isSameDate.
    destruct (dateFields rt fileDate) as [[year month0] day].
    set (s := pretty year +:+ _).
    destruct (String.eqb s date) eqn:E.
    + apply String.eqb_eq in E. by apply Hone.
    + apply String.eqb_neq in E.
      destruct (negb (Str.ltb s date) && negb (Str.ltb date s)) eqn:E'; [|done].
      by apply Hone in E'.
  - intros r. unfold inWindow. apply Hone.
Qed.

(** X29: for dates with a four-digit year the date strings compare as the
    dates do: the string of one timestamp is below the string of another
    exactly when its date comes first in the calendar, and two timestamps
    get the same string exactly when they fall on the same day. *)
Theorem toLocalDate_order (rt : Runtime) (t1 t2 : Z) :
  fourDigitYear (calendarDate rt t1) → fourDigitYear (calendarDate rt t2) →
  (Str.ltb (toLocalDate rt t1) (toLocalDate rt t2) = true
   ↔ calendarBefore (calendarDate rt t1) (calendarDate rt t2))
  ∧ (toLocalDate rt t1 = toLocalDate rt t2 ↔ calendarDate rt t1 = calendarDate rt t2).
Proof.
  intros H1 H2.
  rewrite (toLocalDate_isoDate rt t1 H1), (toLocalDate_isoDate rt t2 H2).
  pose proof (ltb_isoDate _ _ H1 H2) as H12.
  pose proof (ltb_isoDate _ _ H2 H1) as H21.
  split; [done|]. split; [|by intros ->].
  intros Heq. rewrite Heq, ltb_irrefl in H12. rewrite Heq, ltb_irrefl in H21.
  destruct (calendarDate rt t1) as [[y1 m1] d1], (calendarDate rt t2) as [[y2 m2] d2].
  unfold calendarBefore in *.
  assert (¬ (y1 < y2 ∨ y1 = y2 ∧ (m1 < m2 ∨ m1 = m2 ∧ d1 < d2))) as N12
    by (intros H; by apply H12 in H).
  assert (¬ (y2 < y1 ∨ y2 = y1 ∧ (m2 < m1 ∨ m2 = m1 ∧ d2 < d1))) as N21
    by (intros H; by apply H21 in H).
  assert (y1 = y2 ∧ m1 = m2 ∧ d1 = d2) as (-> & -> & ->) by lia. done.
Qed.

(** The order of the date strings at a concrete input: the 9th and the
    10th of February 2026 on the host of the examples. *)
Lemma toLocalDate_order_witness :
  Str.ltb (toLocalDate (Demo.runtime [] []) 1770638400000)
          (toLocalDate (Demo.runtime [] []) 1770724800000) = true.
Proof.
  apply (proj1 (toLocalDate_order (Demo.runtime [] []) 1770638400000 1770724800000
                  ltac:(vm_compute; intuition discriminate)
                  ltac:(vm_compute; intuition discriminate))).
  vm_compute. right. split; [reflexivity|]. right. split; reflexivity.
Defined.
